(** * Nexus Arena: a shallow embedding of the client's data flow

    The development follows the TypeScript sources:
    - [utils/avatar.ts]                          (module [Avatar]),
    - [services/api.ts]                          (modules [Api], [Services]),
    - [pages/Teams.tsx]                          (module [Teams]),
    - the notifications hook [useNotifications]  (module [Notifications]),
    - [components/chat/ChatDrawer.tsx]           (module [ChatDrawer]),
    - [useChatMessages] and [useChats.joinChat]  (module [UseChats]).

    Client code awaits the hosted backend and updates React state; it is
    written in a small monad of remote calls, state updates and notices
    (module [Remote]) and run against a backend given as a transition
    function, so that the requests a function sends can be counted and the
    answers it receives can be varied.

    JavaScript numbers are modelled by [Z]: every number these functions
    compute is an integer far below 2^53, where doubles are exact. *)

From Stdlib Require Import ZArith List String Ascii Bool Lia.
From Stdlib Require Import DecimalString Permutation.
Import ListNotations.

Local Open Scope string_scope.
Local Open Scope Z_scope.

(** ** Results of fallible code: a value, or a thrown exception *)

Inductive outcome (E A : Type) : Type :=
| Returned (a : A)
| Thrown (e : E).
Arguments Returned {E A} a.
Arguments Thrown {E A} e.

(** * utils/avatar.ts *)

Module Avatar.

(** A JavaScript string is a sequence of UTF-16 code units. *)
Definition jsstring := list Z.

Definition units_of_string (s : string) : jsstring :=
  map (fun a => Z.of_nat (nat_of_ascii a)) (list_ascii_of_string s).

Definition AVATAR_STYLES : list string :=
  ["avataaars"; "bottts"; "lorelei"; "micah"; "miniavs"; "personas"].

Definition BACKGROUND_COLORS : list string :=
  ["b6e3f4"; "c0aede"; "ffd5dc"; "ffdfbf"; "d1d4f9"].

(** [arr[i]] on a JavaScript array: [undefined] (here [None]) outside the
    array, also for a negative index. *)
Definition js_index {A : Type} (arr : list A) (i : Z) : option A :=
  if i <? 0 then None else nth_error arr (Z.to_nat i).

(** [`${x}`] of a string that may be [undefined]. *)
Definition template (x : option string) : string :=
  match x with
  | Some s => s
  | None => "undefined"
  end.

(** [seed.split('').reduce((acc, char) => acc + char.charCodeAt(0), 0)]
    under [Math.abs]: [split('')] yields one string per code unit and
    [charCodeAt(0)] gives that unit back. *)
Definition hashString (seed : jsstring) : Z :=
  Z.abs (fold_left (fun acc char => acc + char) seed 0).

(** *** encodeURIComponent (ECMA-262, Encode with the unreserved set) *)

Inductive URIError : Type := URIMalformed.

Definition in_range (lo hi c : Z) : bool := (lo <=? c) && (c <=? hi).

(** A-Z a-z 0-9 and the marks - _ . ! ~ * ' ( ) are copied unescaped. *)
Definition uriUnreserved (c : Z) : bool :=
  in_range 65 90 c || in_range 97 122 c || in_range 48 57 c
  || existsb (Z.eqb c) [45; 95; 46; 33; 126; 42; 39; 40; 41].

Definition isLeadSurrogate (c : Z) : bool := in_range 55296 56319 c.
Definition isTrailSurrogate (c : Z) : bool := in_range 56320 57343 c.

Definition utf8 (cp : Z) : list Z :=
  if cp <? 128 then [cp]
  else if cp <? 2048 then
    [Z.lor 192 (Z.shiftr cp 6); Z.lor 128 (Z.land cp 63)]
  else if cp <? 65536 then
    [Z.lor 224 (Z.shiftr cp 12);
     Z.lor 128 (Z.land (Z.shiftr cp 6) 63);
     Z.lor 128 (Z.land cp 63)]
  else
    [Z.lor 240 (Z.shiftr cp 18);
     Z.lor 128 (Z.land (Z.shiftr cp 12) 63);
     Z.lor 128 (Z.land (Z.shiftr cp 6) 63);
     Z.lor 128 (Z.land cp 63)].

Definition hexDigit (d : Z) : ascii :=
  if d <? 10 then ascii_of_nat (Z.to_nat (48 + d))
  else ascii_of_nat (Z.to_nat (55 + d)).

Definition percentEscape (octet : Z) (rest : string) : string :=
  String "%" (String (hexDigit (octet / 16))
                     (String (hexDigit (octet mod 16)) rest)).

Definition escapeOctets (octets : list Z) (rest : string) : string :=
  fold_right percentEscape rest octets.

Fixpoint encodeURIComponent (s : jsstring) : outcome URIError string :=
  match s with
  | [] => Returned ""
  | c :: rest =>
    if uriUnreserved c then
      match encodeURIComponent rest with
      | Returned r => Returned (String (ascii_of_nat (Z.to_nat c)) r)
      | Thrown e => Thrown e
      end
    else if isTrailSurrogate c then Thrown URIMalformed
    else if isLeadSurrogate c then
      match rest with
      | [] => Thrown URIMalformed
      | d :: rest' =>
        if isTrailSurrogate d then
          match encodeURIComponent rest' with
          | Returned r =>
            Returned (escapeOctets
                        (utf8 ((c - 55296) * 1024 + (d - 56320) + 65536)) r)
          | Thrown e => Thrown e
          end
        else Thrown URIMalformed
      end
    else
      match encodeURIComponent rest with
      | Returned r => Returned (escapeOctets (utf8 c) r)
      | Thrown e => Thrown e
      end
  end.

(** *** generateAvatar *)

Definition styleIndexOf (seed : jsstring) (style : option Z) : Z :=
  match style with
  | Some s => s
  | None => Z.rem (hashString seed) (Z.of_nat (List.length AVATAR_STYLES))
  end.

Definition colorIndexOf (seed : jsstring) : Z :=
  Z.rem (hashString seed) (Z.of_nat (List.length BACKGROUND_COLORS)).

Definition avatarUrl (styleName : option string) (encoded : string)
                     (backgroundColor : option string) : string :=
  "https://api.dicebear.com/6.x/" ++ template styleName ++ "/svg?seed="
    ++ encoded ++ "&backgroundColor=" ++ template backgroundColor.

(** The optional [style] is a JavaScript number; an integer is the only
    kind of number that can index the array, so it is a [Z] here. *)
Definition generateAvatar (seed : jsstring) (style : option Z)
  : outcome URIError string :=
  let styleIndex := styleIndexOf seed style in
  let colorIndex := colorIndexOf seed in
  let backgroundColor := js_index BACKGROUND_COLORS colorIndex in
  let styleName := js_index AVATAR_STYLES styleIndex in
  match encodeURIComponent seed with
  | Returned enc => Returned (avatarUrl styleName enc backgroundColor)
  | Thrown e => Thrown e
  end.

Record avatarOptions : Type := {
  opt_style : option Z;
  opt_size : option Z;
  opt_backgroundColor : option string
}.

Definition noOptions : avatarOptions :=
  {| opt_style := None; opt_size := None; opt_backgroundColor := None |}.

Definition numberToString (n : Z) : string :=
  NilZero.string_of_int (Z.to_int n).

Definition generateAvatarWithOptions (seed : jsstring) (options : avatarOptions)
  : outcome URIError string :=
  let styleIndex :=
    match opt_style options with
    | Some s => s
    | None => Z.rem (hashString seed) (Z.of_nat (List.length AVATAR_STYLES))
    end in
  let styleName := js_index AVATAR_STYLES styleIndex in
  let size := match opt_size options with Some n => n | None => 128 end in
  let backgroundColor :=
    match opt_backgroundColor options with
    | Some c => Some c
    | None => js_index BACKGROUND_COLORS
                (Z.rem (hashString seed) (Z.of_nat (List.length BACKGROUND_COLORS)))
    end in
  match encodeURIComponent seed with
  | Returned enc =>
    Returned (avatarUrl styleName enc backgroundColor
                ++ "&size=" ++ numberToString size)
  | Thrown e => Thrown e
  end.

(** *** The seeds the interface description speaks of *)

Definition charCodeSum (seed : jsstring) : Z := fold_right Z.add 0 seed.

(** Every element is a UTF-16 code unit. *)
Definition wellFormedUnits (seed : jsstring) : Prop :=
  Forall (fun c => 0 <= c < 65536) seed.

(** [String.prototype.isWellFormed]: no lone surrogate, that is, every
    lead surrogate is followed by a trail surrogate and no trail surrogate
    stands elsewhere. *)
Fixpoint isWellFormed (s : jsstring) : bool :=
  match s with
  | [] => true
  | c :: rest =>
    if isTrailSurrogate c then false
    else if isLeadSurrogate c then
      match rest with
      | d :: rest' => isTrailSurrogate d && isWellFormed rest'
      | [] => false
      end
    else isWellFormed rest
  end.

End Avatar.

(** * JavaScript values on the wire

    Rows, payloads and errors exchanged with the hosted backend are JSON
    values; [teamData], [filters] and the thrown exceptions are typed [any]
    in the sources and are modelled the same way. *)

Module Js.

#[local] Set Warnings "-register-all".

Inductive value : Type :=
| VUndefined
| VNull
| VBool (b : bool)
| VNum (n : Z)
| VStr (s : string)
| VArr (items : list value)
| VObj (fields : list (string * value)).

(** ToBoolean: [if (x)], [!x], [x || y], [x && y]. *)
Definition truthy (v : value) : bool :=
  match v with
  | VUndefined | VNull => false
  | VBool b => b
  | VNum n => negb (n =? 0)
  | VStr s => negb (String.eqb s "")
  | VArr _ | VObj _ => true
  end.

(** [a || b] *)
Definition orElse (a b : value) : value := if truthy a then a else b.

Fixpoint lookup (k : string) (fields : list (string * value)) : option value :=
  match fields with
  | [] => None
  | (k', x) :: rest => if String.eqb k k' then Some x else lookup k rest
  end.

(** [v.k] for a [v] that is neither [null] nor [undefined]. *)
Definition field (k : string) (v : value) : value :=
  match v with
  | VObj fields =>
    match lookup k fields with
    | Some x => x
    | None => VUndefined
    end
  | VArr items =>
    if String.eqb k "length" then VNum (Z.of_nat (List.length items))
    else VUndefined
  | VStr s =>
    if String.eqb k "length" then VNum (Z.of_nat (String.length s))
    else VUndefined
  | _ => VUndefined
  end.

Definition mkError (name message : string) : value :=
  VObj [("name", VStr name); ("message", VStr message)].

(** [v.k] in general: reading a property of [null] or [undefined] throws a
    TypeError. *)
Definition prop (v : value) (k : string) : outcome value value :=
  match v with
  | VUndefined | VNull =>
    Thrown (mkError "TypeError" ("Cannot read properties of null or undefined: " ++ k))
  | _ => Returned (field k v)
  end.

(** [{ ...fields, k: x }]: an existing key keeps its place. *)
Fixpoint assign (k : string) (x : value) (fields : list (string * value))
  : list (string * value) :=
  match fields with
  | [] => [(k, x)]
  | (k', y) :: rest =>
    if String.eqb k k' then (k, x) :: rest else (k', y) :: assign k x rest
  end.

Definition indexKey (i : nat) : string := NilZero.string_of_uint (Nat.to_uint i).

Fixpoint indexed (i : nat) (items : list value) : list (string * value) :=
  match items with
  | [] => []
  | x :: rest => (indexKey i, x) :: indexed (S i) rest
  end.

Definition chars (s : string) : list value :=
  map (fun a => VStr (String a "")) (list_ascii_of_string s).

(** A property the sources type as [string], read as one: the rows of
    every table carry their [id] as a string
    (integrations/supabase/types.ts). *)
Definition asString (v : value) : string :=
  match v with
  | VStr s => s
  | _ => ""
  end.

(** A property typed [string | null | undefined]. *)
Definition optString (v : value) : option string :=
  match v with
  | VStr s => Some s
  | _ => None
  end.

(** The own enumerable properties copied by [{ ...v }]. *)
Definition spread (v : value) : list (string * value) :=
  match v with
  | VObj fields => fields
  | VArr items => indexed 0 items
  | VStr s => indexed 0 (chars s)
  | _ => []
  end.

End Js.

(** * The hosted backend seen from the client

    A request is what the query builder of the client library has
    accumulated when it is awaited; the backend answers with a pair of
    [data] and [error]. *)

Module Remote.
Import Js.

Inductive method : Type := SELECT | INSERT | UPDATE | DELETE.

Inductive condition : Type :=
| Eq (column : string) (v : value)
| Gte (column : string) (v : value)
| Lte (column : string) (v : value)
| Contains (column : string) (v : value).

Inductive shape : Type := Rows | Single | MaybeSingle.

Record request : Type := {
  req_table : string;
  req_method : method;
  req_body : value;
  req_columns : option string;
  req_filters : list condition;
  req_order : option (string * bool);
  req_shape : shape
}.

Record response : Type := {
  data : value;
  error : value
}.

(** [supabase.from(t).select(cols)], [.insert(body)], [.update(body)],
    [.delete()] *)
Definition mkRequest (t : string) (m : method) (body : value)
                     (cols : option string) : request :=
  {| req_table := t; req_method := m; req_body := body; req_columns := cols;
     req_filters := []; req_order := None; req_shape := Rows |}.

Definition select_from (t cols : string) : request :=
  mkRequest t SELECT VUndefined (Some cols).
Definition insert_into (t : string) (body : value) : request :=
  mkRequest t INSERT body None.
Definition update_in (t : string) (body : value) : request :=
  mkRequest t UPDATE body None.
Definition delete_from (t : string) : request :=
  mkRequest t DELETE VUndefined None.

Definition with_filter (f : condition) (q : request) : request :=
  {| req_table := req_table q; req_method := req_method q;
     req_body := req_body q; req_columns := req_columns q;
     req_filters := (req_filters q ++ [f])%list; req_order := req_order q;
     req_shape := req_shape q |}.

Definition eq (column : string) (v : value) := with_filter (Eq column v).
Definition gte (column : string) (v : value) := with_filter (Gte column v).
Definition lte (column : string) (v : value) := with_filter (Lte column v).
Definition contains (column : string) (v : value) :=
  with_filter (Contains column v).

(** [.select()] after a mutation: return the written rows. *)
Definition returning (q : request) : request :=
  {| req_table := req_table q; req_method := req_method q;
     req_body := req_body q; req_columns := Some "*";
     req_filters := req_filters q; req_order := req_order q;
     req_shape := req_shape q |}.

Definition order (column : string) (ascending : bool) (q : request) : request :=
  {| req_table := req_table q; req_method := req_method q;
     req_body := req_body q; req_columns := req_columns q;
     req_filters := req_filters q; req_order := Some (column, ascending);
     req_shape := req_shape q |}.

Definition with_shape (sh : shape) (q : request) : request :=
  {| req_table := req_table q; req_method := req_method q;
     req_body := req_body q; req_columns := req_columns q;
     req_filters := req_filters q; req_order := req_order q;
     req_shape := sh |}.

Definition single := with_shape Single.
Definition maybeSingle := with_shape MaybeSingle.

Notation "q |> f" := (f q) (at level 45, left associativity, only parsing).

(** What the client shows or logs. Template literals and concatenations are
    kept as a label with the interpolated values beside it. *)
Inductive event : Type :=
| ConsoleError (label : string) (args : list value)
| ConsoleLog (label : string) (args : list value)
| Toast (title description : string)
| ToastSuccess (message : string)
| ToastError (label : string) (args : list value).

(** ** Asynchronous client code

    [S] is the React state owned by the component or hook that runs the
    code; [SetState f] is a functional update [setX(prev => f prev)]. *)
Inductive prog (S A : Type) : Type :=
| Ret (a : A)
| Throw (e : value)
| Await (q : request) (k : response -> prog S A)
| SetState (f : S -> S) (k : prog S A)
| Emit (ev : event) (k : prog S A).
Arguments Ret {S A} a.
Arguments Throw {S A} e.
Arguments Await {S A} q k.
Arguments SetState {S A} f k.
Arguments Emit {S A} ev k.

Fixpoint bind {S A B : Type} (p : prog S A) (f : A -> prog S B) : prog S B :=
  match p with
  | Ret a => f a
  | Throw e => Throw e
  | Await q k => Await q (fun r => bind (k r) f)
  | SetState g k => SetState g (bind k f)
  | Emit ev k => Emit ev (bind k f)
  end.

(** [try { p } catch (e) { h e }] *)
Fixpoint tryCatch {S A : Type} (p : prog S A) (h : value -> prog S A)
  : prog S A :=
  match p with
  | Ret a => Ret a
  | Throw e => h e
  | Await q k => Await q (fun r => tryCatch (k r) h)
  | SetState g k => SetState g (tryCatch k h)
  | Emit ev k => Emit ev (tryCatch k h)
  end.

(** [try { p } finally { f }] for an [f] that neither returns nor throws. *)
Fixpoint tryFinally {S A : Type} (p : prog S A) (f : prog S unit)
  : prog S A :=
  match p with
  | Ret a => bind f (fun _ => Ret a)
  | Throw e => bind f (fun _ => Throw e)
  | Await q k => Await q (fun r => tryFinally (k r) f)
  | SetState g k => SetState g (tryFinally k f)
  | Emit ev k => Emit ev (tryFinally k f)
  end.

Notation "x <- p ;; k" := (bind p (fun x => k))
  (at level 61, p at next level, right associativity).
Notation "p ;;; k" := (bind p (fun _ => k))
  (at level 61, right associativity).

Definition await {S : Type} (q : request) : prog S response :=
  Await q (fun r => Ret r).
Definition setState {S : Type} (f : S -> S) : prog S unit :=
  SetState f (Ret tt).
Definition emit {S : Type} (ev : event) : prog S unit := Emit ev (Ret tt).
Definition console_error {S : Type} (label : string) (args : list value)
  : prog S unit := emit (ConsoleError label args).
Definition lift {S A : Type} (o : outcome value A) : prog S A :=
  match o with
  | Returned a => Ret a
  | Thrown e => Throw e
  end.

(** The settled state of a promise, as a value. *)
Definition settle {S A : Type} (p : prog S A) : prog S (outcome value A) :=
  tryCatch (a <- p ;; Ret (Returned a)) (fun e => Ret (Thrown e)).

(** [Promise.all(ps)]: every promise is started; the result is the list of
    results, or the rejection of the first one (in array order) that
    rejected. Requests are served in array order. *)
Fixpoint promiseAll {S A : Type} (ps : list (prog S A)) : prog S (list A) :=
  match ps with
  | [] => Ret []
  | p :: rest =>
    o <- settle p ;;
    os <- settle (promiseAll rest) ;;
    match o, os with
    | Thrown e, _ => Throw e
    | Returned _, Thrown e => Throw e
    | Returned a, Returned l => Ret (a :: l)
    end
  end.

(** ** Running client code against a backend *)

Record backend : Type := {
  db : Type;
  serve : db -> request -> db * response
}.

Inductive obs : Type :=
| Request (q : request) (r : response)
| Event (ev : event).

Record run_result (B : backend) (S A : Type) : Type := {
  final_db : db B;
  final_state : S;
  trace : list obs;
  result : outcome value A
}.
Arguments final_db {B S A} r.
Arguments final_state {B S A} r.
Arguments trace {B S A} r.
Arguments result {B S A} r.

Fixpoint run {S A : Type} (B : backend) (p : prog S A) (d : db B) (s : S)
  : run_result B S A :=
  match p with
  | Ret a =>
    {| final_db := d; final_state := s; trace := []; result := Returned a |}
  | Throw e =>
    {| final_db := d; final_state := s; trace := []; result := Thrown e |}
  | Await q k =>
    let '(d', r) := serve B d q in
    let out := run B (k r) d' s in
    {| final_db := final_db out; final_state := final_state out;
       trace := Request q r :: trace out; result := result out |}
  | SetState f k =>
    run B k d (f s)
  | Emit ev k =>
    let out := run B k d s in
    {| final_db := final_db out; final_state := final_state out;
       trace := Event ev :: trace out; result := result out |}
  end.

(** What follows a run [o]: the continuation [next] started where [o]
    stopped, with the traces joined. *)
Definition andThen {B : backend} {S A C : Type} (o : run_result B S A)
           (next : db B -> S -> run_result B S C) : run_result B S C :=
  let o2 := next (final_db o) (final_state o) in
  {| final_db := final_db o2; final_state := final_state o2;
     trace := (trace o ++ trace o2)%list; result := result o2 |}.

Definition stopped {B : backend} {S A C : Type} (o : run_result B S A) (e : value)
  : run_result B S C :=
  {| final_db := final_db o; final_state := final_state o;
     trace := trace o; result := Thrown e |}.

(** The remote operations of a run, in order, and what was logged. *)
Fixpoint requests (t : list obs) : list request :=
  match t with
  | [] => []
  | Request q _ :: rest => q :: requests rest
  | Event _ :: rest => requests rest
  end.

Fixpoint responses (t : list obs) : list response :=
  match t with
  | [] => []
  | Request _ r :: rest => r :: responses rest
  | Event _ :: rest => responses rest
  end.

Fixpoint events (t : list obs) : list event :=
  match t with
  | [] => []
  | Request _ _ :: rest => events rest
  | Event ev :: rest => ev :: events rest
  end.

(** [if (error)] on an answer *)
Definition hasError (r : response) : bool := truthy (error r).

Definition returned {E A : Type} (o : outcome E A) : bool :=
  match o with
  | Returned _ => true
  | Thrown _ => false
  end.

End Remote.

(** * services/api.ts *)

Module Api.
Import Js Remote.

Section DataAccess.
Context {S : Type}.

(** The pattern shared by most functions: one awaited query, then
    [if (error) { console.error(label, error); throw error; }]. *)
Definition throwIfError (label : string) (r : response) : prog S unit :=
  if truthy (error r) then
    console_error label [error r] ;;; Throw (error r)
  else Ret tt.

(** ---- Teams API ---- *)

Definition updateTeam (id : string) (updates : value) : prog S value :=
  r <- await (update_in "teams" updates |> eq "id" (VStr id)
              |> returning |> single) ;;
  throwIfError "Error updating team:" r ;;;
  Ret (data r).

Definition deleteTeam (id : string) : prog S value :=
  r <- await (delete_from "teams" |> eq "id" (VStr id)) ;;
  throwIfError "Error deleting team:" r ;;;
  Ret (VBool true).

(** The callback mapped over [teamsData]: one member query per team. *)
Definition fetchMembers (team : value) : prog S value :=
  teamId <- lift (prop team "id") ;;
  r <- await (select_from "team_members" "*, profile:profiles(*)"
              |> eq "team_id" teamId) ;;
  if truthy (error r) then
    console_error "Error fetching members for team ${team.id}:"
                  [teamId; error r] ;;;
    (* Don't throw here, just return team without members *)
    Ret (VObj (assign "team_members" (VArr []) (spread team)))
  else
    Ret (VObj (assign "team_members" (orElse (data r) (VArr [])) (spread team))).

(** The part of [getTeams] after the teams query succeeded. *)
Definition attachMembers (teamsData : value) : prog S value :=
  (* If no teams, return empty array *)
  if negb (truthy teamsData)
     || match field "length" teamsData with
        | VNum 0 => true
        | _ => false
        end
  then Ret (VArr [])
  else
    (* For each team, fetch its members separately *)
    match teamsData with
    | VArr teams =>
      teamsWithMembers <- promiseAll (map fetchMembers teams) ;;
      Ret (VArr teamsWithMembers)
    | _ => Throw (mkError "TypeError" "teamsData.map is not a function")
    end.

Definition getTeams : prog S value :=
  tryCatch
    ((* First fetch all teams *)
     r <- await (select_from "teams" "*" |> order "created_at" false) ;;
     throwIfError "Error fetching teams:" r ;;;
     attachMembers (data r))
    (fun e => console_error "Error in getTeams:" [e] ;;; Throw e).

Definition getTeamById (id : string) : prog S value :=
  r <- await (select_from "teams"
                "*, team_members:team_members(profile:profiles(*))"
              |> eq "id" (VStr id) |> single) ;;
  throwIfError "Error fetching team with id ${id}:" r ;;;
  Ret (data r).

(** [now] is the reading of [new Date().toISOString()]. *)
Definition createTeam (now : string) (teamData : value) : prog S value :=
  tryCatch
    ((* Step 1: Create the team *)
     r <- await (insert_into "teams" teamData |> returning |> single) ;;
     throwIfError "Error creating team:" r ;;;
     let newTeam := data r in
     if negb (truthy newTeam) then
       Throw (mkError "Error" "Team created but no data returned")
     else
       (* Step 2: Add the creator as a team member *)
       created_by <- lift (prop teamData "created_by") ;;
       (if truthy created_by then
          let teamMemberData :=
            VObj [("team_id", field "id" newTeam);
                  ("user_id", created_by);
                  ("profile_id", created_by);
                  ("role", VStr "Captain");
                  ("joined_at", VStr now)] in
          r2 <- await (insert_into "team_members" teamMemberData) ;;
          if truthy (error r2) then
            (* Don't throw here, we still created the team successfully *)
            console_error "Error adding creator as team member:" [error r2]
          else Ret tt
        else Ret tt) ;;;
       (* Step 3: Return the team with empty team_members array *)
       Ret (VObj (assign "team_members" (VArr []) (spread newTeam))))
    (fun e => console_error "Error in createTeam:" [e] ;;; Throw e).

(** ---- Players/Profiles API ---- *)

(** [filters: any = {}]: the default replaces [undefined] only. *)
Definition getPlayers (filtersArg : value) : prog S value :=
  let filters := match filtersArg with
                 | VUndefined => VObj []
                 | _ => filtersArg
                 end in
  let query := select_from "profiles" "*" in
  game <- lift (prop filters "game") ;;
  let query := if truthy game
               then query |> contains "games" (VArr [game])
               else query in
  let query := if truthy (field "skillMin" filters)
                  && truthy (field "skillMax" filters)
               then query |> gte "skill_level" (field "skillMin" filters)
                          |> lte "skill_level" (field "skillMax" filters)
               else query in
  r <- await query ;;
  throwIfError "Error fetching players:" r ;;;
  Ret (orElse (data r) (VArr [])).

(** ---- Matches API ---- *)

Definition getMatches : prog S value :=
  r <- await (select_from "matches"
                "*, team1:teams!matches_team1_id_fkey(*), team2:teams!matches_team2_id_fkey(*)"
              |> order "date" false) ;;
  throwIfError "Error fetching matches:" r ;;;
  Ret (orElse (data r) (VArr [])).

Definition createMatch (matchData : value) : prog S value :=
  r <- await (insert_into "matches" matchData |> returning |> single) ;;
  throwIfError "Error creating match:" r ;;;
  Ret (data r).

(** ---- Player Requests API ---- *)

Definition getPlayerRequests : prog S value :=
  r <- await (select_from "player_requests"
                "*, sender:profiles!player_requests_sender_id_fkey(*), receiver:profiles!player_requests_receiver_id_fkey(*)"
              |> order "created_at" false) ;;
  throwIfError "Error fetching player requests:" r ;;;
  Ret (orElse (data r) (VArr [])).

Definition sendPlayerRequest (requestData : value) : prog S value :=
  r <- await (insert_into "player_requests" requestData
              |> returning |> single) ;;
  throwIfError "Error sending player request:" r ;;;
  Ret (data r).

Definition updatePlayerRequest (id status : string) : prog S value :=
  r <- await (update_in "player_requests" (VObj [("status", VStr status)])
              |> eq "id" (VStr id) |> returning |> single) ;;
  throwIfError "Error updating player request:" r ;;;
  Ret (data r).

(** ---- Notifications API ---- *)

Definition getNotifications (userId : string) : prog S value :=
  r <- await (select_from "notifications" "*" |> eq "user_id" (VStr userId)
              |> order "created_at" false) ;;
  throwIfError "Error fetching notifications:" r ;;;
  Ret (orElse (data r) (VArr [])).

Definition markNotificationAsRead (id : string) : prog S value :=
  r <- await (update_in "notifications" (VObj [("read", VBool true)])
              |> eq "id" (VStr id) |> returning |> single) ;;
  throwIfError "Error marking notification as read:" r ;;;
  Ret (data r).

End DataAccess.

End Api.

(** * pages/Teams.tsx *)

Module Teams.
Import Js Remote.

(** The state of the Teams page together with the submitting flag of the
    creation form it hosts. *)
Record state : Type := {
  teams : list value;
  myTeams : list value;
  isLoading : bool;
  createTeamDialogOpen : bool;
  isSubmitting : bool
}.

Definition setMyTeams (f : list value -> list value) (s : state) : state :=
  {| teams := teams s; myTeams := f (myTeams s); isLoading := isLoading s;
     createTeamDialogOpen := createTeamDialogOpen s;
     isSubmitting := isSubmitting s |}.

Definition setCreateTeamDialogOpen (b : bool) (s : state) : state :=
  {| teams := teams s; myTeams := myTeams s; isLoading := isLoading s;
     createTeamDialogOpen := b; isSubmitting := isSubmitting s |}.

Definition setIsSubmitting (b : bool) (s : state) : state :=
  {| teams := teams s; myTeams := myTeams s; isLoading := isLoading s;
     createTeamDialogOpen := createTeamDialogOpen s; isSubmitting := b |}.

(** [setMyTeams(prev => [newTeam, ...prev])] *)
Definition handleTeamCreated (newTeam : value) : prog state unit :=
  setState (setMyTeams (fun prev => newTeam :: prev)).

(** [() => setCreateTeamDialogOpen(false)], the [onClose] of the dialog. *)
Definition closeDialog : prog state unit :=
  setState (setCreateTeamDialogOpen false).

(** [profile?.id] *)
Definition profileId (profile : value) : value :=
  match profile with
  | VUndefined | VNull => VUndefined
  | _ => field "id" profile
  end.

Section CreateTeamForm.

(** The built-in [parseInt], applied to a form entry. *)
Variable parseInt : value -> value.
(** [new Date().toISOString()] as read inside [createTeam]. *)
Variable now : string.
(** [useAuth().profile] *)
Variable profile : value.
(** The component's props. *)
Variable onClose : prog state unit.
Variable onTeamCreated : option (value -> prog state unit).

Definition orUndefined (entry : value) (v : value) : value :=
  if truthy entry then v else VUndefined.

(** [formData.get(name)] is a string, or [null] for an absent entry. *)
Definition teamDataOf (formData : string -> value) : value :=
  VObj [("name", formData "teamName");
        ("logo_url", orElse (formData "teamLogo")
                            (VStr "https://i.pravatar.cc/150?img=15"));
        ("game", formData "teamGame");
        ("rank", orUndefined (formData "teamRank") (formData "teamRank"));
        ("max_members", orUndefined (formData "teamMaxMembers")
                                    (parseInt (formData "teamMaxMembers")));
        ("region", orUndefined (formData "teamRegion") (formData "teamRegion"));
        ("description", orUndefined (formData "teamDescription")
                                    (formData "teamDescription"));
        ("created_by", profileId profile);
        ("is_recruiting",
         orUndefined (formData "teamRecruiting")
                     (match formData "teamRecruiting" with
                      | VStr "yes" => VBool true
                      | _ => VBool false
                      end))].

Definition handleSubmit (formData : string -> value) : prog state unit :=
  setState (setIsSubmitting true) ;;;
  tryFinally
    (tryCatch
       (let teamData := teamDataOf formData in
        emit (ConsoleLog "Submitting teamData:" [teamData]) ;;;
        newTeam <- Api.createTeam now teamData ;;
        emit (ToastSuccess "Team created successfully!") ;;;
        match onTeamCreated with
        | Some callback => callback newTeam
        | None => Ret tt
        end ;;;
        onClose)
       (fun e =>
          console_error "Error creating team:" [e] ;;;
          emit (ToastError "Failed to create team: ${errorMessage}" [e])))
    (setState (setIsSubmitting false)).

End CreateTeamForm.

(** [MyTeamDetail]: [confirmed] is the answer to [window.confirm];
    [fetchTeams] is the component's prop. It is started without being
    awaited, so a rejection of it never reaches the [catch] below. *)
Definition handleDelete {S : Type} (confirmed : bool) (team : value)
                        (fetchTeams : option (prog S unit)) : prog S unit :=
  if negb confirmed then Ret tt
  else
    tryCatch
      (Api.deleteTeam (asString (field "id" team)) ;;;
       emit (ToastSuccess "Team deleted successfully!") ;;;
       match fetchTeams with
       | Some fetch => tryCatch fetch (fun _ => Ret tt)
       | None => Ret tt
       end)
      (fun e =>
         emit (ToastError "Failed to delete team: " [orElse (field "message" e)
                                                       (VStr "Unknown error")])).

End Teams.

(** * contexts/AuthContext: the signed-in user, as the hooks read it *)

Module Auth.

Record User : Type := {
  user_id : string;
  email : option string
}.

End Auth.

(** * hooks/use-notifications *)

Module Notifications.
Import Js Remote Auth.

Record Notification : Type := {
  id : string;
  recipient : string;          (* user_id *)
  title : string;
  message : string;
  type : string;               (* 'request' | 'chat' | 'team' | 'match' | 'system' *)
  read : bool;
  created_at : string;
  reference_id : option string;
  reference_type : option string
}.

(** [row as Notification]: the fields of a row of the notifications table. *)
Definition asNotification (row : value) : Notification :=
  {| id := asString (field "id" row);
     recipient := asString (field "user_id" row);
     title := asString (field "title" row);
     message := asString (field "message" row);
     type := asString (field "type" row);
     read := truthy (field "read" row);
     created_at := asString (field "created_at" row);
     reference_id := optString (field "reference_id" row);
     reference_type := optString (field "reference_type" row) |}.

(** [data as Notification[]] *)
Definition asNotifications (rows : value) : list Notification :=
  match rows with
  | VArr items => map asNotification items
  | _ => []
  end.

Record state : Type := {
  notifications : list Notification;
  unreadCount : Z;
  isLoading : bool
}.

(** [useState([])], [useState(0)], [useState(true)] *)
Definition initial : state :=
  {| notifications := []; unreadCount := 0; isLoading := true |}.

Definition setNotifications (f : list Notification -> list Notification)
                            (s : state) : state :=
  {| notifications := f (notifications s); unreadCount := unreadCount s;
     isLoading := isLoading s |}.

Definition setUnreadCount (f : Z -> Z) (s : state) : state :=
  {| notifications := notifications s; unreadCount := f (unreadCount s);
     isLoading := isLoading s |}.

Definition setIsLoading (b : bool) (s : state) : state :=
  {| notifications := notifications s; unreadCount := unreadCount s;
     isLoading := b |}.

(** [{ ...n, read: true }] *)
Definition withRead (n : Notification) : Notification :=
  {| id := id n; recipient := recipient n; title := title n;
     message := message n; type := type n; read := true;
     created_at := created_at n; reference_id := reference_id n;
     reference_type := reference_type n |}.

(** [list.filter(n => !n.read).length] *)
Definition countUnread (l : list Notification) : Z :=
  Z.of_nat (List.length (List.filter (fun n => negb (read n)) l)).

(** [data.filter(n => !n.read)] on the rows as they were received: the
    callback throws a TypeError on a row that is [null] or [undefined]. *)
Fixpoint unreadAmong (items : list value) : outcome value (list value) :=
  match items with
  | [] => Returned []
  | n :: rest =>
    match prop n "read" with
    | Thrown e => Thrown e
    | Returned flag =>
      match unreadAmong rest with
      | Thrown e => Thrown e
      | Returned kept => Returned (if truthy flag then kept else n :: kept)
      end
    end
  end.

(** [data.filter(n => !n.read).length]: only an array has [filter]. *)
Definition unreadOf (d : value) : outcome value Z :=
  match d with
  | VArr items =>
    match unreadAmong items with
    | Returned kept => Returned (Z.of_nat (List.length kept))
    | Thrown e => Thrown e
    end
  | _ => Thrown (mkError "TypeError" "data.filter is not a function")
  end.

(** The effect's [fetchNotifications]; the effect returns at once when no
    user is signed in. The list is stored before the unread ones are
    counted, so a count that throws leaves the new list with the old
    counter. The state holds notifications as the interface types them:
    of an answer that is no array of rows it keeps what can be read as
    such. *)
Definition fetchNotifications (user : option User) : prog state unit :=
  match user with
  | None => Ret tt
  | Some u =>
    tryFinally
      (tryCatch
         (r <- await (select_from "notifications" "*"
                      |> eq "user_id" (VStr (user_id u))
                      |> order "created_at" false) ;;
          if truthy (error r) then Throw (error r)
          else if truthy (data r) then
            setState (setNotifications (fun _ => asNotifications (data r))) ;;;
            unread <- lift (unreadOf (data r)) ;;
            setState (setUnreadCount (fun _ => unread))
          else Ret tt)
         (fun e => console_error "Error fetching notifications:"
                                 [field "message" e]))
      (setState (setIsLoading false))
  end.

(** The handler of row-insert events on the notifications channel. *)
Definition onInsert (newNotification : Notification) : prog state unit :=
  setState (setNotifications (fun current => newNotification :: current)) ;;;
  setState (setUnreadCount (fun count => count + 1)) ;;;
  emit (Toast (title newNotification) (message newNotification)).

Definition markAsRead (user : option User) (target : string)
  : prog state bool :=
  match user with
  | None => Ret false
  | Some _ =>
    tryCatch
      (r <- await (update_in "notifications" (VObj [("read", VBool true)])
                   |> eq "id" (VStr target)) ;;
       if truthy (error r) then Throw (error r)
       else
         setState (setNotifications
                     (map (fun n => if String.eqb (id n) target
                                    then withRead n else n))) ;;;
         setState (setUnreadCount (fun count => Z.max 0 (count - 1))) ;;;
         Ret true)
      (fun e => console_error "Error marking notification as read:"
                              [field "message" e] ;;;
                Ret false)
  end.

(** [shownUnread] is the [unreadCount] of the render whose closure runs. *)
Definition markAllAsRead (user : option User) (shownUnread : Z)
  : prog state bool :=
  match user with
  | None => Ret false
  | Some u =>
    if shownUnread =? 0 then Ret false
    else
      tryCatch
        (r <- await (update_in "notifications" (VObj [("read", VBool true)])
                     |> eq "user_id" (VStr (user_id u))
                     |> eq "read" (VBool false)) ;;
         if truthy (error r) then Throw (error r)
         else
           setState (setNotifications (map withRead)) ;;;
           setState (setUnreadCount (fun _ => 0)) ;;;
           Ret true)
        (fun e => console_error "Error marking all notifications as read:"
                                [field "message" e] ;;;
                  Ret false)
  end.

(** The operations of the hook, each run by a closure of the current
    render. *)
Inductive operation : Type :=
| Fetch (user : option User)
| Inserted (n : Notification)
| MarkAsRead (user : option User) (target : string)
| MarkAllAsRead (user : option User).

Definition perform (B : backend) (op : operation) (d : db B) (s : state)
  : db B * state :=
  match op with
  | Fetch user =>
    let out := run B (fetchNotifications user) d s in
    (final_db out, final_state out)
  | Inserted n =>
    let out := run B (onInsert n) d s in
    (final_db out, final_state out)
  | MarkAsRead user target =>
    let out := run B (markAsRead user target) d s in
    (final_db out, final_state out)
  | MarkAllAsRead user =>
    let out := run B (markAllAsRead user (unreadCount s)) d s in
    (final_db out, final_state out)
  end.

(** States of the hook reachable from its initial state, against the
    backend [B] started in [d0]. *)
Inductive reachable (B : backend) (d0 : db B) : db B -> state -> Prop :=
| reach_initial : reachable B d0 d0 initial
| reach_step d s op :
    reachable B d0 d s ->
    reachable B d0 (fst (perform B op d s)) (snd (perform B op d s)).

Definition consistent (s : state) : Prop :=
  unreadCount s = countUnread (notifications s).

End Notifications.

(** * The chat transcript: components/chat/ChatDrawer.tsx and hooks/use-chats *)

Module ChatTypes.
Import Js Auth.

Record MessageProfile : Type := {
  username : string;
  avatar_url : option string
}.

Record Message : Type := {
  id : string;
  content : string;
  author : string;             (* user_id *)
  chat_id : string;
  created_at : string;
  profile : option MessageProfile
}.

(** [{ ...newMsg, profile: p }] *)
Definition withProfile (m : Message) (p : MessageProfile) : Message :=
  {| id := id m; content := content m; author := author m;
     chat_id := chat_id m; created_at := created_at m; profile := Some p |}.

Definition unknownUser : MessageProfile :=
  {| username := "Unknown User"; avatar_url := None |}.

(** [s.split('@')[0]] *)
Fixpoint beforeAt (s : string) : string :=
  match s with
  | EmptyString => EmptyString
  | String c rest => if Ascii.eqb c "@" then EmptyString
                     else String c (beforeAt rest)
  end.

(** [user.email?.split('@')[0] || 'You'] *)
Definition emailName (u : User) : string :=
  match email u with
  | Some e => if String.eqb (beforeAt e) "" then "You" else beforeAt e
  | None => "You"
  end.

(** [`temp-${Date.now()}`] *)
Definition tempId (nowMs : Z) : string :=
  "temp-" ++ Avatar.numberToString nowMs.

(** [messages.some(m => m.id === newMsg.id)] *)
Definition hasId (messages : list Message) (i : string) : bool :=
  existsb (fun m => String.eqb (id m) i) messages.

(** [prev.filter(m => m.id !== tempMsg.id)] *)
Definition withoutId (i : string) (prev : list Message) : list Message :=
  List.filter (fun m => negb (String.eqb (id m) i)) prev.

(** The body of the insert sent for a message. *)
Definition messageRow (text chat uid : string) : value :=
  VObj [("content", VStr text); ("chat_id", VStr chat); ("user_id", VStr uid)].

End ChatTypes.

Module ChatDrawer.
Import Js Remote Auth ChatTypes.

Record state : Type := {
  messages : list Message;
  newMessage : string;
  isLoading : bool
}.

Definition setMessages (f : list Message -> list Message) (s : state) : state :=
  {| messages := f (messages s); newMessage := newMessage s;
     isLoading := isLoading s |}.

Definition setNewMessage (text : string) (s : state) : state :=
  {| messages := messages s; newMessage := text; isLoading := isLoading s |}.

Section Handlers.

(** The built-in [String.prototype.trim]. *)
Variable trim : string -> string.
(** Props and context of the render whose closures run. *)
Variable user : option User.
Variable userProfile : option MessageProfile.
Variable chatId : string.

(** The channel's row-insert handler. [captured] is the [messages] of the
    render in which the effect subscribed. *)
Definition onInsert (captured : list Message) (newMsg : Message)
  : prog state unit :=
  (* Skip if we already have this message *)
  if hasId captured (id newMsg) then Ret tt
  else
    tryCatch
      (r <- await (select_from "profiles" "username, avatar_url"
                   |> eq "id" (VStr (author newMsg)) |> single) ;;
       let profileData := data r in
       setState (setMessages (fun prev =>
         prev ++ [withProfile newMsg
                    (if truthy profileData
                     then {| username := asString (field "username" profileData);
                             avatar_url := optString (field "avatar_url" profileData) |}
                     else unknownUser)])%list))
      (fun _ =>
         setState (setMessages (fun prev =>
           prev ++ [withProfile newMsg unknownUser])%list)).

(** [typed] is the [newMessage] of the render whose closure runs. *)
Definition sendMessage (typed : string) (nowMs : Z) (nowIso : string)
  : prog state unit :=
  match user with
  | None => Ret tt
  | Some u =>
    if String.eqb (trim typed) "" || String.eqb chatId "" then Ret tt
    else
      (* Create a temporary message to show immediately *)
      let tempMsg :=
        {| id := tempId nowMs;
           content := typed;
           author := user_id u;
           chat_id := chatId;
           created_at := nowIso;
           profile :=
             Some {| username :=
                       match userProfile with
                       | Some p => if String.eqb (username p) ""
                                   then emailName u else username p
                       | None => emailName u
                       end;
                     avatar_url :=
                       match userProfile with
                       | Some p => avatar_url p
                       | None => None
                       end |} |} in
      setState (setMessages (fun prev => prev ++ [tempMsg])%list) ;;;
      setState (setNewMessage "") ;;;
      (* Then send to database *)
      tryCatch
        (r <- await (insert_into "messages"
                       (messageRow typed chatId (user_id u))) ;;
         if truthy (error r) then
           console_error "Failed to send message:" [error r] ;;;
           setState (setMessages (withoutId (id tempMsg))) ;;;
           emit (ToastError "Failed to send message" [])
         else Ret tt)
        (fun e =>
           console_error "Error sending message:" [e] ;;;
           setState (setMessages (withoutId (id tempMsg))) ;;;
           emit (ToastError "Failed to send message" []))
  end.

End Handlers.

End ChatDrawer.

Module UseChats.
Import Js Remote Auth ChatTypes.

(** ** useChatMessages *)

Record state : Type := {
  messages : list Message;
  isLoading : bool;
  error : option string
}.

Definition setMessages (f : list Message -> list Message) (s : state) : state :=
  {| messages := f (messages s); isLoading := isLoading s; error := error s |}.

Definition present (chatId : option string) : option string :=
  match chatId with
  | Some c => if String.eqb c "" then None else Some c
  | None => None
  end.

(** The channel's row-insert handler; [captured] as in the drawer. *)
Definition onInsert (captured : list Message) (newMsg : Message)
  : prog state unit :=
  (* Skip if it's a temporary message we already added *)
  if String.prefix "temp-" (id newMsg) then Ret tt
  (* Check if we already have this message (to avoid duplicates) *)
  else if hasId captured (id newMsg) then Ret tt
  else
    tryCatch
      (r <- await (select_from "profiles" "username, avatar_url"
                   |> eq "id" (VStr (author newMsg)) |> single) ;;
       let fetched := data r in
       setState (setMessages (fun prev =>
         prev ++ [withProfile newMsg
                    (if truthy fetched
                     then {| username :=
                               asString (orElse (field "username" fetched)
                                                (VStr "Unknown User"));
                             avatar_url := optString (field "avatar_url" fetched) |}
                     else unknownUser)])%list))
      (fun _ =>
         setState (setMessages (fun prev =>
           prev ++ [withProfile newMsg unknownUser])%list)).

Definition sendMessage (user : option User) (chatId : option string)
                       (text : string) (nowMs : Z) (nowIso : string)
  : prog state value :=
  match present chatId, user with
  | Some chat, Some u =>
    tryCatch
      ((* Create a temporary message to show immediately *)
       let tempMessage :=
         {| id := tempId nowMs;
            content := text;
            author := user_id u;
            chat_id := chat;
            created_at := nowIso;
            profile := Some {| username := emailName u; avatar_url := None |} |} in
       setState (setMessages (fun prev => prev ++ [tempMessage])%list) ;;;
       (* Then send to database *)
       r <- await (insert_into "messages" (messageRow text chat (user_id u))
                   |> returning |> single) ;;
       if truthy (Remote.error r) then
         console_error "Failed to send message:" [Remote.error r] ;;;
         setState (setMessages (withoutId (id tempMessage))) ;;;
         emit (ToastError "Failed to send message: ${error.message}"
                          [field "message" (Remote.error r)]) ;;;
         Ret VNull
       else Ret (data r))
      (fun e =>
         emit (ToastError "Failed to send message: ${err.message}"
                          [field "message" e]) ;;;
         Ret VNull)
  | _, _ =>
    emit (ToastError "You must be in a chat to send messages" []) ;;;
    Ret VNull
  end.

(** ** useChats.joinChat *)

Definition joinChat {S : Type} (user : option User) (chatId : string)
  : prog S bool :=
  match user with
  | None =>
    emit (ToastError "You must be logged in to join a chat" []) ;;;
    Ret false
  | Some u =>
    tryCatch
      ((* Check if already a participant *)
       r <- await (select_from "chat_participants" "id"
                   |> eq "chat_id" (VStr chatId)
                   |> eq "user_id" (VStr (user_id u))
                   |> maybeSingle) ;;
       if truthy (Remote.error r) then Throw (Remote.error r)
       (* If already a participant, do nothing *)
       else if truthy (data r) then Ret true
       else
         (* Add as participant *)
         r2 <- await (insert_into "chat_participants"
                        (VObj [("chat_id", VStr chatId);
                               ("user_id", VStr (user_id u))])) ;;
         if truthy (Remote.error r2) then Throw (Remote.error r2)
         else
           emit (ToastSuccess "Successfully joined chat") ;;;
           Ret true)
      (fun e =>
         emit (ToastError "Failed to join chat: ${err.message}"
                          [field "message" e]) ;;;
         Ret false)
  end.

End UseChats.

(** * Backends to run the client against *)

Module Backends.
Import Js Remote.

(** ** A scripted backend: it answers the n-th request with the n-th
    response of a script, whatever is asked, and with a transport error
    once the script is exhausted. *)

Definition ok (d : value) : response := {| data := d; error := VNull |}.
Definition failed (message : string) : response :=
  {| data := VNull; error := mkError "PostgrestError" message |}.

Definition scripted : backend :=
  {| db := list response;
     serve := fun script _ =>
       match script with
       | r :: rest => (rest, r)
       | [] => ([], failed "Failed to fetch")
       end |}.

(** ** A table store: the rows of all tables in insertion order, each
    tagged with its table. Ordering clauses are not interpreted. *)

Fixpoint value_eqb (a b : value) {struct a} : bool :=
  match a, b with
  | VUndefined, VUndefined => true
  | VNull, VNull => true
  | VBool x, VBool y => Bool.eqb x y
  | VNum x, VNum y => x =? y
  | VStr x, VStr y => String.eqb x y
  | VArr xs, VArr ys =>
    (fix all2 (xs ys : list value) {struct xs} : bool :=
       match xs, ys with
       | [], [] => true
       | x :: xs', y :: ys' => value_eqb x y && all2 xs' ys'
       | _, _ => false
       end) xs ys
  | VObj xs, VObj ys =>
    (fix all2 (xs ys : list (string * value)) {struct xs} : bool :=
       match xs, ys with
       | [], [] => true
       | (k, x) :: xs', (k', y) :: ys' =>
         String.eqb k k' && value_eqb x y && all2 xs' ys'
       | _, _ => false
       end) xs ys
  | _, _ => false
  end.

Record store : Type := {
  rows : list (string * value);
  nextId : nat
}.

Definition emptyStore : store := {| rows := []; nextId := 0 |}.

Definition holds (c : condition) (row : value) : bool :=
  match c with
  | Eq column v => value_eqb (field column row) v
  | Gte column v =>
    match field column row, v with
    | VNum a, VNum b => b <=? a
    | _, _ => false
    end
  | Lte column v =>
    match field column row, v with
    | VNum a, VNum b => a <=? b
    | _, _ => false
    end
  | Contains column v =>
    match field column row, v with
    | VArr items, VArr wanted =>
      forallb (fun w => existsb (value_eqb w) items) wanted
    | _, _ => false
    end
  end.

Definition selects (q : request) (entry : string * value) : bool :=
  String.eqb (fst entry) (req_table q)
  && forallb (fun c => holds c (snd entry)) (req_filters q).

Definition selected (q : request) (st : store) : list value :=
  map snd (List.filter (selects q) (rows st)).

Definition shaped (sh : shape) (found : list value) : response :=
  match sh, found with
  | Rows, _ => ok (VArr found)
  | Single, [row] => ok row
  | MaybeSingle, [row] => ok row
  | MaybeSingle, [] => ok VNull
  | _, _ => failed "JSON object requested, multiple (or no) rows returned"
  end.

(** What a mutation answers: nothing unless [.select()] was chained. *)
Definition written (q : request) (affected : list value) : response :=
  match req_columns q with
  | Some _ => shaped (req_shape q) affected
  | None => ok VNull
  end.

Definition withId (n : nat) (fields : list (string * value)) : value :=
  match lookup "id" fields with
  | Some _ => VObj fields
  | None => VObj (assign "id" (VStr ("row-" ++ indexKey n)) fields)
  end.

Definition patch (body : value) (row : value) : value :=
  VObj (fold_left (fun acc kv => assign (fst kv) (snd kv) acc)
                  (spread body) (spread row)).

Definition serveStore (st : store) (q : request) : store * response :=
  match req_method q with
  | SELECT => (st, shaped (req_shape q) (selected q st))
  | INSERT =>
    match req_body q with
    | VObj fields =>
      let row := withId (nextId st) fields in
      ({| rows := (rows st ++ [(req_table q, row)])%list;
          nextId := S (nextId st) |},
       written q [row])
    | _ => (st, failed "invalid input for insert")
    end
  | UPDATE =>
    ({| rows := map (fun entry => if selects q entry
                                  then (fst entry, patch (req_body q) (snd entry))
                                  else entry) (rows st);
        nextId := nextId st |},
     written q (map (patch (req_body q)) (selected q st)))
  | DELETE =>
    ({| rows := List.filter (fun entry => negb (selects q entry)) (rows st);
        nextId := nextId st |},
     written q (selected q st))
  end.

Definition tableStore : backend := {| db := store; serve := serveStore |}.

(** Modelled from the spec: the authorization the hosted backend applies to
    deletes on the teams table (no server-side code is part of the client
    sources): "Deleting a team the current profile does not own is
    rejected by the backend". [me] is the profile of the session. *)
Definition ownedBy (me : string) (row : value) : bool :=
  value_eqb (field "created_by" row) (VStr me).

Definition serveGuarded (me : string) (st : store) (q : request)
  : store * response :=
  match req_method q with
  | DELETE =>
    if String.eqb (req_table q) "teams"
       && existsb (fun row => negb (ownedBy me row)) (selected q st)
    then (st, failed "permission denied for table teams")
    else serveStore st q
  | _ => serveStore st q
  end.

Definition guardedStore (me : string) : backend :=
  {| db := store; serve := serveGuarded me |}.

(** The rows of one table. *)
Definition table (name : string) (st : store) : list value :=
  map snd (List.filter (fun entry => String.eqb (fst entry) name) (rows st)).

(** The users with a participant row for [chat]. *)
Definition participants (chat : string) (st : store) : list value :=
  map (field "user_id")
      (List.filter (fun row => value_eqb (field "chat_id" row) (VStr chat))
                   (table "chat_participants" st)).


End Backends.

(** * The services module as a whole *)

Module Services.
Import Js Remote.

(** A call of one of the thirteen exported data-access functions. *)
Inductive call : Type :=
| UpdateTeam (id : string) (updates : value)
| DeleteTeam (id : string)
| GetTeams
| GetTeamById (id : string)
| CreateTeam (now : string) (teamData : value)
| GetPlayers (filters : value)
| GetMatches
| CreateMatch (matchData : value)
| GetPlayerRequests
| SendPlayerRequest (requestData : value)
| UpdatePlayerRequest (id status : string)
| GetNotifications (userId : string)
| MarkNotificationAsRead (id : string).

Definition invoke (c : call) : prog unit value :=
  match c with
  | UpdateTeam id updates => Api.updateTeam id updates
  | DeleteTeam id => Api.deleteTeam id
  | GetTeams => Api.getTeams
  | GetTeamById id => Api.getTeamById id
  | CreateTeam now teamData => Api.createTeam now teamData
  | GetPlayers filters => Api.getPlayers filters
  | GetMatches => Api.getMatches
  | CreateMatch matchData => Api.createMatch matchData
  | GetPlayerRequests => Api.getPlayerRequests
  | SendPlayerRequest requestData => Api.sendPlayerRequest requestData
  | UpdatePlayerRequest id status => Api.updatePlayerRequest id status
  | GetNotifications userId => Api.getNotifications userId
  | MarkNotificationAsRead id => Api.markNotificationAsRead id
  end.

Definition execute (B : backend) (d : db B) (c : call)
  : run_result B unit value :=
  run B (invoke c) d tt.

(** The two functions written in several steps. *)
Definition multiStep (c : call) : bool :=
  match c with
  | GetTeams | CreateTeam _ _ => true
  | _ => false
  end.

(** The table a function addresses, and how. *)
Definition tableOf (c : call) : string :=
  match c with
  | UpdateTeam _ _ | DeleteTeam _ | GetTeams | GetTeamById _
  | CreateTeam _ _ => "teams"
  | GetPlayers _ => "profiles"
  | GetMatches | CreateMatch _ => "matches"
  | GetPlayerRequests | SendPlayerRequest _
  | UpdatePlayerRequest _ _ => "player_requests"
  | GetNotifications _ | MarkNotificationAsRead _ => "notifications"
  end.

Definition methodOf (c : call) : method :=
  match c with
  | UpdateTeam _ _ | UpdatePlayerRequest _ _
  | MarkNotificationAsRead _ => UPDATE
  | DeleteTeam _ => DELETE
  | CreateTeam _ _ | CreateMatch _ | SendPlayerRequest _ => INSERT
  | GetTeams | GetTeamById _ | GetPlayers _ | GetMatches
  | GetPlayerRequests | GetNotifications _ => SELECT
  end.

(** What a single-step function returns for an answer without error:
    the data, [data || []] for the list readers, [true] for [deleteTeam]. *)
Definition answerOf (c : call) (r : response) : value :=
  match c with
  | DeleteTeam _ => VBool true
  | GetPlayers _ | GetMatches | GetPlayerRequests
  | GetNotifications _ => orElse (data r) (VArr [])
  | _ => data r
  end.

(** A value whose properties can be read. *)
Definition readable (v : value) : bool :=
  match v with
  | VUndefined | VNull => false
  | _ => true
  end.

(** Arguments of the declared shape: [filters] is an object (or omitted). *)
Definition wellShaped (c : call) : Prop :=
  match c with
  | GetPlayers filters => filters <> VNull
  | _ => True
  end.

(** The error of [r] was passed to [console.error]. *)
Definition logged (t : list obs) (r : response) : Prop :=
  exists label args,
    In (Event (ConsoleError label args)) t /\ In (error r) args.

(** The run of a single-step function: one request, then either the
    logged and re-thrown error or the answer. *)
Definition singleStep (B : backend) (d : db B) (c : call) (q : request)
  (out : run_result B unit value) : Prop :=
  let r := snd (serve B d q) in
  final_db out = fst (serve B d q)
  /\ requests (trace out) = [q]
  /\ responses (trace out) = [r]
  /\ (hasError r = true ->
      result out = Thrown (error r) /\ logged (trace out) r)
  /\ (hasError r = false ->
      result out = Returned (answerOf c r) /\ events (trace out) = []).

(** [{ ...team, team_members: members }] *)
Definition withMembers (team members : value) : value :=
  VObj (assign "team_members" members (spread team)).

(** Rows as the client library types them: an array of rows, or [null]. *)
Definition wellTypedRows (r : response) : bool :=
  match data r with
  | VNull => true
  | VArr teams => forallb readable teams
  | _ => false
  end.

(** The steps of [createTeam]: one insert on teams, followed by one insert
    on team_members exactly when the row came back and [created_by] is
    set; a normal result is the row with an empty member list. *)
Definition createTeamSteps (B : backend) (d : db B) (now : string)
  (teamData : value) (out : run_result B unit value) : Prop :=
  exists q1,
    req_table q1 = "teams" /\ req_method q1 = INSERT
    /\ req_body q1 = teamData
    /\ let r1 := snd (serve B d q1) in
       let proceeds := negb (hasError r1) && truthy (data r1)
                       && readable teamData
                       && truthy (field "created_by" teamData) in
       (proceeds = false -> requests (trace out) = [q1])
       /\ (proceeds = true ->
           exists q2,
             requests (trace out) = [q1; q2]
             /\ req_table q2 = "team_members" /\ req_method q2 = INSERT
             /\ req_body q2
                = VObj [("team_id", field "id" (data r1));
                        ("user_id", field "created_by" teamData);
                        ("profile_id", field "created_by" teamData);
                        ("role", VStr "Captain");
                        ("joined_at", VStr now)])
       /\ (hasError r1 = true -> result out = Thrown (error r1))
       /\ (hasError r1 = false -> truthy (data r1) = true ->
           readable teamData = true ->
           result out = Returned (withMembers (data r1) (VArr [])))
       /\ (forall v, result out = Returned v ->
                     v = withMembers (data r1) (VArr [])).

(** The select [getTeams] sends for one team: the member rows of that
    team, each with the member's profile joined in. *)
Definition membersQueryOf (team : value) : request :=
  select_from "team_members" "*, profile:profiles(*)"
  |> eq "team_id" (field "id" team).

(** The members a team gets for the answer to its query: the rows
    answered, [[]] for an error or for absent data. *)
Definition membersFrom (r : response) : value :=
  if hasError r then VArr [] else orElse (data r) (VArr []).

(** The teams with the members attached that the answers bring, team by
    team. *)
Definition attached (teams : list value) (answers : list response)
  : list value :=
  map (fun ta => withMembers (fst ta) (membersFrom (snd ta)))
      (combine teams answers).

(** The rows of an answer's data. *)
Definition rowsOf (d : value) : list value :=
  match d with
  | VArr rows => rows
  | _ => []
  end.

(** The steps of [getTeams]: one select on teams, followed by one select
    on team_members for every team that came back, filtered on that team's
    id; a normal result is the list of the teams that came back, each with
    the members attached that its own query was answered with. *)
Definition getTeamsSteps (B : backend) (d : db B)
  (out : run_result B unit value) : Prop :=
  exists q1 answers,
    req_table q1 = "teams" /\ req_method q1 = SELECT
    /\ let r1 := snd (serve B d q1) in
       responses (trace out) = r1 :: answers
       /\ requests (trace out)
          = q1 :: (if hasError r1 then []
                   else map membersQueryOf
                            (List.filter readable (rowsOf (data r1))))
       /\ (hasError r1 = true -> result out = Thrown (error r1))
       /\ (hasError r1 = false -> wellTypedRows r1 = true ->
           result out = Returned (VArr (attached (rowsOf (data r1)) answers)))
       /\ (forall v, result out = Returned v ->
             hasError r1 = false
             /\ forallb readable (rowsOf (data r1)) = true
             /\ List.length answers = List.length (rowsOf (data r1))
             /\ v = VArr (attached (rowsOf (data r1)) answers)).

(** How errors reported by the backend travel: every one is logged; the
    one of the function's first call is re-thrown; a single-step function
    returns exactly when its call reported none; the member calls of
    [getTeams] and [createTeam] do not stop the function. *)
Definition errorPolicy (B : backend) (d : db B) (c : call) : Prop :=
  let out := execute B d c in
  (forall r, In r (responses (trace out)) -> hasError r = true ->
             logged (trace out) r)
  /\ (forall r rest, responses (trace out) = r :: rest ->
                     hasError r = true -> result out = Thrown (error r))
  /\ (multiStep c = false ->
      (returned (result out) = true <->
       forallb (fun r => negb (hasError r)) (responses (trace out)) = true))
  /\ match c with
     | GetTeams =>
       forall r rest, responses (trace out) = r :: rest ->
                      hasError r = false -> wellTypedRows r = true ->
                      returned (result out) = true
     | CreateTeam _ teamData =>
       forall r rest, responses (trace out) = r :: rest ->
                      hasError r = false -> truthy (data r) = true ->
                      readable teamData = true ->
                      returned (result out) = true
     | _ => True
     end.

(** How many remote operations a function performs, and on what. *)
Definition operationsOf (B : backend) (d : db B) (c : call) : Prop :=
  let out := execute B d c in
  match c with
  | GetTeams => getTeamsSteps B d out
  | CreateTeam now teamData => createTeamSteps B d now teamData out
  | _ => exists q, req_table q = tableOf c /\ req_method q = methodOf c
                   /\ singleStep B d c q out
  end.


End Services.

(** * Concrete inputs used by the examples *)

Module Scenarios.
Import Js Remote Backends Services.

Definition noon : string := "2024-05-01T12:00:00.000Z".

(** The body of a team-creation request by profile [p1]. *)
Definition alphaData : value :=
  VObj [("name", VStr "Alpha"); ("game", VStr "Valorant");
        ("created_by", VStr "p1")].

(** The row the backend stores for it. *)
Definition alphaRow : value :=
  VObj [("name", VStr "Alpha"); ("game", VStr "Valorant");
        ("created_by", VStr "p1"); ("id", VStr "t1")].

Definition bravoRow : value :=
  VObj [("name", VStr "Bravo"); ("game", VStr "Dota 2");
        ("created_by", VStr "p2"); ("id", VStr "t2")].

(** A backend that accepts the team and refuses the membership row. *)
Definition memberInsertRefused : list response :=
  [ok alphaRow; failed "new row violates row-level security policy"].

(** A store that already holds two teams. *)
Definition twoTeams : store :=
  {| rows := [("teams", alphaRow); ("teams", bravoRow)]; nextId := 0 |}.

(** The Teams page showing one team of the signed-in profile. *)
Definition showingBravo : Teams.state :=
  {| Teams.teams := []; Teams.myTeams := [bravoRow];
     Teams.isLoading := false; Teams.createTeamDialogOpen := true;
     Teams.isSubmitting := false |}.

Definition profileP1 : value :=
  VObj [("id", VStr "p1"); ("username", VStr "ada")].

(** The creation form filled with a name and a game. *)
Definition alphaForm (name : string) : value :=
  if String.eqb name "teamName" then VStr "Alpha"
  else if String.eqb name "teamGame" then VStr "Valorant"
  else VNull.

(** [parseInt] is not reached by a form without a member limit. *)
Definition noParse (_ : value) : value := VUndefined.

Definition submitAlpha : prog Teams.state unit :=
  Teams.handleSubmit noParse noon profileP1 Teams.closeDialog
                     (Some Teams.handleTeamCreated) alphaForm.

(** A store holding two teams, visited by profile [p1], who created the
    first of them only. *)
Definition showingBoth : Teams.state :=
  {| Teams.teams := [bravoRow]; Teams.myTeams := [alphaRow];
     Teams.isLoading := false; Teams.createTeamDialogOpen := false;
     Teams.isSubmitting := false |}.

(** A [fetchTeams] prop that would empty both lists if it were started. *)
Definition refetch : prog Teams.state unit :=
  r <- await (select_from "teams" "*") ;;
  setState (fun s => {| Teams.teams := []; Teams.myTeams := [];
                        Teams.isLoading := false;
                        Teams.createTeamDialogOpen :=
                          Teams.createTeamDialogOpen s;
                        Teams.isSubmitting := Teams.isSubmitting s |}).

(** The signed-in user. *)
Definition ada : Auth.User :=
  {| Auth.user_id := "p1"; Auth.email := Some "ada@example.org" |}.

(** Two rows of the notifications table: an invitation already read and a
    match reminder not read yet. *)
Definition invitationRow : value :=
  VObj [("id", VStr "n1"); ("user_id", VStr "p1");
        ("title", VStr "Team invitation"); ("message", VStr "Join Alpha");
        ("type", VStr "team"); ("read", VBool true);
        ("created_at", VStr "2024-05-01T09:00:00.000Z")].

Definition reminderRow : value :=
  VObj [("id", VStr "n2"); ("user_id", VStr "p1");
        ("title", VStr "Match tonight"); ("message", VStr "20:00 vs Bravo");
        ("type", VStr "match"); ("read", VBool false);
        ("created_at", VStr "2024-05-01T08:00:00.000Z")].

Definition invitation : Notifications.Notification :=
  Notifications.asNotification invitationRow.
Definition reminder : Notifications.Notification :=
  Notifications.asNotification reminderRow.

(** The hook after its initial fetch returned only the invitation. *)
Definition allRead : Notifications.state :=
  {| Notifications.notifications := [invitation];
     Notifications.unreadCount := 0;
     Notifications.isLoading := false |}.

(** The hook after its initial fetch returned both rows. *)
Definition oneUnread : Notifications.state :=
  {| Notifications.notifications := [invitation; reminder];
     Notifications.unreadCount := 1;
     Notifications.isLoading := false |}.

(** [trim] on strings of ASCII characters. *)
Definition isSpace (c : ascii) : bool :=
  existsb (Nat.eqb (nat_of_ascii c)) [32; 9; 10; 11; 12; 13]%nat.

Fixpoint dropSpaces (l : list ascii) : list ascii :=
  match l with
  | [] => []
  | c :: rest => if isSpace c then dropSpaces rest else l
  end.

Definition asciiTrim (s : string) : string :=
  string_of_list_ascii
    (rev (dropSpaces (rev (dropSpaces (list_ascii_of_string s))))).

(** The chat drawer of [ada], open on chat [c1] with an empty transcript;
    she has typed a message. *)
Definition adaProfile : ChatTypes.MessageProfile :=
  {| ChatTypes.username := "ada"; ChatTypes.avatar_url := None |}.

Definition drawerOpen : ChatDrawer.state :=
  {| ChatDrawer.messages := []; ChatDrawer.newMessage := "gg wp";
     ChatDrawer.isLoading := false |}.

Definition sentAt : Z := 1714564800000.

(** The row the backend stored for the message, as the push event
    delivers it. *)
Definition pushed : ChatTypes.Message :=
  {| ChatTypes.id := "m1"; ChatTypes.content := "gg wp";
     ChatTypes.author := "p1"; ChatTypes.chat_id := "c1";
     ChatTypes.created_at := noon; ChatTypes.profile := None |}.

Definition adaProfileRow : value :=
  VObj [("username", VStr "ada"); ("avatar_url", VNull)].

(** Sending from the drawer, then the push event of the stored row; the
    subscription captured the transcript of the render that opened the
    drawer. *)
Definition sendThenPush : prog ChatDrawer.state unit :=
  ChatDrawer.sendMessage asciiTrim (Some ada) (Some adaProfile) "c1"
                         (ChatDrawer.newMessage drawerOpen) sentAt noon ;;;
  ChatDrawer.onInsert (ChatDrawer.messages drawerOpen) pushed.

(** The same through the [useChatMessages] hook. *)
Definition hookIdle : UseChats.state :=
  {| UseChats.messages := []; UseChats.isLoading := false;
     UseChats.error := None |}.

Definition hookSendThenPush : prog UseChats.state unit :=
  UseChats.sendMessage (Some ada) (Some "c1") "gg wp" sentAt noon ;;;
  UseChats.onInsert (UseChats.messages hookIdle) pushed.


(** The number of transcript entries that show a given message. *)
Definition copies (text author chat : string)
           (transcript : list ChatTypes.Message) : nat :=
  List.length
    (List.filter (fun m => String.eqb (ChatTypes.content m) text
                           && String.eqb (ChatTypes.author m) author
                           && String.eqb (ChatTypes.chat_id m) chat)
                 transcript).

End Scenarios.

(** * Further vocabulary for the avatar helpers *)

Module AvatarTerms.
Import Avatar.

(** Characters that cannot end or split a query parameter: the unreserved
    set of [encodeURIComponent] and the percent sign of its escapes. *)
Definition urlSafe (a : ascii) : bool :=
  uriUnreserved (Z.of_nat (nat_of_ascii a)) || Ascii.eqb a "%".

Definition allSafe (s : string) : Prop :=
  forallb urlSafe (list_ascii_of_string s) = true.

Definition isSurrogate (c : Z) : bool :=
  isLeadSurrogate c || isTrailSurrogate c.

(** [`${url}&size=${n}`] on the result of [generateAvatar]. *)
Definition withSize (n : Z) (o : outcome URIError string)
  : outcome URIError string :=
  match o with
  | Returned url => Returned (url ++ "&size=" ++ numberToString n)%string
  | Thrown e => Thrown e
  end.

End AvatarTerms.

(** * Further vocabulary for the data-access functions *)

Module ServicesTerms.
Import Js Remote Services.

(** A bound on a column: [.gte] or [.lte]. *)
Definition isBound (c : condition) : bool :=
  match c with
  | Gte _ _ | Lte _ _ => true
  | _ => false
  end.

Definition reads (q : request) : bool :=
  match req_method q with
  | SELECT => true
  | _ => false
  end.

End ServicesTerms.

(** * The rest of the chat drawer (components/chat/ChatDrawer.tsx) *)

Module ChatDrawerMore.
Import Js Remote Auth ChatTypes ChatDrawer.

Definition setIsLoading (b : bool) (s : state) : state :=
  {| messages := messages s; newMessage := newMessage s; isLoading := b |}.

(** [{ ...message, profile: p }] read as a [MessageWithProfile]: the
    fields of a row of the messages table. *)
Definition asMessage (row : value) (p : MessageProfile) : Message :=
  {| id := asString (field "id" row);
     content := asString (field "content" row);
     author := asString (field "user_id" row);
     chat_id := asString (field "chat_id" row);
     created_at := asString (field "created_at" row);
     profile := Some p |}.

(** The body of the [for (const message of data)] loop: one profile query
    per message; a message whose profile cannot be had is kept, under
    'Unknown User'. *)
Definition withProfile (message : value) : prog state Message :=
  tryCatch
    (uid <- lift (prop message "user_id") ;;
     r <- await (select_from "profiles" "username, avatar_url"
                 |> eq "id" uid |> single) ;;
     let profileData := data r in
     Ret (asMessage message
            (if truthy profileData
             then {| username := asString (field "username" profileData);
                     avatar_url := optString (field "avatar_url" profileData) |}
             else unknownUser)))
    (fun _ => Ret (asMessage message unknownUser)).

Fixpoint withProfiles (rows : list value) : prog state (list Message) :=
  match rows with
  | [] => Ret []
  | message :: rest =>
    m <- withProfile message ;;
    ms <- withProfiles rest ;;
    Ret (m :: ms)
  end.

(** What [for ... of] iterates: the elements of an array, the characters
    of a string; other values are not iterable. *)
Definition iterate (v : value) : outcome value (list value) :=
  match v with
  | VArr items => Returned items
  | VStr s => Returned (chars s)
  | _ => Thrown (mkError "TypeError" "data is not iterable")
  end.

(** The effect's [fetchMessages]; the effect returns at once when the
    drawer is closed or has no chat. [oneDayAgo] is the ISO time of the
    same moment one day before. *)
Definition fetchMessages (isOpen : bool) (chatId oneDayAgo : string)
  : prog state unit :=
  if negb isOpen || String.eqb chatId "" then Ret tt
  else
    setState (setIsLoading true) ;;;
    tryFinally
      (tryCatch
         (r <- await (select_from "messages" "*"
                      |> eq "chat_id" (VStr chatId)
                      |> gte "created_at" (VStr oneDayAgo)
                      |> order "created_at" true) ;;
          if truthy (error r) then Throw (error r)
          else if truthy (data r) then
            rows <- lift (iterate (data r)) ;;
            messagesWithProfiles <- withProfiles rows ;;
            setState (setMessages (fun _ => messagesWithProfiles))
          else Ret tt)
         (fun e =>
            console_error "Error fetching messages:" [e] ;;;
            emit (ToastError "Failed to load messages" [])))
      (setState (setIsLoading false)).

(** ** Grouping in the rendered transcript

    [showAvatar] and [showTime] as computed for the message at [index]
    inside [messages.map((message, index) => ...)]. *)
Definition showAvatar (messages : list Message) (index : nat) : bool :=
  match nth_error messages index with
  | None => false
  | Some message =>
    match (if (0 <? index)%nat then nth_error messages (index - 1) else None)
    with
    | None => true
    | Some prevMessage =>
      negb (String.eqb (author prevMessage) (author message))
    end
  end.

Definition showTime (messages : list Message) (index : nat) : bool :=
  match nth_error messages index with
  | None => false
  | Some message =>
    match (if (index <? List.length messages - 1)%nat
           then nth_error messages (index + 1) else None)
    with
    | None => true
    | Some nextMessage =>
      negb (String.eqb (author nextMessage) (author message))
    end
  end.

Definition count (flag : nat -> bool) (n : nat) : nat :=
  List.length (List.filter flag (seq 0 n)).

End ChatDrawerMore.

(** * The rest of the chat hooks (useChats, useChatMessages) *)

Module UseChatsMore.
Import Js Remote Auth ChatTypes UseChats.

Definition setIsLoading (b : bool) (s : state) : state :=
  {| messages := messages s; isLoading := b; error := error s |}.

Definition setError (e : option string) (s : state) : state :=
  {| messages := messages s; isLoading := isLoading s; error := e |}.

(** [{ ...message, profile: p } as Message] *)
Definition asMessage (row : value) (p : MessageProfile) : Message :=
  {| id := asString (field "id" row);
     content := asString (field "content" row);
     author := asString (field "user_id" row);
     chat_id := asString (field "chat_id" row);
     created_at := asString (field "created_at" row);
     profile := Some p |}.

(** [profileData || { username: 'Unknown User', avatar_url: undefined }] *)
Definition asProfile (profileData : value) : MessageProfile :=
  if truthy profileData
  then {| username := asString (field "username" profileData);
          avatar_url := optString (field "avatar_url" profileData) |}
  else unknownUser.

(** The body of the loop of [useChatMessages]: a message without author is
    not looked up. *)
Definition withProfile (message : value) : prog state Message :=
  uid <- lift (prop message "user_id") ;;
  if negb (truthy uid) then Ret (asMessage message unknownUser)
  else
    tryCatch
      (r <- await (select_from "profiles" "username, avatar_url"
                   |> eq "id" uid |> single) ;;
       Ret (asMessage message (asProfile (data r))))
      (fun _ => Ret (asMessage message unknownUser)).

Fixpoint withProfiles (rows : list value) : prog state (list Message) :=
  match rows with
  | [] => Ret []
  | message :: rest =>
    m <- withProfile message ;;
    ms <- withProfiles rest ;;
    Ret (m :: ms)
  end.

Definition fetchMessages (user : option User) (chatId : option string)
  : prog state unit :=
  match present chatId, user with
  | Some chat, Some _ =>
    setState (setIsLoading true) ;;;
    setState (setError None) ;;;
    tryFinally
      (tryCatch
         (r <- await (select_from "messages" "*"
                      |> eq "chat_id" (VStr chat)
                      |> order "created_at" true) ;;
          if truthy (Remote.error r) then Throw (Remote.error r)
          else if truthy (data r) then
            rows <- lift (ChatDrawerMore.iterate (data r)) ;;
            messagesWithProfiles <- withProfiles rows ;;
            setState (setMessages (fun _ => messagesWithProfiles))
          else Ret tt)
         (fun e =>
            console_error "Error fetching messages:" [e] ;;;
            setState (setError (optString (field "message" e)))))
      (setState (setIsLoading false))
  | _, _ => Ret tt
  end.

(** ** useChats *)

Definition leaveChat {S : Type} (user : option User) (chatId : string)
  : prog S bool :=
  match user with
  | None =>
    emit (ToastError "You must be logged in to leave a chat" []) ;;;
    Ret false
  | Some u =>
    tryCatch
      (r <- await (delete_from "chat_participants"
                   |> eq "chat_id" (VStr chatId)
                   |> eq "user_id" (VStr (user_id u))) ;;
       if truthy (Remote.error r) then Throw (Remote.error r)
       else
         emit (ToastSuccess "Successfully left chat") ;;;
         Ret true)
      (fun e =>
         emit (ToastError "Failed to leave chat: ${err.message}"
                          [field "message" e]) ;;;
         Ret false)
  end.

Record ChatParticipant : Type := {
  participant_id : string;
  participant_user : string;      (* user_id *)
  participant_chat : string       (* chat_id *)
}.

Record Chat : Type := {
  type : string;                  (* 'global' | 'team' | 'direct' *)
  team_id : option string;
  chat : string;                  (* id *)
  name : string;
  created_by : option string;
  is_private : bool;
  created_at : string;
  participants : option (list ChatParticipant);
  participantCount : option value (* _count?.participants *)
}.

(** [v?.[0]] *)
Definition firstOf (v : value) : value :=
  match v with
  | VArr (first :: _) => first
  | VObj fields => match lookup "0" fields with
                   | Some first => first
                   | None => VUndefined
                   end
  | VStr (String c _) => VStr (String c "")
  | _ => VUndefined
  end.

(** [chat.participants?.[0]?.count || 0] *)
Definition countOf (row : value) : value :=
  match firstOf (field "participants" row) with
  | VUndefined | VNull => VNum 0
  | first => orElse (field "count" first) (VNum 0)
  end.

(** The chat built by the callback of [data.map] in [fetchChats] from a
    row whose properties can be read. [now] stands in for a missing
    creation time. *)
Definition chatOfRow (now : string) (row : value) : Chat :=
  {| type :=
       if truthy (field "chat_type" row) then asString (field "chat_type" row)
       else if truthy (field "team_id" row) then "team"
       else match countOf row with
            | VNum 2 => "direct"
            | _ => "global"
            end;
     team_id := optString (field "team_id" row);
     chat := asString (field "id" row);
     name := asString (field "name" row);
     created_by := optString (field "created_by" row);
     is_private := truthy (field "is_private" row);
     created_at := if truthy (field "created_at" row)
                   then asString (field "created_at" row) else now;
     participants := None;
     participantCount := Some (countOf row) |}.

(** The callback of [data.map] in [fetchChats]: reading [chat.chat_type]
    of a row that is [null] or [undefined] throws a TypeError. *)
Definition transform (now : string) (row : value) : outcome value Chat :=
  match prop row "chat_type" with
  | Thrown e => Thrown e
  | Returned _ => Returned (chatOfRow now row)
  end.

(** [data.map(...)] over the rows: the first row that throws ends it. *)
Fixpoint transformAll (now : string) (rows : list value)
  : outcome value (list Chat) :=
  match rows with
  | [] => Returned []
  | row :: rest =>
    match transform now row with
    | Thrown e => Thrown e
    | Returned c =>
      match transformAll now rest with
      | Thrown e => Thrown e
      | Returned cs => Returned (c :: cs)
      end
    end
  end.

(** [teamId || null] *)
Definition orNull (o : option string) : value :=
  match o with
  | Some t => if String.eqb t "" then VNull else VStr t
  | None => VNull
  end.

Definition createChat {S : Type} (user : option User) (now : string)
           (chatName chatType : string) (isPrivate : bool)
           (teamId : option string) (participantIds : option (list string))
  : prog S (option Chat) :=
  match user with
  | None =>
    emit (ToastError "You must be logged in to create a chat" []) ;;;
    Ret None
  | Some u =>
    tryCatch
      ((* Insert the chat directly *)
       r <- await (insert_into "chats"
                     (VObj [("name", VStr chatName);
                            ("created_by", VStr (user_id u));
                            ("is_private", VBool isPrivate);
                            ("chat_type", VStr chatType);
                            ("team_id", orNull teamId)])
                   |> returning |> single) ;;
       if truthy (Remote.error r) then Throw (Remote.error r)
       else if negb (truthy (data r)) then
         Throw (mkError "Error" "No data returned from chat creation")
       else
         let chatData := data r in
         (* Add the creator as a participant first *)
         r2 <- await (insert_into "chat_participants"
                        (VObj [("chat_id", field "id" chatData);
                               ("user_id", VStr (user_id u))])) ;;
         if truthy (Remote.error r2) then Throw (Remote.error r2)
         else
           (* Add additional participants if provided *)
           match participantIds with
           | Some (first :: others) =>
             r3 <- await (insert_into "chat_participants"
                            (VArr (map (fun userId =>
                                          VObj [("chat_id", field "id" chatData);
                                                ("user_id", VStr userId)])
                                       (first :: others)))) ;;
             if truthy (Remote.error r3) then Throw (Remote.error r3)
             else Ret tt
           | _ => Ret tt
           end ;;;
           Ret (Some {| type := chatType;
                        team_id := match orNull teamId with
                                   | VStr t => Some t
                                   | _ => None
                                   end;
                        chat := asString (field "id" chatData);
                        name := asString (field "name" chatData);
                        created_by := optString (field "created_by" chatData);
                        is_private := truthy (field "is_private" chatData);
                        created_at :=
                          if truthy (field "created_at" chatData)
                          then asString (field "created_at" chatData)
                          else now;
                        participants := None;
                        participantCount := None |}))
      (fun e =>
         console_error "Error creating chat:" [e] ;;;
         emit (ToastError "Failed to create chat: ${err.message}"
                          [field "message" e]) ;;;
         Ret None)
  end.

(** [chats] is the list of the render whose closure runs. *)
Definition createTeamChat {S : Type} (user : option User) (now : string)
           (chats : list Chat) (teamName teamId : string)
           (memberIds : list string) : prog S (option Chat) :=
  match user with
  | None => console_error "User not authenticated" [] ;;; Ret None
  | Some _ =>
    match find (fun c => String.eqb (type c) "team"
                         && match team_id c with
                            | Some t => String.eqb t teamId
                            | None => false
                            end) chats with
    | Some existingTeamChat => Ret (Some existingTeamChat)
    | None =>
      tryCatch
        (createChat user now (teamName ++ " Team Chat") "team" false
                    (Some teamId) (Some memberIds))
        (fun e => console_error "Error creating team chat:" [e] ;;; Throw e)
    end
  end.

(** The test [createDirectChat] applies to each known chat. *)
Definition isDirectChatWith (me other : string) (c : Chat) : bool :=
  if negb (String.eqb (type c) "direct") then false
  else if negb (match participantCount c with
                | Some (VNum 2) => true
                | _ => false
                end) then false
  else match participants c with
       | Some ps =>
         existsb (fun p => String.eqb (participant_user p) other) ps
         && existsb (fun p => String.eqb (participant_user p) me) ps
       | None => false
       end.

Definition createDirectChat {S : Type} (user : option User) (now : string)
           (chats : list Chat) (otherUserId : string)
  : prog S (option Chat) :=
  match user with
  | None => console_error "User not authenticated" [] ;;; Ret None
  | Some u =>
    match find (isDirectChatWith (user_id u) otherUserId) chats with
    | Some existingDirectChat => Ret (Some existingDirectChat)
    | None =>
      tryCatch
        (createChat user now "Direct Chat" "direct" true None
                    (Some [otherUserId]))
        (fun e => console_error "Error creating direct chat:" [e] ;;; Throw e)
    end
  end.

(** The state of [useChats]. *)
Record chatsState : Type := {
  chats : list Chat;
  chatsLoading : bool;
  chatsError : option string
}.

(** [useState([])], [useState(true)], [useState(null)] *)
Definition noChats : chatsState :=
  {| chats := []; chatsLoading := true; chatsError := None |}.

Definition setChats (l : list Chat) (s : chatsState) : chatsState :=
  {| chats := l; chatsLoading := chatsLoading s; chatsError := chatsError s |}.

(** The effect's [fetchChats], also run on every change event of the
    chats channel; the effect does nothing when no user is signed in. *)
Definition fetchChats (user : option User) (now : string)
  : prog chatsState unit :=
  match user with
  | None => Ret tt
  | Some _ =>
    tryFinally
      (tryCatch
         (r <- await (select_from "chats"
                        "*, participants:chat_participants(count)"
                      |> order "created_at" false) ;;
          if truthy (Remote.error r) then Throw (Remote.error r)
          else if truthy (data r) then
            match data r with
            | VArr rows =>
              transformedData <- lift (transformAll now rows) ;;
              setState (setChats transformedData)
            | _ => Throw (mkError "TypeError" "data.map is not a function")
            end
          else Ret tt)
         (fun e =>
            console_error "Error fetching chats:" [e] ;;;
            setState (fun s => {| chats := chats s;
                                  chatsLoading := chatsLoading s;
                                  chatsError := optString (field "message" e) |})))
      (setState (fun s => {| chats := chats s; chatsLoading := false;
                             chatsError := chatsError s |}))
  end.

(** Chats as [fetchChats] stores them carry a participant count and no
    participant list. *)
Definition countsOnly (l : list Chat) : Prop :=
  Forall (fun c => participants c = None) l.

End UseChatsMore.

(** * pages/Teams: loading the lists of teams *)

Module TeamsMore.
Import Js Remote Teams.

Definition setTeams (l : list value) (s : state) : state :=
  {| teams := l; myTeams := myTeams s; isLoading := isLoading s;
     createTeamDialogOpen := createTeamDialogOpen s;
     isSubmitting := isSubmitting s |}.

Definition setIsLoading (b : bool) (s : state) : state :=
  {| teams := teams s; myTeams := myTeams s; isLoading := b;
     createTeamDialogOpen := createTeamDialogOpen s;
     isSubmitting := isSubmitting s |}.

(** [x ?? undefined] *)
Definition nullish (x : value) : value :=
  match x with
  | VNull => VUndefined
  | _ => x
  end.

(** [v?.k] *)
Definition optField (k : string) (v : value) : value :=
  match v with
  | VUndefined | VNull => VUndefined
  | _ => field k v
  end.

(** The callback of [teamsData.map]: the team with its computed
    properties. The properties are evaluated in the order written, so the
    first to read [team] throws for a team that is [null]. *)
Definition processTeam (team : value) : outcome value value :=
  match prop team "team_members" with
  | Thrown e => Thrown e
  | Returned team_members =>
    Returned (VObj
      (assign "created" (field "created_at" team)
      (assign "recruiting" (nullish (field "is_recruiting" team))
      (assign "maxMembers" (nullish (field "max_members" team))
      (assign "region" (nullish (field "region" team))
      (assign "is_recruiting" (nullish (field "is_recruiting" team))
      (assign "max_members" (nullish (field "max_members" team))
      (assign "rank" (nullish (field "rank" team))
      (assign "logo" (field "logo_url" team)
      (assign "members" (orElse (optField "length" team_members) (VNum 0))
              (spread team)))))))))))
  end.

(** [Array.prototype.map] and [filter] with a callback that may throw. *)
Fixpoint mapThrowing (f : value -> outcome value value) (l : list value)
  : outcome value (list value) :=
  match l with
  | [] => Returned []
  | x :: rest =>
    match f x with
    | Thrown e => Thrown e
    | Returned y =>
      match mapThrowing f rest with
      | Thrown e => Thrown e
      | Returned ys => Returned (y :: ys)
      end
    end
  end.

Fixpoint filterThrowing (f : value -> outcome value bool) (l : list value)
  : outcome value (list value) :=
  match l with
  | [] => Returned []
  | x :: rest =>
    match f x with
    | Thrown e => Thrown e
    | Returned keep =>
      match filterThrowing f rest with
      | Thrown e => Thrown e
      | Returned ys => Returned (if keep then x :: ys else ys)
      end
    end
  end.

(** [Array.prototype.some]: stops at the first element accepted. *)
Fixpoint some (f : value -> outcome value bool) (l : list value)
  : outcome value bool :=
  match l with
  | [] => Returned false
  | x :: rest =>
    match f x with
    | Thrown e => Thrown e
    | Returned true => Returned true
    | Returned false => some f rest
    end
  end.

Definition processTeams (teamsData : value) : outcome value (list value) :=
  match teamsData with
  | VArr teams => mapThrowing processTeam teams
  | VUndefined | VNull =>
    Thrown (mkError "TypeError"
                    "Cannot read properties of null or undefined: map")
  | _ => Thrown (mkError "TypeError" "teamsData.map is not a function")
  end.

(** [a === b] between a value of the fetched rows and one of the profile:
    an object or an array is equal to itself only, and the two come from
    different answers. *)
Definition strictEquals (a b : value) : bool :=
  match a, b with
  | VUndefined, VUndefined => true
  | VNull, VNull => true
  | VBool x, VBool y => Bool.eqb x y
  | VNum x, VNum y => Z.eqb x y
  | VStr x, VStr y => String.eqb x y
  | _, _ => false
  end.

(** The callback of [some]: [typeof member.profile === 'object' &&
    member.profile && 'id' in member.profile] holds of an object with an
    [id] key; an array has none. *)
Definition isMember (profile member : value) : outcome value bool :=
  match prop member "profile" with
  | Thrown e => Thrown e
  | Returned (VObj fields) =>
    match lookup "id" fields with
    | Some i => Returned (strictEquals i (field "id" profile))
    | None => Returned false
    end
  | Returned _ => Returned false
  end.

(** [team.team_members?.some(...)], as the condition it is used for. *)
Definition hasMember (profile team : value) : outcome value bool :=
  match prop team "team_members" with
  | Thrown e => Thrown e
  | Returned VUndefined | Returned VNull => Returned false
  | Returned (VArr members) => some (isMember profile) members
  | Returned _ =>
    Thrown (mkError "TypeError" "team.team_members?.some is not a function")
  end.

(** [!team.team_members?.some(...)] *)
Definition hasNoMember (profile team : value) : outcome value bool :=
  match hasMember profile team with
  | Thrown e => Thrown e
  | Returned b => Returned (negb b)
  end.

(** [profile] is the one of the render whose [fetchTeams] runs. *)
Definition fetchTeams (profile : value) : prog state unit :=
  tryFinally
    (tryCatch
       (setState (setIsLoading true) ;;;
        teamsData <- Api.getTeams ;;
        (* Process teams data to add computed properties *)
        processedTeams <- lift (processTeams teamsData) ;;
        (* Filter teams into all teams and my teams *)
        if truthy (profileId profile) then
          userTeams <- lift (filterThrowing (hasMember profile)
                                            processedTeams) ;;
          setState (setMyTeams (fun _ => userTeams)) ;;;
          otherTeams <- lift (filterThrowing (hasNoMember profile)
                                             processedTeams) ;;
          setState (setTeams otherTeams)
        else setState (setTeams processedTeams))
       (fun e =>
          console_error "Error fetching teams:" [e] ;;;
          emit (ToastError "Failed to load teams data" [])))
    (setState (setIsLoading false)).

(** Whether a processed team goes to the caller's own teams. *)
Definition listedAsMine (profile team : value) : bool :=
  match hasMember profile team with
  | Returned b => b
  | Thrown _ => false
  end.

End TeamsMore.

(** * The teams the page shows *)

Module TeamsShown.
Import Js Remote Services Scenarios TeamsMore.

(** A stored team as [fetchTeams] hands it to the components: with its
    members attached by [getTeams] and the computed properties added. *)
Definition shown (row members : value) : value :=
  match processTeam (withMembers row members) with
  | Returned team => team
  | Thrown _ => VUndefined
  end.

(** Team [t2] as the page of profile [p1] shows it. *)
Definition bravoShown : value := shown bravoRow (VArr []).

End TeamsShown.

(** * Properties of the avatar helpers *)

Module AvatarFacts.
Import Avatar.

Lemma fold_left_sum (seed : jsstring) (acc : Z) :
  fold_left (fun a c => a + c) seed acc = acc + charCodeSum seed.
Proof.
  revert acc. induction seed as [|c rest IH]; intros acc; simpl.
  - lia.
  - rewrite IH. unfold charCodeSum. lia.
Qed.

Lemma charCodeSum_nonneg (seed : jsstring) :
  wellFormedUnits seed -> 0 <= charCodeSum seed.
Proof.
  induction 1 as [|c rest Hc _ IH]; unfold charCodeSum in *; simpl; lia.
Qed.

Lemma hashString_sum (seed : jsstring) :
  wellFormedUnits seed -> hashString seed = charCodeSum seed.
Proof.
  intros Hwf. unfold hashString. rewrite fold_left_sum.
  pose proof (charCodeSum_nonneg seed Hwf). lia.
Qed.

Lemma hashString_nonneg (seed : jsstring) : 0 <= hashString seed.
Proof. unfold hashString. apply Z.abs_nonneg. Qed.

Lemma js_index_nonneg {A : Type} (arr : list A) (i : Z) :
  0 <= i -> js_index arr i = nth_error arr (Z.to_nat i).
Proof.
  intros Hi. unfold js_index.
  destruct (i <? 0) eqn:E; [apply Z.ltb_lt in E; lia | reflexivity].
Qed.

Lemma js_index_defined {A : Type} (arr : list A) (i : Z) :
  0 <= i < Z.of_nat (List.length arr) -> exists x, js_index arr i = Some x.
Proof.
  intros [Hlo Hhi]. rewrite js_index_nonneg by assumption.
  destruct (nth_error arr (Z.to_nat i)) as [x|] eqn:E; [eauto|].
  apply nth_error_None in E. lia.
Qed.

Lemma styleIndex_bounds (seed : jsstring) :
  0 <= styleIndexOf seed None < Z.of_nat (List.length AVATAR_STYLES).
Proof.
  unfold styleIndexOf. apply Z.rem_bound_pos.
  - apply hashString_nonneg.
  - simpl. lia.
Qed.

Lemma colorIndex_bounds (seed : jsstring) :
  0 <= colorIndexOf seed < Z.of_nat (List.length BACKGROUND_COLORS).
Proof.
  unfold colorIndexOf. apply Z.rem_bound_pos.
  - apply hashString_nonneg.
  - simpl. lia.
Qed.

(** C10. For every seed, [hashString seed] is a non-negative integer; when
    no style is passed, the style index (remainder by 6) and the colour
    index (remainder by 5) lie inside [AVATAR_STYLES] and
    [BACKGROUND_COLORS], both lookups are defined, and the URL is built
    from them. A style passed by the caller is used as the index as it is,
    with no bounds check: the lookup is undefined for 6 and for -1. The
    same holds for [generateAvatarWithOptions]. *)
Theorem generateAvatar_lookups_defined (seed : jsstring) :
  0 <= hashString seed
  /\ List.length AVATAR_STYLES = 6%nat
  /\ List.length BACKGROUND_COLORS = 5%nat
  /\ 0 <= styleIndexOf seed None < 6
  /\ 0 <= colorIndexOf seed < 5
  /\ (exists styleName color,
        js_index AVATAR_STYLES (styleIndexOf seed None) = Some styleName
        /\ js_index BACKGROUND_COLORS (colorIndexOf seed) = Some color
        /\ generateAvatar seed None =
           match encodeURIComponent seed with
           | Returned enc =>
             Returned (avatarUrl (Some styleName) enc (Some color))
           | Thrown e => Thrown e
           end
        /\ generateAvatarWithOptions seed noOptions =
           match encodeURIComponent seed with
           | Returned enc =>
             Returned (avatarUrl (Some styleName) enc (Some color)
                         ++ "&size=128")%string
           | Thrown e => Thrown e
           end)
  /\ (forall style, styleIndexOf seed (Some style) = style)
  /\ (forall style,
        generateAvatar seed (Some style) =
        match encodeURIComponent seed with
        | Returned enc =>
          Returned (avatarUrl (js_index AVATAR_STYLES style) enc
                              (js_index BACKGROUND_COLORS (colorIndexOf seed)))
        | Thrown e => Thrown e
        end)
  /\ js_index AVATAR_STYLES 6 = None
  /\ js_index AVATAR_STYLES (-1) = None
  /\ generateAvatarWithOptions seed
       {| opt_style := Some 6; opt_size := None;
          opt_backgroundColor := Some "b6e3f4" |} =
     match encodeURIComponent seed with
     | Returned enc =>
       Returned (avatarUrl None enc (Some "b6e3f4") ++ "&size=128")%string
     | Thrown e => Thrown e
     end.
Proof.
  pose proof (styleIndex_bounds seed) as Hs.
  pose proof (colorIndex_bounds seed) as Hc.
  destruct (js_index_defined AVATAR_STYLES _ Hs) as [styleName HsN].
  destruct (js_index_defined BACKGROUND_COLORS _ Hc) as [color HcN].
  change (Z.of_nat (List.length AVATAR_STYLES)) with 6 in Hs.
  change (Z.of_nat (List.length BACKGROUND_COLORS)) with 5 in Hc.
  repeat split; try reflexivity; try lia.
  - apply hashString_nonneg.
  - exists styleName, color. repeat split; try assumption.
    + unfold generateAvatar. rewrite HsN, HcN. reflexivity.
    + change (generateAvatarWithOptions seed noOptions)
        with (match encodeURIComponent seed with
              | Returned enc =>
                Returned (avatarUrl
                            (js_index AVATAR_STYLES (styleIndexOf seed None)) enc
                            (js_index BACKGROUND_COLORS (colorIndexOf seed))
                            ++ "&size=" ++ numberToString 128)%string
              | Thrown e => Thrown e
              end).
      rewrite HsN, HcN. reflexivity.
Qed.

Lemma template_nth (l : list string) (n : nat) :
  template (nth_error l n) = nth n l "undefined".
Proof.
  revert n. induction l as [|x l IH]; intros [|n]; cbn; auto.
Qed.

Lemma unreserved_not_surrogate (c : Z) :
  uriUnreserved c = true ->
  isLeadSurrogate c = false /\ isTrailSurrogate c = false.
Proof.
  unfold uriUnreserved, isLeadSurrogate, isTrailSurrogate, in_range.
  cbn [existsb]. intros H.
  rewrite !orb_true_iff, !andb_true_iff, !Z.leb_le, !Z.eqb_eq in H.
  split; apply andb_false_iff.
  - left. apply Z.leb_gt. lia.
  - left. apply Z.leb_gt. lia.
Qed.

(** [encodeURIComponent] returns exactly on the well-formed strings. *)
Lemma encode_returns_iff_wellFormed (n : nat) :
  forall seed : jsstring,
    (List.length seed <= n)%nat ->
    match encodeURIComponent seed with
    | Returned _ => isWellFormed seed = true
    | Thrown _ => isWellFormed seed = false
    end.
Proof.
  induction n as [|n IH]; intros [|c rest] Hlen; cbn in Hlen;
    try reflexivity; try lia.
  cbn [encodeURIComponent isWellFormed].
  destruct (uriUnreserved c) eqn:Hun.
  - destruct (unreserved_not_surrogate c Hun) as [-> ->].
    specialize (IH rest ltac:(lia)).
    destruct (encodeURIComponent rest); exact IH.
  - destruct (isTrailSurrogate c); [reflexivity|].
    destruct (isLeadSurrogate c).
    + destruct rest as [|d rest']; [reflexivity|].
      destruct (isTrailSurrogate d); [|reflexivity]. cbn [andb].
      specialize (IH rest' ltac:(cbn in Hlen; lia)).
      destruct (encodeURIComponent rest'); exact IH.
    + specialize (IH rest ltac:(lia)).
      destruct (encodeURIComponent rest); exact IH.
Qed.

(** Unreserved characters pass through unchanged. *)
Lemma encode_unreserved (s : string) :
  forallb uriUnreserved (units_of_string s) = true ->
  encodeURIComponent (units_of_string s) = Returned s.
Proof.
  unfold units_of_string.
  induction s as [|a s IH]; cbn [list_ascii_of_string map forallb];
    [reflexivity|].
  intros H. apply andb_prop in H. destruct H as [Ha Hs].
  cbn [encodeURIComponent]. rewrite Ha, (IH Hs).
  now rewrite Nat2Z.id, ascii_nat_embedding.
Qed.

(** C7, as the code has it. For a seed of UTF-16 code units,
    [generateAvatar] returns a URL exactly when the seed is well formed
    (has no lone surrogate), and throws URIError otherwise. The URL is
    computed from the seed and the optional style alone: it is the
    DiceBear address with the style named by the sum of the character
    codes modulo 6 (or by the style passed), the seed as
    [encodeURIComponent] writes it (unchanged when all its characters are
    unreserved) and the background colour named by the same sum modulo
    5. *)
Theorem generateAvatar_hash_selected (seed : jsstring) (style : option Z) :
  wellFormedUnits seed ->
  let sum := fold_right Z.add 0 seed in
  let styles :=
    ["avataaars"; "bottts"; "lorelei"; "micah"; "miniavs"; "personas"] in
  let colours := ["b6e3f4"; "c0aede"; "ffd5dc"; "ffdfbf"; "d1d4f9"] in
  let styleName :=
    match style with
    | None => nth (Z.to_nat (sum mod 6)) styles "undefined"
    | Some i => if i <? 0 then "undefined"
                else nth (Z.to_nat i) styles "undefined"
    end in
  let colour := nth (Z.to_nat (sum mod 5)) colours "undefined" in
  (isWellFormed seed = true ->
   exists enc,
     encodeURIComponent seed = Returned enc
     /\ generateAvatar seed style
        = Returned ("https://api.dicebear.com/6.x/" ++ styleName
                    ++ "/svg?seed=" ++ enc
                    ++ "&backgroundColor=" ++ colour)%string)
  /\ (isWellFormed seed = false ->
      generateAvatar seed style = Thrown URIMalformed)
  /\ (forall s : string,
        seed = units_of_string s ->
        forallb uriUnreserved seed = true ->
        generateAvatar seed style
        = Returned ("https://api.dicebear.com/6.x/" ++ styleName
                    ++ "/svg?seed=" ++ s
                    ++ "&backgroundColor=" ++ colour)%string).
Proof.
  intros Hwf. cbv zeta.
  pose proof (charCodeSum_nonneg seed Hwf) as Hsum.
  assert (Hurl : forall enc,
             encodeURIComponent seed = Returned enc ->
             generateAvatar seed style
             = Returned ("https://api.dicebear.com/6.x/"
                         ++ (match style with
                             | None =>
                               nth (Z.to_nat (fold_right Z.add 0 seed mod 6))
                                   ["avataaars"; "bottts"; "lorelei"; "micah";
                                    "miniavs"; "personas"] "undefined"
                             | Some i =>
                               if i <? 0 then "undefined"
                               else nth (Z.to_nat i)
                                        ["avataaars"; "bottts"; "lorelei";
                                         "micah"; "miniavs"; "personas"]
                                        "undefined"
                             end)%Z
                         ++ "/svg?seed=" ++ enc ++ "&backgroundColor="
                         ++ (nth (Z.to_nat (fold_right Z.add 0 seed mod 5))
                                 ["b6e3f4"; "c0aede"; "ffd5dc"; "ffdfbf";
                                  "d1d4f9"] "undefined")%Z)%string).
  { intros enc Henc.
    unfold generateAvatar, avatarUrl, styleIndexOf, colorIndexOf.
    rewrite Henc, (hashString_sum seed Hwf). unfold charCodeSum in *.
    change (Z.of_nat (List.length AVATAR_STYLES)) with 6.
    change (Z.of_nat (List.length BACKGROUND_COLORS)) with 5.
    rewrite !Z.rem_mod_nonneg by lia.
    rewrite (js_index_nonneg BACKGROUND_COLORS)
      by (apply Z.mod_pos_bound; lia).
    rewrite (template_nth BACKGROUND_COLORS).
    destruct style as [i|].
    - unfold js_index. destruct (i <? 0).
      + reflexivity.
      + rewrite (template_nth AVATAR_STYLES). reflexivity.
    - rewrite (js_index_nonneg AVATAR_STYLES)
        by (apply Z.mod_pos_bound; lia).
      rewrite (template_nth AVATAR_STYLES). reflexivity. }
  pose proof (encode_returns_iff_wellFormed (List.length seed) seed (le_n _))
    as Henc.
  split; [|split].
  - intros Hgood. destruct (encodeURIComponent seed) as [enc|e] eqn:E.
    + exists enc. split; [reflexivity|]. now apply Hurl.
    + congruence.
  - intros Hbad. unfold generateAvatar.
    destruct (encodeURIComponent seed) as [enc|e]; [congruence|].
    now destruct e.
  - intros s -> Hplain. apply Hurl. now apply encode_unreserved.
Qed.

Lemma generateAvatar_hash_selected_witness :
  generateAvatar (units_of_string "player-1") None
  = Returned "https://api.dicebear.com/6.x/micah/svg?seed=player-1&backgroundColor=ffd5dc".
Proof.
  destruct (generateAvatar_hash_selected (units_of_string "player-1") None)
    as (_ & _ & Hplain).
  - unfold wellFormedUnits. simpl. repeat constructor; lia.
  - exact (Hplain "player-1"%string eq_refl eq_refl).
Defined.

(** C7 as stated fails: not every seed string gets a URL. A string that
    holds half a surrogate pair (a lone lead surrogate, as cutting a
    string inside an emoji leaves one) makes [encodeURIComponent], and
    with it [generateAvatar], throw. *)
Lemma generateAvatar_lone_surrogate :
  wellFormedUnits [55357]
  /\ generateAvatar [55357] None = Thrown URIMalformed
  /\ (forall style url, generateAvatar [55357] style <> Returned url).
Proof.
  split; [|split].
  - repeat constructor; lia.
  - reflexivity.
  - intros style url. cbn. discriminate.
Qed.

Example generateAvatar_abc :
  generateAvatar (units_of_string "abc") None
  = Returned "https://api.dicebear.com/6.x/avataaars/svg?seed=abc&backgroundColor=d1d4f9".
Proof. reflexivity. Qed.

Example generateAvatar_escapes :
  generateAvatar [233; 55357; 56832; 32] (Some 1)
  = Returned "https://api.dicebear.com/6.x/bottts/svg?seed=%C3%A9%F0%9F%98%80%20&backgroundColor=d1d4f9".
Proof. reflexivity. Qed.

End AvatarFacts.

(** * Running sequenced code *)

Module RemoteFacts.
Import Js Remote.

Section Run.
Context {S : Type} (B : backend).

Lemma run_bind {A C : Type} (p : prog S A) (f : A -> prog S C) d s :
  run B (bind p f) d s =
  match result (run B p d s) with
  | Returned a => andThen (run B p d s) (run B (f a))
  | Thrown e => stopped (run B p d s) e
  end.
Proof.
  revert d s. induction p as [a|e|q k IH|g k IH|ev k IH]; intros d s; simpl.
  - unfold andThen. simpl. destruct (run B (f a) d s). reflexivity.
  - reflexivity.
  - destruct (serve B d q) as [d' r]. simpl. rewrite IH.
    destruct (result (run B (k r) d' s)); reflexivity.
  - apply IH.
  - rewrite IH. destruct (result (run B k d s)); reflexivity.
Qed.

Lemma run_tryCatch {A : Type} (p : prog S A) (h : value -> prog S A) d s :
  run B (tryCatch p h) d s =
  match result (run B p d s) with
  | Returned a => run B p d s
  | Thrown e => andThen (run B p d s) (run B (h e))
  end.
Proof.
  revert d s. induction p as [a|e|q k IH|g k IH|ev k IH]; intros d s; simpl.
  - reflexivity.
  - unfold andThen. simpl. destruct (run B (h e) d s). reflexivity.
  - destruct (serve B d q) as [d' r]. simpl. rewrite IH.
    destruct (result (run B (k r) d' s)) eqn:E; [|reflexivity].
    destruct (run B (k r) d' s); simpl in *; subst; reflexivity.
  - apply IH.
  - rewrite IH. destruct (result (run B k d s)) eqn:E; [|reflexivity].
    destruct (run B k d s); simpl in *; subst; reflexivity.
Qed.

Lemma run_settle {A : Type} (p : prog S A) d s :
  run B (settle p) d s =
  {| final_db := final_db (run B p d s);
     final_state := final_state (run B p d s);
     trace := trace (run B p d s);
     result := Returned (result (run B p d s)) |}.
Proof.
  unfold settle. rewrite run_tryCatch, run_bind.
  destruct (result (run B p d s)) eqn:E; unfold andThen, stopped; simpl.
  all: rewrite ?app_nil_r; reflexivity.
Qed.

Lemma run_promiseAll_cons {A : Type} (p : prog S A) (rest : list (prog S A))
      d s :
  run B (promiseAll (p :: rest)) d s =
  let o1 := run B p d s in
  let o2 := run B (promiseAll rest) (final_db o1) (final_state o1) in
  {| final_db := final_db o2; final_state := final_state o2;
     trace := (trace o1 ++ trace o2)%list;
     result := match result o1, result o2 with
               | Thrown e, _ => Thrown e
               | Returned _, Thrown e => Thrown e
               | Returned a, Returned l => Returned (a :: l)
               end |}.
Proof.
  cbn [promiseAll]. rewrite run_bind, run_settle. cbn [result].
  unfold andThen. cbn [final_db final_state trace].
  rewrite run_bind, run_settle. cbn [result].
  unfold andThen. cbn [final_db final_state trace result].
  destruct (result (run B p d s)) as [a|e];
    destruct (result (run B (promiseAll rest) (final_db (run B p d s))
                          (final_state (run B p d s)))) as [l|e'];
    simpl; rewrite ?app_nil_r; reflexivity.
Qed.

End Run.

Lemma requests_app (t1 t2 : list obs) :
  requests (t1 ++ t2) = (requests t1 ++ requests t2)%list.
Proof.
  induction t1 as [|[q r|ev] t1 IH]; simpl; [reflexivity| |assumption].
  now rewrite IH.
Qed.

Lemma responses_app (t1 t2 : list obs) :
  responses (t1 ++ t2) = (responses t1 ++ responses t2)%list.
Proof.
  induction t1 as [|[q r|ev] t1 IH]; simpl; [reflexivity| |assumption].
  now rewrite IH.
Qed.

Lemma events_app (t1 t2 : list obs) :
  events (t1 ++ t2) = (events t1 ++ events t2)%list.
Proof.
  induction t1 as [|[q r|ev] t1 IH]; simpl; [reflexivity|assumption|].
  now rewrite IH.
Qed.

End RemoteFacts.

(** * Properties of the data-access functions *)

Module ApiFacts.
Import Js Remote Backends Services Scenarios RemoteFacts.

Ltac find_in :=
  simpl;
  first [ left; reflexivity
        | right; left; reflexivity
        | right; right; left; reflexivity
        | right; right; right; left; reflexivity ].

Ltac show_logged :=
  unfold logged; do 2 eexists; split; [find_in | find_in].

Ltac step_single B d :=
  match goal with
  | |- context [serve B d ?q] =>
    exists q; split; [reflexivity|]; split; [reflexivity|];
    unfold singleStep, hasError;
    destruct (serve B d q) as [d' r]; simpl;
    unfold Api.throwIfError;
    destruct (truthy (error r)) eqn:Herr; simpl;
    repeat split; try reflexivity; try discriminate; try show_logged
  end.

Lemma single_step_run (B : backend) (d : db B) (c : call) :
  multiStep c = false ->
  wellShaped c ->
  exists q,
    req_table q = tableOf c /\ req_method q = methodOf c
    /\ singleStep B d c q (execute B d c).
Proof.
  intros Hsingle Hshape.
  destruct c; try discriminate Hsingle; unfold execute; simpl invoke.
  all: try (unfold Api.updateTeam, Api.deleteTeam, Api.getTeamById,
            Api.getMatches, Api.createMatch, Api.getPlayerRequests,
            Api.sendPlayerRequest, Api.updatePlayerRequest,
            Api.getNotifications, Api.markNotificationAsRead;
            cbn [run bind await]; step_single B d).
  (* getPlayers: the query depends on the filters *)
  simpl in Hshape. unfold Api.getPlayers.
  destruct filters; try congruence; cbn [prop lift bind];
    match goal with
    | |- context [truthy ?g && truthy ?h] =>
      destruct (truthy g && truthy h)
    | _ => idtac
    end;
    match goal with
    | |- context [if truthy ?g then _ else _] => destruct (truthy g)
    | _ => idtac
    end;
    cbn [run bind await]; step_single B d.
Qed.

(** Every path through [createTeam], by the answers it receives. *)
Ltac createTeam_cases B d teamData :=
  rewrite run_tryCatch; cbn [run bind await]; unfold hasError;
  let d1 := fresh "d1" in
  let r1 := fresh "r1" in
  let Herr := fresh "Herr" in
  let Hdata := fresh "Hdata" in
  destruct (serve B d _) as [d1 r1]; cbn [snd fst];
  unfold Api.throwIfError;
  destruct (truthy (error r1)) eqn:Herr; cbn; rewrite ?Herr;
  [|destruct (truthy (data r1)) eqn:Hdata; cbn; rewrite ?Herr;
    [destruct teamData; cbn; rewrite ?Herr;
     try (match goal with
          | |- context [truthy ?x] => destruct (truthy x)
          end; cbn);
     try (match goal with
          | |- context [serve B d1 ?q] =>
            let d2 := fresh "d2" in
            let r2 := fresh "r2" in
            let Herr2 := fresh "Herr2" in
            destruct (serve B d1 q) as [d2 r2]; cbn;
            destruct (truthy (error r2)) eqn:Herr2; cbn
          end)|]].

Lemma createTeam_steps (B : backend) (d : db B) (now : string)
      (teamData : value) :
  createTeamSteps B d now teamData (execute B d (CreateTeam now teamData)).
Proof.
  unfold createTeamSteps, execute. simpl invoke. unfold Api.createTeam.
  exists (insert_into "teams" teamData |> returning |> single).
  split; [reflexivity|]. split; [reflexivity|]. split; [reflexivity|].
  createTeam_cases B d teamData.
  all: repeat split; intros; try discriminate; try congruence.
  all: try (eexists; repeat split; reflexivity).
  all: unfold withMembers; congruence.
Qed.

Lemma logged_app_l (t1 t2 : list obs) (r : response) :
  logged t1 r -> logged (t1 ++ t2) r.
Proof.
  intros (label & args & Hin & Harg). exists label, args.
  split; [apply in_or_app; now left | assumption].
Qed.

Lemma logged_app_r (t1 t2 : list obs) (r : response) :
  logged t2 r -> logged (t1 ++ t2) r.
Proof.
  intros (label & args & Hin & Harg). exists label, args.
  split; [apply in_or_app; now right | assumption].
Qed.

Lemma logged_cons (x : obs) (t : list obs) (r : response) :
  logged t r -> logged (x :: t) r.
Proof. apply (logged_app_r [x]). Qed.

Lemma run_fetchMembers (B : backend) (team : value) (d : db B) (s : unit) :
  let o := run B (Api.fetchMembers team) d s in
  (forall r, In r (responses (trace o)) -> hasError r = true ->
             logged (trace o) r)
  /\ (readable team = true ->
      exists r, requests (trace o) = [membersQueryOf team]
                /\ responses (trace o) = [r]
                /\ result o = Returned (withMembers team (membersFrom r)))
  /\ (readable team = false ->
      requests (trace o) = [] /\ responses (trace o) = []
      /\ returned (result o) = false).
Proof.
  unfold Api.fetchMembers, withMembers, membersFrom, membersQueryOf, hasError.
  destruct team; cbn;
    try (match goal with
         | |- context [serve B d ?q] =>
           destruct (serve B d q) as [d1 r1]; cbn;
           destruct (truthy (error r1)) eqn:Herr; cbn
         end).
  all: repeat split; intros; try discriminate; try contradiction.
  all: try (match goal with
            | H : _ \/ False |- _ => destruct H as [H|[]]; subst
            end).
  all: try congruence.
  all: try show_logged.
  all: eexists; repeat split; cbn; rewrite ?Herr; reflexivity.
Qed.

Lemma run_members (B : backend) (teams : list value) :
  forall (d : db B) (s : unit),
    let o := run B (promiseAll (map Api.fetchMembers teams)) d s in
    requests (trace o) = map membersQueryOf (List.filter readable teams)
    /\ List.length (responses (trace o))
       = List.length (List.filter readable teams)
    /\ (forall r, In r (responses (trace o)) -> hasError r = true ->
                  logged (trace o) r)
    /\ (forallb readable teams = true ->
        result o = Returned (attached teams (responses (trace o))))
    /\ (forallb readable teams = false -> returned (result o) = false).
Proof.
  induction teams as [|team teams IH]; intros d s.
  - cbn. repeat split; intros; try contradiction; try discriminate.
  - cbn [map]. rewrite run_promiseAll_cons. cbv zeta.
    pose proof (run_fetchMembers B team d s) as Hone. cbv zeta in Hone.
    destruct Hone as (Hlog1 & Hgood1 & Hbad1).
    set (o1 := run B (Api.fetchMembers team) d s) in *.
    specialize (IH (final_db o1) (final_state o1)). cbv zeta in IH.
    destruct IH as (Hq2 & Hn2 & Hlog2 & Hret2 & Hthrow2).
    set (o2 := run B (promiseAll (map Api.fetchMembers teams))
                   (final_db o1) (final_state o1)) in *.
    cbn [trace result]. rewrite requests_app, responses_app, length_app.
    cbn [List.filter forallb].
    assert (Hlog : forall r, In r (responses (trace o1)
                                   ++ responses (trace o2))%list ->
                             hasError r = true ->
                             logged (trace o1 ++ trace o2) r).
    { intros r Hin Herr. apply in_app_or in Hin. destruct Hin as [Hin|Hin].
      - apply logged_app_l. auto.
      - apply logged_app_r. auto. }
    destruct (readable team) eqn:Hteam.
    + destruct (Hgood1 eq_refl) as (r & Hq1 & Hr1 & Hres1).
      rewrite Hq1, Hq2, Hn2, Hres1. cbn [andb].
      split; [reflexivity|]. split; [now rewrite Hr1|]. split; [exact Hlog|].
      rewrite Hr1. split.
      * intros Hall. rewrite (Hret2 Hall). reflexivity.
      * intros Hall. specialize (Hthrow2 Hall).
        destruct (result o2); [discriminate|reflexivity].
    + destruct (Hbad1 eq_refl) as (Hq1 & Hr1 & Hres1).
      rewrite Hq1, Hq2, Hn2. cbn [andb].
      split; [reflexivity|]. split; [now rewrite Hr1|]. split; [exact Hlog|].
      split; [discriminate|]. intros _.
      destruct (result o1); [discriminate|reflexivity].
Qed.

Lemma run_attachMembers (B : backend) (teamsData : value) (d : db B) :
  let o := run B (@Api.attachMembers unit teamsData) d tt in
  requests (trace o)
  = map membersQueryOf (List.filter readable (rowsOf teamsData))
  /\ (forall r, In r (responses (trace o)) -> hasError r = true ->
                logged (trace o) r)
  /\ (match teamsData with
      | VNull => true
      | VArr teams => forallb readable teams
      | _ => false
      end = true -> returned (result o) = true)
  /\ (forall v, result o = Returned v ->
        forallb readable (rowsOf teamsData) = true
        /\ List.length (responses (trace o))
           = List.length (rowsOf teamsData)
        /\ v = VArr (attached (rowsOf teamsData) (responses (trace o)))).
Proof.
  cbv zeta. unfold Api.attachMembers.
  destruct teamsData as [| |b|n|str|teams|fields].
  6: {
    destruct teams as [|team teams].
    - cbn. repeat split; intros; try contradiction; auto.
      inversion H; subst. reflexivity.
    - set (all := team :: teams).
      replace (negb (truthy (VArr all))
               || match field "length" (VArr all) with
                  | VNum 0 => true
                  | _ => false
                  end) with false by reflexivity.
      clearbody all.
      rewrite run_bind. cbn [rowsOf].
      pose proof (run_members B all d tt) as H. cbv zeta in H.
      destruct H as (Hq & Hn & Hlog & Hret & Hthrow).
      destruct (forallb readable all) eqn:Hall.
      + rewrite (Hret eq_refl). unfold andThen. cbn.
        rewrite ?app_nil_r, ?(Hret eq_refl).
        repeat split; auto.
        * rewrite Hn. clear - Hall. induction all as [|t l IHl];
            [reflexivity|]. cbn in Hall |- *.
          apply andb_prop in Hall. destruct Hall as [-> Hl]. cbn.
          f_equal. exact (IHl Hl).
        * inversion H; subst. reflexivity.
      + specialize (Hthrow eq_refl).
        destruct (result (run B (promiseAll (map Api.fetchMembers all)) d tt))
          as [l|e] eqn:E; [discriminate|].
        unfold stopped. cbn. rewrite ?E.
        repeat split; auto; intros; discriminate.
  }
  all: cbn.
  all: repeat match goal with
              | |- context [match ?x with _ => _ end] => destruct x; cbn
              end.
  all: repeat split; intros; try contradiction; try discriminate; auto.
  all: match goal with
       | H : Returned _ = Returned _ |- _ => inversion H; subst; auto
       end.
Qed.

Lemma getTeams_run (B : backend) (d : db B) :
  let q1 := select_from "teams" "*" |> order "created_at" false in
  let r1 := snd (serve B d q1) in
  let out := run B (@Api.getTeams unit) d tt in
  exists answers,
    requests (trace out)
    = q1 :: (if hasError r1 then []
             else map membersQueryOf
                      (List.filter readable (rowsOf (data r1))))
    /\ responses (trace out) = r1 :: answers
    /\ (hasError r1 = true -> result out = Thrown (error r1))
    /\ (forall r, In r (responses (trace out)) -> hasError r = true ->
                  logged (trace out) r)
    /\ (hasError r1 = false -> wellTypedRows r1 = true ->
        returned (result out) = true)
    /\ (forall v, result out = Returned v ->
          hasError r1 = false
          /\ forallb readable (rowsOf (data r1)) = true
          /\ List.length answers = List.length (rowsOf (data r1))
          /\ v = VArr (attached (rowsOf (data r1)) answers)).
Proof.
  cbv zeta. unfold Api.getTeams, hasError, wellTypedRows.
  rewrite run_tryCatch. cbn [run bind await].
  destruct (serve B d _) as [d1 r1]. cbn [snd].
  unfold Api.throwIfError.
  destruct (truthy (error r1)) eqn:Herr; cbn [bind console_error emit run
    result trace final_db final_state andThen app].
  - exists []. cbn. repeat split; auto; try discriminate.
    intros r [<-|[]] _. show_logged.
  - pose proof (run_attachMembers B (data r1) d1) as H. cbv zeta in H.
    destruct H as (Hq & Hlog & Hret & Hres).
    set (o := run B (Api.attachMembers (data r1)) d1 tt) in *.
    exists (responses (trace o)).
    destruct (result o) as [v|e] eqn:E; cbn; rewrite ?requests_app,
      ?responses_app; cbn; rewrite ?app_nil_r, ?E, ?Hq.
    + split; [reflexivity|]. split; [reflexivity|].
      split; [discriminate|]. split; [|split; [auto|]].
      * intros r [<-|Hin] Hr; [congruence|].
        apply logged_cons. auto.
      * intros v' Hv'. inversion Hv'; subst.
        split; [reflexivity|]. apply (Hres v' eq_refl).
    + repeat split; auto; try discriminate.
      intros r [<-|Hin] Hr; [congruence|].
      apply logged_cons. apply logged_app_l. auto.
Qed.

Lemma getTeams_steps (B : backend) (d : db B) :
  getTeamsSteps B d (execute B d GetTeams).
Proof.
  destruct (getTeams_run B d)
    as (answers & Hreq & Hans & Herr & _ & Hret & Hres).
  unfold getTeamsSteps, execute. simpl invoke.
  exists (select_from "teams" "*" |> order "created_at" false), answers.
  split; [reflexivity|]. split; [reflexivity|].
  cbv zeta. split; [exact Hans|]. split; [exact Hreq|].
  split; [exact Herr|]. split; [|exact Hres].
  intros Hok Htyped. specialize (Hret Hok Htyped).
  destruct (result (run B Api.getTeams d tt)) as [v|e] eqn:E;
    [|discriminate].
  destruct (Hres v eq_refl) as (_ & _ & _ & ->). reflexivity.
Qed.

Lemma createTeam_policy (B : backend) (d : db B) (now : string)
      (teamData : value) :
  errorPolicy B d (CreateTeam now teamData).
Proof.
  unfold errorPolicy, execute. simpl invoke. unfold Api.createTeam.
  createTeam_cases B d teamData.
  all: repeat split; intros; try discriminate; try congruence.
  all: repeat match goal with
              | H : _ \/ _ |- _ => destruct H; subst
              | H : False |- _ => destruct H
              | H : _ :: _ = _ :: _ |- _ => inversion H; subst; clear H
              end.
  all: try congruence.
  all: try show_logged.
Qed.

Lemma getTeams_policy (B : backend) (d : db B) : errorPolicy B d GetTeams.
Proof.
  destruct (getTeams_run B d)
    as (answers & _ & Hans & Herr & Hlog & Hret & _).
  unfold errorPolicy, execute. simpl invoke. cbv zeta.
  repeat split; auto; try discriminate.
  - intros r rest' Hr Herr'. rewrite Hans in Hr. inversion Hr; subst.
    apply Herr. assumption.
  - intros r rest' Hr Hok Hrows. rewrite Hans in Hr. inversion Hr; subst.
    auto.
Qed.

Lemma single_step_policy (B : backend) (d : db B) (c : call) :
  multiStep c = false -> wellShaped c -> errorPolicy B d c.
Proof.
  intros Hsingle Hshape.
  destruct (single_step_run B d c Hsingle Hshape)
    as (q & _ & _ & _ & _ & Hans & Hbad & Hgood).
  unfold errorPolicy. cbv zeta. rewrite Hans.
  set (r := snd (serve B d q)) in *.
  repeat split.
  - intros r' [<-|[]] Hr. apply Hbad. assumption.
  - intros r' rest Hr Herr. inversion Hr; subst. apply Hbad. assumption.
  - intros Hret. cbn. destruct (hasError r) eqn:E; [|reflexivity].
    destruct (Hbad eq_refl) as [Hthrown _]. rewrite Hthrown in Hret.
    discriminate.
  - cbn. intros Hall. destruct (hasError r) eqn:E; [discriminate|].
    destruct (Hgood eq_refl) as [Hreturned _]. rewrite Hreturned.
    reflexivity.
  - destruct c; try exact I; discriminate.
Qed.

(** C5, as the code has it. Every data-access function other than
    [getTeams] and [createTeam] performs exactly one remote operation
    against one logical table (related tables are joined through the select
    expression) and returns the answer's data ([[]] in place of absent list
    data, [true] for [deleteTeam]) or throws the reported error, given
    arguments of the declared shape. [getTeams] performs one select on
    teams followed by one select on team_members per returned team,
    filtered on that team's id; it throws the error of the teams select,
    and otherwise (rows [null] or an array of rows that are not [null])
    returns the teams in the order received, each with the rows attached
    that its own query was answered with ([[]] for an error or absent
    data). [createTeam] performs one insert on teams followed, when the
    row came back and [created_by] is set, by one insert on team_members;
    it throws the error of the teams insert, and returns the row with an
    empty [team_members] list when one came back. *)
Theorem data_access_operations (B : backend) (d : db B) (c : call) :
  wellShaped c -> operationsOf B d c.
Proof.
  intros Hshape. unfold operationsOf. cbv zeta.
  destruct c;
    try (apply single_step_run; [reflexivity | exact Hshape]).
  - apply getTeams_steps.
  - apply createTeam_steps.
Qed.

Lemma data_access_operations_witness :
  operationsOf scripted [failed "permission denied"]
               (GetPlayers (VObj [("game", VStr "Valorant")])).
Proof.
  apply data_access_operations. simpl. discriminate.
Defined.

(** C5 as stated fails: creating a team whose creator is set takes two
    remote operations, on two tables, and the value returned is not the
    raw row; reading two stored teams takes three. *)
Lemma createTeam_two_operations :
  map (fun q => (req_table q, req_method q))
      (requests (trace (execute tableStore emptyStore
                                (CreateTeam noon alphaData))))
  = [("teams", INSERT); ("team_members", INSERT)]
  /\ ~ (exists q, requests (trace (execute tableStore emptyStore
                                           (CreateTeam noon alphaData)))
                  = [q])
  /\ result (execute tableStore emptyStore (CreateTeam noon alphaData))
     = Returned (VObj [("name", VStr "Alpha"); ("game", VStr "Valorant");
                       ("created_by", VStr "p1"); ("id", VStr "row-0");
                       ("team_members", VArr [])])
  /\ map req_table (requests (trace (execute tableStore twoTeams GetTeams)))
     = ["teams"; "team_members"; "team_members"].
Proof.
  repeat split; try reflexivity.
  intros [q Hq]. vm_compute in Hq. discriminate Hq.
Qed.

(** C6, as the code has it. Given arguments of the declared shape
    ([getPlayers]: filters an object or omitted, not [null]), every error
    reported by a remote call is logged. The error of a function's first
    call is re-thrown, so the eleven single-step functions return normally
    exactly when their call reported no error. The team_members calls of
    [getTeams] and [createTeam] are the exception: their errors are logged
    and the function still returns, [getTeams] whenever the teams call
    reported no error and its data is [null] or an array of rows that are
    not [null], [createTeam] whenever the teams call reported no error and
    returned a row and [teamData] is an object (not [null] or
    [undefined]). *)
Theorem data_access_errors (B : backend) (d : db B) (c : call) :
  wellShaped c -> errorPolicy B d c.
Proof.
  intros Hshape.
  destruct (multiStep c) eqn:Hmulti.
  - destruct c; try discriminate Hmulti.
    + apply getTeams_policy.
    + apply createTeam_policy.
  - apply single_step_policy; assumption.
Qed.

Lemma data_access_errors_witness :
  errorPolicy scripted memberInsertRefused (CreateTeam noon alphaData).
Proof.
  apply data_access_errors. exact I.
Defined.

(** C6 as stated fails: when the backend accepts the team and refuses the
    membership row, [createTeam] returns normally although one of its
    remote calls reported an error; the error is only logged. *)
Lemma createTeam_swallows_member_error :
  returned (result (execute scripted memberInsertRefused
                            (CreateTeam noon alphaData))) = true
  /\ existsb hasError
             (responses (trace (execute scripted memberInsertRefused
                                        (CreateTeam noon alphaData))))
     = true
  /\ events (trace (execute scripted memberInsertRefused
                            (CreateTeam noon alphaData)))
     = [ConsoleError "Error adding creator as team member:"
          [mkError "PostgrestError"
                   "new row violates row-level security policy"]].
Proof. repeat split. Qed.

End ApiFacts.

(** * Properties of the Teams page *)

Module TeamsFacts.
Import Js Remote Backends Services Scenarios RemoteFacts Teams.

Lemma created_by_of_form (parseInt : value -> value) (profile : value)
      (pid : string) (formData : string -> value) :
  profileId profile = VStr pid ->
  prop (teamDataOf parseInt profile formData) "created_by"
  = Returned (VStr pid).
Proof. intros Hpid. unfold teamDataOf. cbn. rewrite Hpid. reflexivity. Qed.

(** Every path through a submission, by the answers it receives. *)
Ltac submit_cases B d Hcb :=
  unfold handleSubmit, Api.createTeam, hasError; cbn;
  let d1 := fresh "d1" in
  let r1 := fresh "r1" in
  let Herr := fresh "Herr" in
  let Hdata := fresh "Hdata" in
  destruct (serve B d _) as [d1 r1]; cbn;
  unfold Api.throwIfError;
  destruct (truthy (error r1)) eqn:Herr; cbn;
  [|destruct (truthy (data r1)) eqn:Hdata; cbn;
    [rewrite ?Hcb; cbn;
     match goal with
     | |- context [String.eqb ?pid ""] => destruct (String.eqb pid ""); cbn
     end;
     try (match goal with
          | |- context [serve B d1 ?q] =>
            let d2 := fresh "d2" in
            let r2 := fresh "r2" in
            destruct (serve B d1 q) as [d2 r2]; cbn;
            destruct (truthy (error r2)); cbn
          end)|]].

Lemma team_creation_run (B : backend) (d : db B)
      (parseInt : value -> value) (now : string)
      (profile : value) (pid : string)
      (formData : string -> value) (s : state) :
  profileId profile = VStr pid ->
  let teamData := teamDataOf parseInt profile formData in
  let q1 := insert_into "teams" teamData |> returning |> single in
  let r1 := snd (serve B d q1) in
  let out := run B (handleSubmit parseInt now profile closeDialog
                                 (Some handleTeamCreated) formData) d s in
  List.filter (fun q => String.eqb (req_table q) "teams")
              (requests (trace out)) = [q1]
  /\ (negb (hasError r1) && truthy (data r1) = true ->
      myTeams (final_state out)
      = withMembers (data r1) (VArr []) :: myTeams s
      /\ In (Event (ToastSuccess "Team created successfully!")) (trace out))
  /\ (negb (hasError r1) && truthy (data r1) = false ->
      myTeams (final_state out) = myTeams s
      /\ exists e, In (Event (ToastError "Failed to create team: ${errorMessage}"
                                         [e])) (trace out))
  /\ teams (final_state out) = teams s.
Proof.
  intros Hpid. cbv zeta.
  submit_cases B d Hpid.
  all: repeat split; intros; try discriminate; try reflexivity.
  all: try eexists; repeat (first [left; reflexivity | right]).
Qed.

Lemma table_app (name : string) (st : store) (extra : list (string * value)) :
  table name {| rows := (rows st ++ extra)%list; nextId := nextId st |}
  = (table name st
     ++ map snd (List.filter (fun entry => String.eqb (fst entry) name)
                             extra))%list.
Proof. unfold table. cbn. now rewrite filter_app, map_app. Qed.

Lemma team_creation_stored (parseInt : value -> value) (now : string)
      (profile : value) (pid : string)
      (formData : string -> value) (s : state) (st : store) :
  profileId profile = VStr pid ->
  exists row,
    table "teams"
          (final_db (run tableStore
                         (handleSubmit parseInt now profile closeDialog
                                       (Some handleTeamCreated) formData)
                         st s))
    = (table "teams" st ++ [row])%list
    /\ field "created_by" row = VStr pid.
Proof.
  intros Hpid.
  unfold handleSubmit, Api.createTeam. cbn. rewrite Hpid. cbn.
  destruct (String.eqb pid ""); cbn.
  all: unfold table; rewrite !filter_app, !map_app; cbn;
    rewrite ?app_nil_r; eexists; split; reflexivity.
Qed.

(** C3, as the code has it. A submission of the team-creation form by a
    signed-in profile issues exactly one insert on the teams table, whose
    creator reference is the submitting profile; against the table store
    the teams table grows by exactly that one row. When the backend accepts
    the insert and returns the row, that team (with an empty member list)
    is put at the front of the caller's list of own teams; otherwise the
    list is unchanged and a failure notice is shown. *)
Theorem team_creation (B : backend) (d : db B)
        (parseInt : value -> value) (now : string)
        (profile : value) (pid : string)
        (formData : string -> value) (s : state) :
  profileId profile = VStr pid ->
  let teamData := teamDataOf parseInt profile formData in
  let q1 := insert_into "teams" teamData |> returning |> single in
  let r1 := snd (serve B d q1) in
  let submit := handleSubmit parseInt now profile closeDialog
                             (Some handleTeamCreated) formData in
  let out := run B submit d s in
  List.filter (fun q => String.eqb (req_table q) "teams")
              (requests (trace out)) = [q1]
  /\ req_method q1 = INSERT
  /\ field "created_by" (req_body q1) = VStr pid
  /\ (forall st : store,
        exists row,
          table "teams" (final_db (run tableStore submit st s))
          = (table "teams" st ++ [row])%list
          /\ field "created_by" row = VStr pid)
  /\ (negb (hasError r1) && truthy (data r1) = true ->
      myTeams (final_state out)
      = withMembers (data r1) (VArr []) :: myTeams s
      /\ In (Event (ToastSuccess "Team created successfully!")) (trace out))
  /\ (negb (hasError r1) && truthy (data r1) = false ->
      myTeams (final_state out) = myTeams s
      /\ exists e, In (Event (ToastError "Failed to create team: ${errorMessage}"
                                         [e])) (trace out))
  /\ teams (final_state out) = teams s.
Proof.
  intros Hpid. cbv zeta.
  destruct (team_creation_run B d parseInt now profile pid formData s Hpid)
    as (Hone & Hgood & Hbad & Hteams).
  split; [exact Hone|]. split; [reflexivity|].
  split; [cbn; rewrite Hpid; reflexivity|].
  split; [intros st; apply team_creation_stored; exact Hpid|].
  split; [exact Hgood|]. split; [exact Hbad|exact Hteams].
Qed.

Lemma team_creation_witness :
  List.filter (fun q => String.eqb (req_table q) "teams")
              (requests (trace (run scripted submitAlpha
                                    [ok alphaRow; ok VNull] showingBravo)))
  = [insert_into "teams" (teamDataOf noParse profileP1 alphaForm)
     |> returning |> single]
  /\ myTeams (final_state (run scripted submitAlpha
                               [ok alphaRow; ok VNull] showingBravo))
     = [withMembers alphaRow (VArr []); bravoRow].
Proof.
  destruct (team_creation scripted [ok alphaRow; ok VNull] noParse noon
                          profileP1 "p1" alphaForm showingBravo eq_refl)
    as (Hone & _ & _ & _ & Hgood & _).
  split; [exact Hone|]. apply Hgood. reflexivity.
Defined.

(** C3 as stated fails in its last part: the created team is not appended
    to the list of own teams, it is put in front of the teams already
    there. *)
Lemma created_team_not_appended :
  In (Event (ToastSuccess "Team created successfully!"))
     (trace (run scripted submitAlpha [ok alphaRow; ok VNull] showingBravo))
  /\ myTeams (final_state (run scripted submitAlpha
                               [ok alphaRow; ok VNull] showingBravo))
     = [withMembers alphaRow (VArr []); bravoRow]
  /\ myTeams (final_state (run scripted submitAlpha
                               [ok alphaRow; ok VNull] showingBravo))
     <> (myTeams showingBravo ++ [withMembers alphaRow (VArr [])])%list.
Proof.
  split; [|split].
  - cbn. tauto.
  - reflexivity.
  - cbn. intros H. inversion H.
Qed.

(** Whatever the backend: when the delete is answered with an error,
    [deleteTeam] throws it and [handleDelete] shows the failure without
    touching the local state or starting [fetchTeams]. *)
Lemma handleDelete_rejected (B : backend) (d : db B) (S : Type) (s : S)
      (team : value) (fetchTeams : option (prog S unit)) :
  let id := asString (field "id" team) in
  let q := delete_from "teams" |> eq "id" (VStr id) in
  let r := snd (serve B d q) in
  let out := run B (handleDelete true team fetchTeams) d s in
  hasError r = true ->
  result (run B (Api.deleteTeam id) d s) = Thrown (error r)
  /\ final_state out = s
  /\ final_db out = fst (serve B d q)
  /\ trace out
     = [Request q r;
        Event (ConsoleError "Error deleting team:" [error r]);
        Event (ToastError "Failed to delete team: "
                          [orElse (field "message" (error r))
                                  (VStr "Unknown error")])].
Proof.
  cbv zeta. unfold handleDelete, Api.deleteTeam, hasError. cbn.
  destruct (serve B d _) as [d1 r1]. cbn. unfold Api.throwIfError.
  intros Herr. rewrite Herr. cbn. repeat split.
Qed.

Lemma value_eqb_str (v : value) (str : string) :
  value_eqb v (VStr str) = true -> v = VStr str.
Proof.
  destruct v; cbn; try discriminate.
  intros H. apply String.eqb_eq in H. now subst.
Qed.

Lemma guarded_delete_refused (me id : string) (st : store) (row : value) :
  In row (table "teams" st) ->
  field "id" row = VStr id ->
  field "created_by" row <> VStr me ->
  serve (guardedStore me) st (delete_from "teams" |> eq "id" (VStr id))
  = (st, failed "permission denied for table teams").
Proof.
  intros Hin Hid Hother. cbn. unfold serveGuarded. cbn.
  replace (existsb (fun row => negb (ownedBy me row))
                   (selected (delete_from "teams" |> eq "id" (VStr id)) st))
    with true; [reflexivity|].
  symmetry. apply existsb_exists. exists row. split.
  - unfold table in Hin. apply in_map_iff in Hin.
    destruct Hin as ([name row'] & Hrow & Hentry). cbn in Hrow. subst row'.
    apply filter_In in Hentry. destruct Hentry as [Hentry Hname].
    cbn in Hname.
    unfold selected. apply in_map_iff. exists (name, row).
    split; [reflexivity|]. apply filter_In. split; [assumption|].
    unfold selects. cbn. rewrite Hname, Hid. cbn.
    now rewrite String.eqb_refl.
  - unfold ownedBy. destruct (value_eqb (field "created_by" row) (VStr me))
      eqn:E; [|reflexivity].
    apply value_eqb_str in E. contradiction.
Qed.

(** The computed properties leave the id of a team alone. *)
Lemma lookup_assign_other (k k' : string) (x : value)
      (fields : list (string * value)) :
  k <> k' -> lookup k (assign k' x fields) = lookup k fields.
Proof.
  intros Hk. induction fields as [|[k0 y] rest IH]; cbn.
  - destruct (String.eqb k k') eqn:E; [|reflexivity].
    apply String.eqb_eq in E. contradiction.
  - destruct (String.eqb k' k0) eqn:E0; cbn.
    + apply String.eqb_eq in E0. subst k0.
      destruct (String.eqb k k') eqn:E; [|reflexivity].
      apply String.eqb_eq in E. contradiction.
    + destruct (String.eqb k k0); [reflexivity|exact IH].
Qed.

Lemma shown_keeps_id (row members : value) (id : string) :
  field "id" row = VStr id ->
  field "id" (TeamsShown.shown row members) = VStr id.
Proof.
  intros Hid. unfold TeamsShown.shown, TeamsMore.processTeam, withMembers.
  cbn [prop]. cbn [field spread].
  rewrite !lookup_assign_other by discriminate.
  destruct row; cbn in Hid |- *; try discriminate; exact Hid.
Qed.

(** C4. For every stored team the current profile does not own, a delete
    attempt from the page is rejected, whatever copy of the team the page
    holds (the components work on teams with members and computed
    properties added; only the id is read): the backend call returns an
    error, which [deleteTeam] re-throws, the team stays stored, and after
    the failed operation the caller's local team lists are unchanged
    ([fetchTeams] is not started, a failure notice is shown). *)
Theorem delete_of_foreign_team_rejected
        (me id : string) (st : store) (row team : value) (s : state)
        (fetchTeams : option (prog state unit)) :
  In row (table "teams" st) ->
  field "id" row = VStr id ->
  field "created_by" row <> VStr me ->
  field "id" team = VStr id ->
  let out := run (guardedStore me) (handleDelete true team fetchTeams) st s in
  (exists e, hasError {| data := VNull; error := e |} = true
             /\ responses (trace out) = [{| data := VNull; error := e |}]
             /\ requests (trace out)
                = [delete_from "teams" |> eq "id" (VStr id)]
             /\ result (run (guardedStore me) (Api.deleteTeam id) st s)
                = Thrown e
             /\ In (Event (ConsoleError "Error deleting team:" [e]))
                   (trace out))
  /\ final_db out = st
  /\ In row (table "teams" (final_db out))
  /\ final_state out = s
  /\ teams (final_state out) = teams s
  /\ myTeams (final_state out) = myTeams s
  /\ ~ In (Event (ToastSuccess "Team deleted successfully!")) (trace out)
  /\ In (Event (ToastError "Failed to delete team: "
                           [VStr "permission denied for table teams"]))
        (trace out).
Proof.
  intros Hin Hid Hother Hteam. cbv zeta.
  pose proof (guarded_delete_refused me id st row Hin Hid Hother) as Hserve.
  pose proof (handleDelete_rejected (guardedStore me) st state s team
                                    fetchTeams) as H.
  cbv zeta in H. rewrite Hteam in H. cbn [asString] in H.
  rewrite Hserve in H. cbn [snd fst] in H.
  destruct (H eq_refl) as (Hthrow & Hstate & Hdb & Htrace). clear H.
  rewrite Htrace, Hstate, Hdb.
  repeat split; auto.
  - exists (error (failed "permission denied for table teams")).
    split; [reflexivity|]. split; [reflexivity|]. split; [reflexivity|].
    split; [exact Hthrow | cbn; tauto].
  - intros [H|[H|[H|[]]]]; discriminate.
  - cbn. tauto.
Qed.

Lemma delete_of_foreign_team_rejected_witness :
  final_db (run (guardedStore "p1")
                (handleDelete true TeamsShown.bravoShown (Some refetch))
                twoTeams showingBoth) = twoTeams
  /\ final_state (run (guardedStore "p1")
                      (handleDelete true TeamsShown.bravoShown (Some refetch))
                      twoTeams showingBoth) = showingBoth.
Proof.
  destruct (delete_of_foreign_team_rejected
              "p1" "t2" twoTeams bravoRow TeamsShown.bravoShown showingBoth
              (Some refetch))
    as (_ & Hdb & _ & Hstate & _).
  - cbn. tauto.
  - reflexivity.
  - cbn. discriminate.
  - reflexivity.
  - split; assumption.
Defined.

(** Every stored team with an id is covered: the copy [fetchTeams] shows
    carries the id of the row. *)
Example delete_of_shown_team (me id : string) (st : store)
        (row members : value) (s : state) :
  In row (table "teams" st) ->
  field "id" row = VStr id ->
  field "created_by" row <> VStr me ->
  final_db (run (guardedStore me)
                (handleDelete true (TeamsShown.shown row members) None) st s)
  = st
  /\ final_state (run (guardedStore me)
                      (handleDelete true (TeamsShown.shown row members) None)
                      st s) = s.
Proof.
  intros Hin Hid Hother.
  pose proof (guarded_delete_refused me id st row Hin Hid Hother) as Hserve.
  pose proof (handleDelete_rejected (guardedStore me) st state s
                (TeamsShown.shown row members) None) as H.
  cbv zeta in H. rewrite (shown_keeps_id row members id Hid) in H.
  cbn [asString] in H. rewrite Hserve in H. cbn [snd fst] in H.
  destruct (H eq_refl) as (_ & Hstate & Hdb & _). split; assumption.
Qed.

(** The owner's delete goes through, for comparison. *)
Example delete_of_own_team :
  table "teams" (final_db (run (guardedStore "p1")
                               (handleDelete true alphaRow (Some refetch))
                               twoTeams showingBoth)) = [bravoRow]
  /\ myTeams (final_state (run (guardedStore "p1")
                               (handleDelete true alphaRow (Some refetch))
                               twoTeams showingBoth)) = [].
Proof. split; reflexivity. Qed.

End TeamsFacts.

(** * Properties of the notifications hook *)

Module NotificationsFacts.
Import Js Remote Backends Scenarios Auth Notifications.

Example fetch_shows_all_read :
  final_state (run scripted (fetchNotifications (Some ada))
                   [ok (VArr [invitationRow])] initial) = allRead.
Proof. reflexivity. Qed.

Example fetch_shows_one_unread :
  final_state (run scripted (fetchNotifications (Some ada))
                   [ok (VArr [invitationRow; reminderRow])] initial)
  = oneUnread.
Proof. reflexivity. Qed.

Lemma countUnread_cons (n : Notification) (l : list Notification) :
  countUnread (n :: l) = (if read n then 0 else 1) + countUnread l.
Proof.
  unfold countUnread. cbn [List.filter].
  destruct (read n); cbn [negb List.length]; lia.
Qed.

Lemma countUnread_nonneg (l : list Notification) : 0 <= countUnread l.
Proof. unfold countUnread. lia. Qed.

Lemma countUnread_member (n : Notification) (l : list Notification) :
  In n l -> read n = false -> 1 <= countUnread l.
Proof.
  induction l as [|m l IH]; intros Hin Hunread; [contradiction|].
  rewrite countUnread_cons. pose proof (countUnread_nonneg l).
  destruct Hin as [->|Hin].
  - rewrite Hunread. lia.
  - specialize (IH Hin Hunread). destruct (read m); lia.
Qed.

Lemma countUnread_all_read (l : list Notification) :
  countUnread (map withRead l) = 0.
Proof.
  induction l as [|n l IH]; [reflexivity|].
  cbn [map]. rewrite countUnread_cons, IH. reflexivity.
Qed.

(** The list after a successful [markAsRead]. *)
Lemma marked_list (target : string) (l : list Notification) :
  Forall2 (fun before after =>
             id after = id before
             /\ (id before <> target -> after = before)
             /\ (id before = target -> read after = true))
          l
          (map (fun n => if String.eqb (id n) target then withRead n else n)
               l).
Proof.
  induction l as [|n l IH]; cbn [map]; constructor; [|exact IH].
  destruct (String.eqb (id n) target) eqn:E.
  - apply String.eqb_eq in E.
    split; [reflexivity|]. split; [congruence|reflexivity].
  - apply String.eqb_neq in E.
    split; [reflexivity|]. split; [reflexivity|congruence].
Qed.

(** C2, as the code has it. For every notification in the local list, a
    [markAsRead] on its id that the backend accepts sets the unread
    counter to [max 0 (count - 1)]: exactly one less when the counter is
    positive (in particular when the counter is right and the notification
    was unread), unchanged when it is already zero. The read flag (and
    every other field) of each notification with a different id is left
    unchanged; the ones with that id are marked read. *)
Theorem markAsRead_effect (B : backend) (d : db B) (u : User)
        (s : state) (n : Notification) :
  In n (notifications s) ->
  hasError (snd (serve B d (update_in "notifications"
                                     (VObj [("read", VBool true)])
                            |> eq "id" (VStr (id n))))) = false ->
  let out := run B (markAsRead (Some u) (id n)) d s in
  result out = Returned true
  /\ unreadCount (final_state out) = Z.max 0 (unreadCount s - 1)
  /\ unreadCount (final_state out)
     = (if 1 <=? unreadCount s then unreadCount s - 1 else 0)
  /\ (consistent s -> read n = false ->
      unreadCount (final_state out) = unreadCount s - 1)
  /\ Forall2 (fun before after =>
                id after = id before
                /\ (id before <> id n -> after = before)
                /\ (id before = id n -> read after = true))
             (notifications s) (notifications (final_state out)).
Proof.
  intros Hin Hok. cbv zeta. unfold markAsRead. unfold hasError in Hok.
  cbn. destruct (serve B d _) as [d1 r1]. cbn in Hok |- *.
  rewrite Hok. cbn.
  repeat split.
  - destruct (1 <=? unreadCount s) eqn:E.
    + apply Z.leb_le in E. lia.
    + apply Z.leb_gt in E. lia.
  - intros Hcons Hunread. unfold consistent in Hcons.
    pose proof (countUnread_member n _ Hin Hunread). lia.
  - apply marked_list.
Qed.

Lemma markAsRead_effect_witness :
  result (run scripted (markAsRead (Some ada) (id reminder))
              [ok VNull] oneUnread) = Returned true
  /\ unreadCount (final_state (run scripted
                                   (markAsRead (Some ada) (id reminder))
                                   [ok VNull] oneUnread)) = 0.
Proof.
  destruct (markAsRead_effect scripted [ok VNull] ada oneUnread reminder)
    as (Hres & Hcount & _).
  - cbn. tauto.
  - reflexivity.
  - split; [exact Hres | exact Hcount].
Defined.

(** Without a signed-in user, or when the backend answers with an error,
    [markAsRead] changes nothing and returns [false]. *)
Lemma markAsRead_without_effect (B : backend) (d : db B) (u : User)
      (s : state) (target : string) :
  (result (run B (markAsRead None target) d s) = Returned false
   /\ final_state (run B (markAsRead None target) d s) = s)
  /\ (hasError (snd (serve B d (update_in "notifications"
                                          (VObj [("read", VBool true)])
                                 |> eq "id" (VStr target)))) = true ->
      result (run B (markAsRead (Some u) target) d s) = Returned false
      /\ final_state (run B (markAsRead (Some u) target) d s) = s).
Proof.
  split; [split; reflexivity|].
  unfold markAsRead, hasError. cbn. destruct (serve B d _) as [d1 r1].
  cbn. intros Herr. rewrite Herr. cbn. split; reflexivity.
Qed.

(** C2 as stated fails: after a fetch that returned one notification,
    already read, the counter is 0; marking that notification read again
    succeeds and leaves the counter at 0 instead of taking one off. *)
Lemma markAsRead_at_zero :
  final_state (run scripted (fetchNotifications (Some ada))
                   [ok (VArr [invitationRow])] initial) = allRead
  /\ In invitation (notifications allRead)
  /\ result (run scripted (markAsRead (Some ada) (id invitation))
                 [ok VNull] allRead) = Returned true
  /\ unreadCount (final_state (run scripted
                                   (markAsRead (Some ada) (id invitation))
                                   [ok VNull] allRead))
     = unreadCount allRead
  /\ unreadCount (final_state (run scripted
                                   (markAsRead (Some ada) (id invitation))
                                   [ok VNull] allRead))
     <> unreadCount allRead - 1.
Proof.
  repeat split; try reflexivity.
  - cbn. tauto.
  - cbn. discriminate.
Qed.

(** ** The unread counter against the list *)

Lemma unreadAmong_typed (rows : list value) :
  forallb Services.readable rows = true ->
  unreadAmong rows
  = Returned (List.filter (fun n => negb (truthy (field "read" n))) rows).
Proof.
  induction rows as [|row rows IH]; [reflexivity|].
  cbn [forallb]. intros H. apply andb_prop in H. destruct H as [Hrow Hrows].
  cbn [unreadAmong List.filter]. rewrite (IH Hrows).
  destruct row; try discriminate; cbn [prop];
    destruct (truthy _); reflexivity.
Qed.


Lemma unreadOf_typed (rows : list value) :
  forallb Services.readable rows = true ->
  unreadOf (VArr rows) = Returned (countUnread (map asNotification rows)).
Proof.
  intros H. unfold unreadOf. rewrite (unreadAmong_typed rows H).
  unfold countUnread. do 2 f_equal.
  clear H. induction rows as [|row rows IH]; [reflexivity|].
  cbn. destruct (truthy (field "read" row)); cbn; now rewrite IH.
Qed.

Lemma fetch_consistent (B : backend) (d : db B) (u : User) (s : state) :
  Services.wellTypedRows
    (snd (serve B d (select_from "notifications" "*"
                     |> eq "user_id" (VStr (user_id u))
                     |> order "created_at" false))) = true ->
  consistent s ->
  consistent (final_state (run B (fetchNotifications (Some u)) d s)).
Proof.
  intros Htyped Hs.
  unfold fetchNotifications, consistent, Services.wellTypedRows in *.
  cbn -[unreadOf].
  destruct (serve B d _) as [d1 r1]. cbn -[unreadOf] in Htyped |- *.
  destruct (truthy (error r1)); cbn -[unreadOf]; [exact Hs|].
  destruct (data r1) as [| |b|n|str|rows|fields]; try discriminate;
    cbn -[unreadOf]; [exact Hs|].
  rewrite (unreadOf_typed rows Htyped). reflexivity.
Qed.

Lemma markAllAsRead_consistent (B : backend) (d : db B) (u : option User)
      (s : state) :
  consistent s ->
  consistent (final_state (run B (markAllAsRead u (unreadCount s)) d s)).
Proof.
  intros Hs. unfold markAllAsRead. destruct u as [u|]; [|exact Hs].
  destruct (unreadCount s =? 0); [exact Hs|]. cbn.
  destruct (serve B d _) as [d1 r1]. cbn.
  destruct (truthy (error r1)); cbn; [exact Hs|].
  unfold consistent. cbn. now rewrite countUnread_all_read.
Qed.


Lemma mark_absent (target : string) (l : list Notification) :
  ~ In target (map id l) ->
  map (fun n => if String.eqb (id n) target then withRead n else n) l = l.
Proof.
  induction l as [|m l IH]; intros Habsent; [reflexivity|].
  cbn [map] in *. destruct (String.eqb (id m) target) eqn:E.
  - apply String.eqb_eq in E. elim Habsent. now left.
  - rewrite IH; [reflexivity|]. intros Hin. apply Habsent. now right.
Qed.

Lemma countUnread_marked (n : Notification) (l : list Notification) :
  NoDup (map id l) -> In n l -> read n = false ->
  countUnread (map (fun m => if String.eqb (id m) (id n)
                             then withRead m else m) l)
  = countUnread l - 1.
Proof.
  induction l as [|m l IH]; intros Hnodup Hin Hunread; [contradiction|].
  cbn [map] in *. inversion Hnodup as [|? ? Hfresh Hrest]; subst.
  rewrite !countUnread_cons. destruct Hin as [->|Hin].
  - rewrite String.eqb_refl, (mark_absent (id n) l Hfresh), Hunread.
    cbn [withRead read]. lia.
  - assert (Hne : String.eqb (id m) (id n) = false).
    { apply String.eqb_neq. intros Heq. apply Hfresh. rewrite Heq.
      now apply in_map. }
    rewrite Hne, (IH Hrest Hin Hunread). lia.
Qed.

(** Where [markAsRead] does keep the counter right: on an unread
    notification of a list without repeated ids. *)
Lemma markAsRead_consistent (B : backend) (d : db B) (u : User) (s : state)
      (n : Notification) :
  consistent s -> NoDup (map id (notifications s)) ->
  In n (notifications s) -> read n = false ->
  consistent (final_state (run B (markAsRead (Some u) (id n)) d s)).
Proof.
  intros Hs Hnodup Hin Hunread. unfold markAsRead, consistent in *. cbn.
  destruct (serve B d _) as [d1 r1]. cbn.
  destruct (truthy (error r1)); cbn; [exact Hs|].
  rewrite (countUnread_marked n _ Hnodup Hin Hunread).
  pose proof (countUnread_member n _ Hin Hunread). lia.
Qed.

(** C8 at the failing input. The initial fetch returns a read and an
    unread notification and sets the counter to 1, as it should. Marking
    the notification that is already read (a click on it in the list does
    that) takes one off all the same: the counter shows 0 while one
    notification in the list is still unread. *)
Theorem markAsRead_breaks_unread_count :
  reachable scripted [ok (VArr [invitationRow; reminderRow]); ok VNull]
            [ok VNull] oneUnread
  /\ consistent oneUnread
  /\ reachable scripted [ok (VArr [invitationRow; reminderRow]); ok VNull]
               []
               (snd (perform scripted (MarkAsRead (Some ada) "n1")
                             [ok VNull] oneUnread))
  /\ unreadCount (snd (perform scripted (MarkAsRead (Some ada) "n1")
                               [ok VNull] oneUnread)) = 0
  /\ countUnread (notifications
                    (snd (perform scripted (MarkAsRead (Some ada) "n1")
                                  [ok VNull] oneUnread))) = 1
  /\ ~ consistent (snd (perform scripted (MarkAsRead (Some ada) "n1")
                                [ok VNull] oneUnread)).
Proof.
  assert (H1 : reachable scripted
                 [ok (VArr [invitationRow; reminderRow]); ok VNull]
                 [ok VNull] oneUnread).
  { exact (reach_step scripted _ _ _ (Fetch (Some ada))
                      (reach_initial scripted _)). }
  split; [exact H1|]. split; [reflexivity|].
  split; [exact (reach_step scripted _ _ _ (MarkAsRead (Some ada) "n1") H1)|].
  split; [reflexivity|]. split; [reflexivity|].
  unfold consistent. cbn. discriminate.
Qed.

End NotificationsFacts.

(** * Properties of the chat transcript *)

Module ChatFacts.
Import Js Remote Backends Scenarios Auth ChatTypes.

(** The temporary id never equals a stored row's id unless the backend
    hands out ids of that very form; and the drawer's handler does not look
    for the prefix. *)
Lemma tempId_prefix (nowMs : Z) : String.prefix "temp-" (tempId nowMs) = true.
Proof.
  unfold tempId. cbn [append String.prefix].
  repeat (destruct (ascii_dec _ _) as [_|Hne]; [|now elim Hne]).
  destruct (Avatar.numberToString nowMs); reflexivity.
Qed.

(** In the drawer, whatever the transcript, the captured snapshot and the
    answers of the backend: a message that is sent and accepted, and then
    delivered by a push event under an id the subscription has not seen,
    ends up in the transcript twice, once under its temporary id and once
    under its stored id. *)
Lemma drawer_keeps_both_copies (B : backend) (d : db B)
      (trim : string -> string) (u : User) (p : option MessageProfile)
      (chatId typed nowIso : string) (nowMs : Z)
      (s : ChatDrawer.state) (captured : list Message) (newMsg : Message) :
  trim typed <> "" ->
  chatId <> "" ->
  hasError (snd (serve B d (insert_into "messages"
                              (messageRow typed chatId (user_id u)))))
  = false ->
  hasId captured (id newMsg) = false ->
  exists temp stored,
    ChatDrawer.messages
      (final_state
         (run B (ChatDrawer.sendMessage trim (Some u) p chatId typed
                                        nowMs nowIso ;;;
                 ChatDrawer.onInsert captured newMsg) d s))
    = (ChatDrawer.messages s ++ [temp; stored])%list
    /\ id temp = tempId nowMs /\ content temp = typed
    /\ id stored = id newMsg /\ content stored = content newMsg.
Proof.
  intros Htyped Hchat Hok Hnew.
  apply String.eqb_neq in Htyped. apply String.eqb_neq in Hchat.
  unfold ChatDrawer.sendMessage, ChatDrawer.onInsert, hasError in *.
  rewrite Htyped, Hchat, Hnew. cbn.
  destruct (serve B d _) as [d1 r1]. cbn in Hok |- *. rewrite Hok. cbn.
  destruct (serve B d1 _) as [d2 r2]. cbn.
  rewrite <- app_assoc. cbn.
  eexists _, _. split; [reflexivity|]. repeat split.
Qed.

(** The hook's handler also skips ids that look temporary; a stored id
    does not, and the outcome is the same. *)
Lemma hook_keeps_both_copies (B : backend) (d : db B) (u : User)
      (chatId text nowIso : string) (nowMs : Z)
      (s : UseChats.state) (captured : list Message) (newMsg : Message) :
  chatId <> "" ->
  hasError (snd (serve B d (insert_into "messages"
                              (messageRow text chatId (user_id u))
                            |> returning |> single))) = false ->
  String.prefix "temp-" (id newMsg) = false ->
  hasId captured (id newMsg) = false ->
  exists temp stored,
    UseChats.messages
      (final_state
         (run B (UseChats.sendMessage (Some u) (Some chatId) text
                                      nowMs nowIso ;;;
                 UseChats.onInsert captured newMsg) d s))
    = (UseChats.messages s ++ [temp; stored])%list
    /\ id temp = tempId nowMs /\ content temp = text
    /\ id stored = id newMsg /\ content stored = content newMsg.
Proof.
  intros Hchat Hok Hstored Hnew. apply String.eqb_neq in Hchat.
  unfold UseChats.sendMessage, UseChats.onInsert, UseChats.present,
    hasError in *.
  rewrite Hchat, Hstored, Hnew. cbn.
  destruct (serve B d _) as [d1 r1]. cbn in Hok |- *. rewrite Hok. cbn.
  destruct (serve B d1 _) as [d2 r2]. cbn.
  rewrite <- app_assoc. cbn.
  eexists _, _. split; [reflexivity|]. repeat split.
Qed.

(** C1 at the failing input. [ada] sends "gg wp" from the drawer of chat
    [c1]; the backend accepts the row and the push event delivers it under
    its stored id [m1]. The transcript then holds the message twice: the
    optimistic copy under its temporary id and the delivered copy. The
    [useChatMessages] hook does the same. *)
Theorem sent_message_shown_twice :
  map id (ChatDrawer.messages
            (final_state (run scripted sendThenPush
                              [ok VNull; ok adaProfileRow] drawerOpen)))
  = ["temp-1714564800000"; "m1"]
  /\ copies "gg wp" "p1" "c1"
            (ChatDrawer.messages
               (final_state (run scripted sendThenPush
                                 [ok VNull; ok adaProfileRow] drawerOpen)))
     = 2%nat
  /\ map id (UseChats.messages
               (final_state (run scripted hookSendThenPush
                                 [ok (VObj [("id", VStr "m1")]);
                                  ok adaProfileRow] hookIdle)))
     = ["temp-1714564800000"; "m1"]
  /\ copies "gg wp" "p1" "c1"
            (UseChats.messages
               (final_state (run scripted hookSendThenPush
                                 [ok (VObj [("id", VStr "m1")]);
                                  ok adaProfileRow] hookIdle)))
     = 2%nat.
Proof. repeat split. Qed.

(** When the backend refuses the message, the optimistic copy is taken
    out again. *)
Example refused_message_removed :
  ChatDrawer.messages
    (final_state
       (run scripted
            (ChatDrawer.sendMessage asciiTrim (Some ada) (Some adaProfile)
                                    "c1" "gg wp" sentAt noon)
            [failed "permission denied"] drawerOpen)) = [].
Proof. reflexivity. Qed.

(** ** joinChat *)


Lemma selected_row_truthy (chatId : string) (row : value) :
  value_eqb (field "chat_id" row) (VStr chatId) = true -> truthy row = true.
Proof.
  destruct row; cbn; try discriminate; try reflexivity.
Qed.

Lemma joinChat_store_cases (S : Type) (s : S) (u : User) (chatId : string)
      (st : store) :
  let check := select_from "chat_participants" "id"
               |> eq "chat_id" (VStr chatId)
               |> eq "user_id" (VStr (user_id u)) |> maybeSingle in
  let out := run tableStore (UseChats.joinChat (Some u) chatId) st s in
  match selected check st with
  | [] =>
    result out = Returned true
    /\ (exists row,
          final_db out
          = {| rows := (rows st ++ [("chat_participants", row)])%list;
               nextId := Datatypes.S (nextId st) |}
          /\ selects check ("chat_participants", row) = true)
  | [row] =>
    result out = Returned true /\ final_db out = st
    /\ requests (trace out) = [check]
  | _ => result out = Returned false /\ final_db out = st
         /\ requests (trace out) = [check]
  end.
Proof.
  cbv zeta. unfold UseChats.joinChat. cbn.
  destruct (selected _ st) as [|row [|row' more]] eqn:Hsel; cbn.
  - split; [reflexivity|]. eexists. split; [reflexivity|].
    unfold selects. cbn. now rewrite !String.eqb_refl.
  - assert (Hrow : truthy row = true).
    { assert (Hin : In row (selected
                              (select_from "chat_participants" "id"
                               |> eq "chat_id" (VStr chatId)
                               |> eq "user_id" (VStr (user_id u))
                               |> maybeSingle) st))
        by (rewrite Hsel; now left).
      unfold selected in Hin. apply in_map_iff in Hin.
      destruct Hin as ([name row0] & Heq & Hin). cbn in Heq. subst row0.
      apply filter_In in Hin. destruct Hin as [_ Hin].
      unfold selects in Hin. cbn in Hin.
      apply andb_prop in Hin. destruct Hin as [_ Hin].
      apply andb_prop in Hin. destruct Hin as [Hin _].
      eapply selected_row_truthy. exact Hin. }
    rewrite Hrow. cbn. repeat split.
  - repeat split.
Qed.





Example joinChat_twice :
  participants "c1"
    (final_db (run tableStore (UseChats.joinChat (Some ada) "c1")
                   emptyStore tt)) = [VStr "p1"]
  /\ participants "c1"
       (final_db (run tableStore
                      (UseChats.joinChat (Some ada) "c1" ;;;
                       UseChats.joinChat (Some ada) "c1")
                      emptyStore tt)) = [VStr "p1"].
Proof. split; reflexivity. Qed.

End ChatFacts.

(** * More on the avatar helpers *)

Module AvatarExtra.
Import Avatar AvatarTerms AvatarFacts.

Lemma fold_left_sum_perm (s1 s2 : jsstring) :
  Permutation s1 s2 -> charCodeSum s1 = charCodeSum s2.
Proof.
  induction 1; unfold charCodeSum in *; cbn; lia.
Qed.

(** X1. Seeds that are rearrangements of one another hash alike, and so get the
    same style and the same background colour. *)
Theorem rearranged_seed_same_look (seed1 seed2 : jsstring) :
  Permutation seed1 seed2 ->
  hashString seed1 = hashString seed2
  /\ js_index AVATAR_STYLES (styleIndexOf seed1 None)
     = js_index AVATAR_STYLES (styleIndexOf seed2 None)
  /\ js_index BACKGROUND_COLORS (colorIndexOf seed1)
     = js_index BACKGROUND_COLORS (colorIndexOf seed2).
Proof.
  intros Hperm.
  assert (H : hashString seed1 = hashString seed2).
  { unfold hashString. rewrite !fold_left_sum.
    now rewrite (fold_left_sum_perm _ _ Hperm). }
  unfold styleIndexOf, colorIndexOf. rewrite H. repeat split.
Qed.

Lemma rearranged_seed_same_look_witness :
  hashString (units_of_string "ada") = hashString (units_of_string "daa").
Proof.
  apply (rearranged_seed_same_look (units_of_string "ada")
                                   (units_of_string "daa")).
  vm_compute. apply perm_swap.
Defined.

(** ** What [encodeURIComponent] lets through *)

Lemma lor_bound (a b : Z) : 0 <= a -> 0 <= b -> 0 <= Z.lor a b <= a + b.
Proof.
  intros Ha Hb. pose proof (Z.add_lor_land a b) as H.
  assert (0 <= Z.land a b) by (apply Z.land_nonneg; now left).
  assert (0 <= Z.lor a b) by (apply Z.lor_nonneg; now split).
  lia.
Qed.

Lemma low6_bound (x : Z) : 0 <= Z.land x 63 < 64.
Proof.
  change 63 with (Z.ones 6). rewrite Z.land_ones by lia.
  apply Z.mod_pos_bound. reflexivity.
Qed.

Lemma continuation_octet (x : Z) : 0 <= Z.lor 128 (Z.land x 63) < 256.
Proof.
  pose proof (low6_bound x). pose proof (lor_bound 128 (Z.land x 63)). lia.
Qed.

Lemma utf8_octets (cp : Z) :
  0 <= cp < 1114112 -> Forall (fun o => 0 <= o < 256) (utf8 cp).
Proof.
  intros Hcp. unfold utf8.
  destruct (cp <? 128) eqn:E1; [apply Z.ltb_lt in E1; repeat constructor; lia|].
  destruct (cp <? 2048) eqn:E2.
  { apply Z.ltb_lt in E2. repeat constructor;
      try apply continuation_octet.
    - apply lor_bound; [lia|]. apply Z.shiftr_nonneg. lia.
    - assert (Z.shiftr cp 6 < 32).
      { rewrite Z.shiftr_div_pow2 by lia. apply Z.div_lt_upper_bound; lia. }
      assert (0 <= Z.shiftr cp 6) by (apply Z.shiftr_nonneg; lia).
      pose proof (lor_bound 192 (Z.shiftr cp 6)). lia. }
  destruct (cp <? 65536) eqn:E3.
  { apply Z.ltb_lt in E3. repeat constructor;
      try apply continuation_octet.
    - apply lor_bound; [lia|]. apply Z.shiftr_nonneg. lia.
    - assert (Z.shiftr cp 12 < 16).
      { rewrite Z.shiftr_div_pow2 by lia. apply Z.div_lt_upper_bound; lia. }
      assert (0 <= Z.shiftr cp 12) by (apply Z.shiftr_nonneg; lia).
      pose proof (lor_bound 224 (Z.shiftr cp 12)). lia. }
  repeat constructor; try apply continuation_octet.
  - apply lor_bound; [lia|]. apply Z.shiftr_nonneg. lia.
  - assert (Z.shiftr cp 18 < 5).
    { rewrite Z.shiftr_div_pow2 by lia. apply Z.div_lt_upper_bound; lia. }
    assert (0 <= Z.shiftr cp 18) by (apply Z.shiftr_nonneg; lia).
    pose proof (lor_bound 240 (Z.shiftr cp 18)). lia.
Qed.

Lemma hexDigit_safe (d : Z) : 0 <= d < 16 -> urlSafe (hexDigit d) = true.
Proof.
  intros Hd.
  assert (H : d = 0 \/ d = 1 \/ d = 2 \/ d = 3 \/ d = 4 \/ d = 5 \/ d = 6
              \/ d = 7 \/ d = 8 \/ d = 9 \/ d = 10 \/ d = 11 \/ d = 12
              \/ d = 13 \/ d = 14 \/ d = 15) by lia.
  repeat (destruct H as [->|H]; [reflexivity|]). subst. reflexivity.
Qed.

Lemma escapeOctets_safe (octets : list Z) (rest : string) :
  Forall (fun o => 0 <= o < 256) octets ->
  allSafe rest -> allSafe (escapeOctets octets rest).
Proof.
  unfold allSafe. induction 1 as [|o octets Ho _ IH]; intros Hrest;
    [exact Hrest|].
  cbn [escapeOctets fold_right percentEscape list_ascii_of_string forallb].
  rewrite !hexDigit_safe.
  - cbn. apply IH, Hrest.
  - apply Z.mod_pos_bound. lia.
  - split; [apply Z.div_pos; lia | apply Z.div_lt_upper_bound; lia].
Qed.

Lemma unreserved_safe (c : Z) :
  uriUnreserved c = true -> urlSafe (ascii_of_nat (Z.to_nat c)) = true.
Proof.
  intros H. unfold urlSafe.
  assert (Hc : 0 <= c < 256).
  { unfold uriUnreserved, in_range in H. cbn [existsb] in H.
    repeat (apply orb_prop in H; destruct H as [H|H]);
      try (apply andb_prop in H; destruct H as [H1 H2];
           apply Z.leb_le in H1; apply Z.leb_le in H2; lia);
      try (apply Z.eqb_eq in H; lia); try discriminate. }
  rewrite nat_ascii_embedding by lia. rewrite Z2Nat.id by lia.
  rewrite H. reflexivity.
Qed.

Lemma encode_safe_upto (n : nat) :
  forall seed enc,
    (List.length seed <= n)%nat ->
    wellFormedUnits seed ->
    encodeURIComponent seed = Returned enc -> allSafe enc.
Proof.
  induction n as [|n IH]; intros seed enc Hlen Hwf Henc.
  - destruct seed; [|cbn in Hlen; lia]. cbn in Henc.
    inversion Henc; subst. reflexivity.
  - destruct seed as [|c rest]; [cbn in Henc; inversion Henc; reflexivity|].
    inversion Hwf as [|? ? Hc Hrest]; subst.
    cbn [encodeURIComponent] in Henc. cbn in Hlen.
    destruct (uriUnreserved c) eqn:Hun.
    { destruct (encodeURIComponent rest) as [r|] eqn:Er; [|discriminate].
      inversion Henc; subst. unfold allSafe.
      cbn [list_ascii_of_string forallb].
      rewrite (unreserved_safe c Hun). cbn.
      apply (IH rest r); [lia|assumption|assumption]. }
    destruct (isTrailSurrogate c) eqn:Htr; [discriminate|].
    destruct (isLeadSurrogate c) eqn:Hld.
    { destruct rest as [|d rest']; [discriminate|].
      destruct (isTrailSurrogate d) eqn:Hd; [|discriminate].
      destruct (encodeURIComponent rest') as [r|] eqn:Er; [|discriminate].
      inversion Henc; subst. inversion Hrest as [|? ? _ Hrest']; subst.
      apply escapeOctets_safe.
      - apply utf8_octets.
        unfold isLeadSurrogate, isTrailSurrogate, in_range in Hld, Hd.
        apply andb_prop in Hld. apply andb_prop in Hd.
        destruct Hld as [L1 L2]. destruct Hd as [D1 D2].
        apply Z.leb_le in L1, L2, D1, D2. lia.
      - cbn in Hlen. apply (IH rest' r); [lia|assumption|assumption]. }
    destruct (encodeURIComponent rest) as [r|] eqn:Er; [|discriminate].
    inversion Henc; subst. apply escapeOctets_safe.
    + apply utf8_octets. lia.
    + apply (IH rest r); [lia|assumption|assumption].
Qed.

(** X2. Whatever the seed, the part of the URL that [encodeURIComponent]
    produces holds nothing but unreserved characters and percent escapes:
    a seed cannot close the [seed] parameter or add one of its own. *)
Theorem encoded_seed_is_url_safe (seed : jsstring) (style : option Z)
        (url : string) :
  wellFormedUnits seed ->
  generateAvatar seed style = Returned url ->
  exists enc,
    encodeURIComponent seed = Returned enc
    /\ forallb urlSafe (list_ascii_of_string enc) = true
    /\ url = avatarUrl (js_index AVATAR_STYLES (styleIndexOf seed style)) enc
                       (js_index BACKGROUND_COLORS (colorIndexOf seed)).
Proof.
  intros Hwf Hurl. unfold generateAvatar in Hurl.
  destruct (encodeURIComponent seed) as [enc|] eqn:E; [|discriminate].
  inversion Hurl; subst. exists enc. split; [reflexivity|]. split.
  - exact (encode_safe_upto (List.length seed) seed enc (le_n _) Hwf E).
  - reflexivity.
Qed.

Lemma encoded_seed_is_url_safe_witness :
  exists enc,
    encodeURIComponent (units_of_string "a&b=c d") = Returned enc
    /\ forallb urlSafe (list_ascii_of_string enc) = true
    /\ "https://api.dicebear.com/6.x/micah/svg?seed=a%26b%3Dc%20d&backgroundColor=b6e3f4"%string
       = avatarUrl (js_index AVATAR_STYLES
                      (styleIndexOf (units_of_string "a&b=c d") None)) enc
                   (js_index BACKGROUND_COLORS
                      (colorIndexOf (units_of_string "a&b=c d"))).
Proof.
  apply (encoded_seed_is_url_safe (units_of_string "a&b=c d") None).
  - unfold wellFormedUnits. cbn. repeat constructor; lia.
  - reflexivity.
Defined.

Lemma encode_without_surrogates (seed : jsstring) :
  forallb (fun c => negb (isSurrogate c)) seed = true ->
  exists enc, encodeURIComponent seed = Returned enc.
Proof.
  induction seed as [|c rest IH]; intros Hall; [now exists ""%string|].
  cbn [forallb] in Hall. apply andb_prop in Hall. destruct Hall as [Hc Hrest].
  destruct (IH Hrest) as [r Hr]. cbn [encodeURIComponent]. rewrite Hr.
  unfold isSurrogate in Hc. apply negb_true_iff in Hc.
  apply orb_false_iff in Hc. destruct Hc as [Hlead Htrail].
  rewrite Hlead, Htrail. destruct (uriUnreserved c); eauto.
Qed.

(** X3. A seed without surrogate code units (any text of the Basic
    Multilingual Plane) never makes the avatar helpers throw; a seed that
    ends in half a surrogate pair always does. *)
Theorem avatar_of_plain_seed (seed : jsstring) (style : option Z)
        (options : avatarOptions) :
  forallb (fun c => negb (isSurrogate c)) seed = true ->
  (exists url, generateAvatar seed style = Returned url)
  /\ (exists url, generateAvatarWithOptions seed options = Returned url)
  /\ generateAvatar (seed ++ [55357])%list style = Thrown URIMalformed
  /\ generateAvatarWithOptions (seed ++ [55357])%list options
     = Thrown URIMalformed.
Proof.
  intros Hplain. destruct (encode_without_surrogates seed Hplain) as [enc He].
  assert (Hbad : encodeURIComponent (seed ++ [55357])%list = Thrown URIMalformed).
  { clear He enc. induction seed as [|c rest IH]; [reflexivity|].
    cbn [forallb] in Hplain. apply andb_prop in Hplain.
    destruct Hplain as [Hc Hrest]. specialize (IH Hrest).
    cbn [app encodeURIComponent]. rewrite IH.
    unfold isSurrogate in Hc. apply negb_true_iff in Hc.
    apply orb_false_iff in Hc. destruct Hc as [Hlead Htrail].
    rewrite Hlead, Htrail. destruct (uriUnreserved c); reflexivity. }
  unfold generateAvatar, generateAvatarWithOptions. rewrite He, Hbad.
  repeat split; eauto.
Qed.

Lemma avatar_of_plain_seed_witness :
  (exists url, generateAvatar [1072; 1076; 1072] None = Returned url)
  /\ generateAvatar ([1072; 1076; 1072] ++ [55357])%list None
     = Thrown URIMalformed.
Proof.
  destruct (avatar_of_plain_seed [1072; 1076; 1072] None noOptions)
    as (H1 & _ & H3 & _); [reflexivity|].
  split; assumption.
Defined.

(** X4. The two avatar helpers agree: [generateAvatarWithOptions] without a
    background colour gives the URL of [generateAvatar] for the same seed
    and style with the size appended, 128 when none is given, and throws
    exactly when [generateAvatar] does. *)
Theorem withOptions_extends_generateAvatar (seed : jsstring)
        (style size : option Z) :
  generateAvatarWithOptions seed
    {| opt_style := style; opt_size := size; opt_backgroundColor := None |}
  = withSize (match size with Some n => n | None => 128 end)
             (generateAvatar seed style).
Proof.
  unfold generateAvatarWithOptions, generateAvatar, withSize, styleIndexOf,
    colorIndexOf. cbn [opt_style opt_size opt_backgroundColor].
  destruct (encodeURIComponent seed); destruct style; reflexivity.
Qed.

End AvatarExtra.

(** * More on the data-access functions *)

Module ApiExtra.
Import Js Remote Backends Services ServicesTerms Scenarios RemoteFacts ApiFacts.

(** X5. The six readers of the services module ([getTeams], [getTeamById],
    [getPlayers], [getMatches], [getPlayerRequests], [getNotifications])
    send select requests only, however many they send and whether or not
    they succeed. *)
Theorem readers_send_selects_only (B : backend) (d : db B) (c : call) :
  wellShaped c ->
  methodOf c = SELECT ->
  forallb reads (requests (trace (execute B d c))) = true.
Proof.
  intros Hshape Hread.
  destruct (multiStep c) eqn:Hmulti.
  - destruct c; try discriminate Hmulti; try discriminate Hread.
    destruct (getTeams_steps B d) as (q1 & answers & _ & Hm & _ & Hreq & _).
    rewrite Hreq. cbn [forallb]. unfold reads at 1. rewrite Hm. cbn.
    destruct (hasError (snd (serve B d q1))); [reflexivity|].
    apply forallb_forall. intros q Hq.
    apply in_map_iff in Hq. destruct Hq as (team & <- & _). reflexivity.
  - destruct (single_step_run B d c Hmulti Hshape)
      as (q & _ & Hm & _ & Hreq & _).
    rewrite Hreq. cbn. unfold reads. rewrite Hm, Hread. reflexivity.
Qed.

Lemma readers_send_selects_only_witness :
  forallb reads (requests (trace (execute tableStore twoTeams GetTeams)))
  = true.
Proof.
  apply readers_send_selects_only; [exact I | reflexivity].
Defined.

(** X6. [getPlayers] applies the skill range only when both bounds are truthy:
    with one bound missing, or a bound of 0, the request carries no bound
    on any column. *)
Theorem getPlayers_drops_partial_range (B : backend) (d : db B)
        (filters : value) :
  filters <> VNull ->
  truthy (field "skillMin" filters) && truthy (field "skillMax" filters)
  = false ->
  exists q,
    requests (trace (execute B d (GetPlayers filters))) = [q]
    /\ existsb isBound (req_filters q) = false.
Proof.
  intros Hshape Hrange. unfold execute. simpl invoke. unfold Api.getPlayers.
  destruct filters; try congruence; cbn [prop lift bind] in *;
    try rewrite Hrange;
    match goal with
    | |- context [if truthy ?g then _ else _] => destruct (truthy g)
    | _ => idtac
    end;
    cbn [run bind await];
    match goal with
    | |- context [serve B d ?q] =>
      exists q; destruct (serve B d q) as [d1 r1]; cbn;
      unfold Api.throwIfError; destruct (truthy (error r1)); cbn;
      split; reflexivity
    end.
Qed.

Lemma getPlayers_drops_partial_range_witness :
  exists q,
    requests (trace (execute scripted [ok (VArr [])]
                             (GetPlayers (VObj [("skillMin", VNum 0);
                                                ("skillMax", VNum 5)]))))
    = [q]
    /\ existsb isBound (req_filters q) = false.
Proof.
  apply getPlayers_drops_partial_range; [discriminate | reflexivity].
Defined.

End ApiExtra.

(** * More on the notifications hook *)

Module NotificationsExtra.
Import Js Remote Backends Scenarios Auth Notifications NotificationsFacts.


(** A row that is [null] among the rows received: the list is replaced
    and the counter is not. *)
Example fetch_with_null_row :
  unreadCount (final_state (run scripted (fetchNotifications (Some ada))
                                [ok (VArr [reminderRow; VNull])] initial))
  = 0
  /\ List.length
       (events (trace (run scripted (fetchNotifications (Some ada))
                           [ok (VArr [reminderRow; VNull])] initial)))
     = 1%nat.
Proof. split; reflexivity. Qed.

(** X8. [markAllAsRead] goes by the counter it is shown: at 0 it sends nothing
    and changes nothing, even when the list still holds unread
    notifications. Otherwise it sends one update, restricted to the user's
    unread rows; when that is accepted every notification in the list is
    read and the counter is 0, and when it is refused nothing changes. *)
Theorem markAllAsRead_effect (B : backend) (d : db B) (u : User) (s : state) :
  let q := update_in "notifications" (VObj [("read", VBool true)])
           |> eq "user_id" (VStr (user_id u)) |> eq "read" (VBool false) in
  let r := snd (serve B d q) in
  let out := run B (markAllAsRead (Some u) (unreadCount s)) d s in
  if unreadCount s =? 0 then
    trace out = [] /\ final_state out = s /\ result out = Returned false
  else
    requests (trace out) = [q]
    /\ (if hasError r then
          final_state out = s /\ result out = Returned false
        else
          result out = Returned true
          /\ notifications (final_state out)
             = map withRead (notifications s)
          /\ forallb read (notifications (final_state out)) = true
          /\ unreadCount (final_state out) = 0
          /\ consistent (final_state out)).
Proof.
  cbv zeta. unfold markAllAsRead, hasError.
  destruct (unreadCount s =? 0); [repeat split|]. cbn.
  destruct (serve B d _) as [d1 r1]. cbn.
  destruct (truthy (error r1)); cbn; [repeat split; now destruct s|].
  repeat split.
  - induction (notifications s) as [|n l IH]; [reflexivity|exact IH].
  - unfold consistent. cbn. now rewrite countUnread_all_read.
Qed.

(** The counter stuck at 0 over an unread notification: the state the
    hook is in after an already-read notification was marked read. *)
Example markAllAsRead_idle_at_zero :
  trace (run scripted
             (markAllAsRead (Some ada) 0) [ok VNull]
             {| notifications := [withRead invitation; reminder];
                unreadCount := 0; isLoading := false |}) = [].
Proof. reflexivity. Qed.

(** X9. On an unread notification of a list without repeated ids, an accepted
    [markAsRead] keeps the counter equal to the number of unread
    notifications, and changes that one notification only. *)
Theorem markAsRead_keeps_counter_right (B : backend) (d : db B) (u : User)
        (s : state) (n : Notification) :
  consistent s ->
  NoDup (map id (notifications s)) ->
  In n (notifications s) ->
  read n = false ->
  hasError (snd (serve B d (update_in "notifications"
                                     (VObj [("read", VBool true)])
                            |> eq "id" (VStr (id n))))) = false ->
  let out := run B (markAsRead (Some u) (id n)) d s in
  consistent (final_state out)
  /\ unreadCount (final_state out) = unreadCount s - 1
  /\ Forall2 (fun before after =>
                after = if String.eqb (id before) (id n)
                        then withRead before else before)
             (notifications s) (notifications (final_state out))
  /\ countUnread (notifications (final_state out))
     = countUnread (notifications s) - 1.
Proof.
  intros Hs Hnodup Hin Hunread Hok. cbv zeta.
  unfold markAsRead, consistent, hasError in *. cbn.
  destruct (serve B d _) as [d1 r1]. cbn in Hok |- *. rewrite Hok. cbn.
  pose proof (countUnread_marked n _ Hnodup Hin Hunread) as Hcount.
  pose proof (countUnread_member n _ Hin Hunread) as Hone.
  repeat split; try lia.
  clear. induction (notifications s) as [|m l IH]; constructor;
    [reflexivity|exact IH].
Qed.

Lemma markAsRead_keeps_counter_right_witness :
  consistent (final_state (run scripted (markAsRead (Some ada) (id reminder))
                               [ok VNull] oneUnread)).
Proof.
  destruct (markAsRead_keeps_counter_right scripted [ok VNull] ada oneUnread
                                           reminder) as (Hok & _).
  - reflexivity.
  - cbn. repeat constructor; cbn; intuition discriminate.
  - cbn. tauto.
  - reflexivity.
  - reflexivity.
  - exact Hok.
Defined.



End NotificationsExtra.

(** * More on the chat hooks *)

Module UseChatsExtra.
Import Js Remote Backends Scenarios Auth ChatTypes RemoteFacts ChatFacts.
Import UseChats UseChatsMore.

Lemma value_eqb_str_refl (str : string) : value_eqb (VStr str) (VStr str) = true.
Proof. cbn. apply String.eqb_refl. Qed.

Lemma filter_none {A : Type} (f : A -> bool) (l : list A) :
  List.filter f l = [] -> List.filter (fun x => negb (f x)) l = l.
Proof.
  induction l as [|x l IH]; [reflexivity|]. cbn.
  destruct (f x); [discriminate|]. cbn. intros H. now rewrite IH.
Qed.

Lemma leaveChat_store (u : User) (chatId : string) (st : store)
      (S : Type) (s : S) :
  let mine := delete_from "chat_participants"
              |> eq "chat_id" (VStr chatId)
              |> eq "user_id" (VStr (user_id u)) in
  let out := run tableStore (leaveChat (Some u) chatId) st s in
  result out = Returned true
  /\ rows (final_db out)
     = List.filter (fun entry => negb (selects mine entry)) (rows st)
  /\ events (trace out) = [ToastSuccess "Successfully left chat"].
Proof. cbv zeta. unfold leaveChat. cbn. repeat split. Qed.

(** X11. Against the table store, [leaveChat] removes exactly the participant
    rows of this user in this chat: afterwards the user is not among the
    chat's participants, and every other row of every table is still
    there, in its place. *)
Theorem leaveChat_removes_own_rows (u : User) (chatId : string) (st : store)
        (S : Type) (s : S) :
  let mine := delete_from "chat_participants"
              |> eq "chat_id" (VStr chatId)
              |> eq "user_id" (VStr (user_id u)) in
  let out := run tableStore (leaveChat (Some u) chatId) st s in
  result out = Returned true
  /\ rows (final_db out)
     = List.filter (fun entry => negb (selects mine entry)) (rows st)
  /\ ~ In (VStr (user_id u)) (Backends.participants chatId (final_db out))
  /\ events (trace out) = [ToastSuccess "Successfully left chat"].
Proof.
  cbv zeta.
  destruct (leaveChat_store u chatId st S s) as (Hres & Hrows & Hev).
  split; [exact Hres|]. split; [exact Hrows|]. split; [|exact Hev].
  unfold Backends.participants, table. rewrite Hrows. intros Hin.
  apply in_map_iff in Hin. destruct Hin as (row & Huser & Hin).
  apply filter_In in Hin. destruct Hin as [Hin Hchat].
  apply in_map_iff in Hin. destruct Hin as ([name row'] & Heq & Hin).
  cbn in Heq. subst row'.
  apply filter_In in Hin. destruct Hin as [Hin Hname]. cbn in Hname.
  apply filter_In in Hin. destruct Hin as [_ Hkept].
  unfold selects in Hkept. cbn in Hkept.
  rewrite Hname, Hchat, Huser, value_eqb_str_refl in Hkept. discriminate.
Qed.

(** X12. Joining a chat one was not in and leaving it again leaves the rows of
    the table store as they were before. *)
Theorem join_then_leave_restores (u : User) (chatId : string) (st : store)
        (S : Type) (s : S) :
  ~ In (VStr (user_id u)) (Backends.participants chatId st) ->
  let joined := run tableStore (joinChat (Some u) chatId) st s in
  let left := run tableStore (leaveChat (Some u) chatId)
                  (final_db joined) (final_state joined) in
  result joined = Returned true
  /\ In (VStr (user_id u)) (Backends.participants chatId (final_db joined))
  /\ result left = Returned true
  /\ rows (final_db left) = rows st.
Proof.
  intros Hout. cbv zeta.
  set (check := select_from "chat_participants" "id"
                |> eq "chat_id" (VStr chatId)
                |> eq "user_id" (VStr (user_id u)) |> maybeSingle).
  assert (Hnone : List.filter (selects check) (rows st) = []).
  { destruct (List.filter (selects check) (rows st)) as [|[tname row] more]
      eqn:E; [reflexivity|]. exfalso. apply Hout.
    assert (Hin : In (tname, row) (List.filter (selects check) (rows st)))
      by (rewrite E; now left).
    apply filter_In in Hin. destruct Hin as [Hin Hsel].
    unfold selects in Hsel. cbn in Hsel.
    apply andb_prop in Hsel. destruct Hsel as [Hname Hsel].
    apply andb_prop in Hsel. destruct Hsel as [Hchat Hsel].
    apply andb_prop in Hsel. destruct Hsel as [Huser _].
    unfold Backends.participants, table. apply in_map_iff. exists row.
    split.
    - destruct (field "user_id" row); cbn in Huser; try discriminate.
      apply String.eqb_eq in Huser. now subst.
    - apply filter_In. split; [|exact Hchat].
      apply in_map_iff. exists (tname, row). split; [reflexivity|].
      apply filter_In. split; [exact Hin|exact Hname]. }
  pose proof (joinChat_store_cases S s u chatId st) as Hjoin.
  cbv zeta in Hjoin. fold check in Hjoin.
  unfold selected in Hjoin. rewrite Hnone in Hjoin. cbn [map] in Hjoin.
  destruct Hjoin as (Hres & row & Hdb & Hrow).
  set (joined := run tableStore (joinChat (Some u) chatId) st s) in *.
  destruct (leaveChat_store u chatId (final_db joined) S (final_state joined))
    as (Hleft & Hrows & _).
  split; [exact Hres|]. split; [|split; [exact Hleft|]].
  - rewrite Hdb. unfold Backends.participants, table. cbn [rows].
    rewrite filter_app, map_app, filter_app, map_app. apply in_or_app. right.
    unfold selects in Hrow. cbn in Hrow.
    apply andb_prop in Hrow. destruct Hrow as [Hchat Huser].
    apply andb_prop in Huser. destruct Huser as [Huser _].
    cbn. rewrite Hchat. cbn. left.
    destruct (field "user_id" row); cbn in Huser; try discriminate.
    apply String.eqb_eq in Huser. now subst.
  - rewrite Hrows, Hdb. cbn [rows]. rewrite filter_app. cbn [List.filter].
    change (selects (delete_from "chat_participants"
                     |> eq "chat_id" (VStr chatId)
                     |> eq "user_id" (VStr (user_id u))))
      with (selects check).
    rewrite Hrow. cbn. rewrite app_nil_r. apply filter_none. exact Hnone.
Qed.

Lemma join_then_leave_restores_witness :
  rows (final_db
          (run tableStore (leaveChat (Some ada) "c1")
               (final_db (run tableStore (joinChat (Some ada) "c1")
                              twoTeams tt))
               (final_state (run tableStore (joinChat (Some ada) "c1")
                                 twoTeams tt))))
  = rows twoTeams.
Proof.
  destruct (join_then_leave_restores ada "c1" twoTeams unit tt)
    as (_ & _ & _ & H); [cbn; tauto | exact H].
Defined.

(** ** Creating chats *)

Lemma transformAll_typed (now : string) (rows : list value) :
  forallb Services.readable rows = true ->
  transformAll now rows = Returned (map (chatOfRow now) rows).
Proof.
  induction rows as [|row rows IH]; [reflexivity|].
  cbn [forallb]. intros H. apply andb_prop in H. destruct H as [Hrow Hrows].
  cbn [transformAll map]. rewrite (IH Hrows).
  destruct row; try discriminate; reflexivity.
Qed.

Lemma transformAll_countsOnly (now : string) (rows : list value) :
  forall l, transformAll now rows = Returned l -> countsOnly l.
Proof.
  induction rows as [|row rows IH]; cbn [transformAll]; intros l Hl.
  - inversion Hl. constructor.
  - destruct (transform now row) as [c|e] eqn:Hc; [|discriminate].
    destruct (transformAll now rows) as [cs|e]; [|discriminate].
    inversion Hl; subst. constructor; [|now apply IH].
    unfold transform in Hc. destruct (prop row "chat_type");
      [|discriminate]. inversion Hc. reflexivity.
Qed.

Lemma fetchChats_countsOnly (B : backend) (d : db B) (user : option User)
      (now : string) (s : chatsState) :
  countsOnly (chats s) ->
  countsOnly (chats (final_state (run B (fetchChats user now) d s))).
Proof.
  intros Hs. unfold fetchChats. destruct user as [u|]; [|exact Hs].
  cbn -[transformAll].
  destruct (serve B d _) as [d1 r1]. cbn -[transformAll].
  destruct (truthy (Remote.error r1)); cbn -[transformAll]; [exact Hs|].
  destruct (truthy (data r1)); cbn -[transformAll]; [|exact Hs].
  destruct (data r1); cbn -[transformAll]; try exact Hs.
  destruct (transformAll now items) as [l|e] eqn:Hl; cbn; [|exact Hs].
  exact (transformAll_countsOnly now items l Hl).
Qed.

Lemma no_direct_chat_found (me other : string) (l : list Chat) :
  countsOnly l -> find (isDirectChatWith me other) l = None.
Proof.
  induction 1 as [|c l Hc _ IH]; [reflexivity|]. cbn [find].
  unfold isDirectChatWith at 1. rewrite Hc.
  destruct (negb _); [exact IH|]. destruct (negb _); exact IH.
Qed.

(** X13. [createDirectChat] never finds the direct chat it looks for. The hook
    only ever holds chats as [fetchChats] builds them, with a participant
    count and without a participant list, and the search needs the list:
    so every call, also a repeated one for the same user, inserts a new
    chat row. *)
Theorem createDirectChat_always_creates (B : backend) (d : db B)
        (u : User) (now : string) (s : chatsState)
        (otherUserId : string) (S : Type) (s' : S) :
  countsOnly (chats s) ->
  let fetched := final_state (run B (fetchChats (Some u) now) d s) in
  let out := run B (createDirectChat (Some u) now (chats fetched) otherUserId)
                 (final_db (run B (fetchChats (Some u) now) d s)) s' in
  countsOnly (chats fetched)
  /\ find (isDirectChatWith (user_id u) otherUserId) (chats fetched) = None
  /\ exists rest,
       requests (trace out)
       = (insert_into "chats"
            (VObj [("name", VStr "Direct Chat");
                   ("created_by", VStr (user_id u));
                   ("is_private", VBool true);
                   ("chat_type", VStr "direct");
                   ("team_id", VNull)])
          |> returning |> single) :: rest.
Proof.
  intros Hs. cbv zeta.
  pose proof (fetchChats_countsOnly B d (Some u) now s Hs) as Hfetched.
  pose proof (no_direct_chat_found (user_id u) otherUserId _ Hfetched)
    as Hnone.
  split; [exact Hfetched|]. split; [exact Hnone|].
  unfold createDirectChat. rewrite Hnone. unfold createChat. cbn.
  destruct (serve B _ _) as [d1 r1]. cbn. eauto.
Qed.

Lemma createDirectChat_always_creates_witness :
  find (isDirectChatWith "p1" "p2")
       (chats (final_state
                 (run scripted (fetchChats (Some ada) noon)
                      [ok (VArr [VObj [("id", VStr "c9");
                                       ("name", VStr "Direct Chat");
                                       ("chat_type", VStr "direct");
                                       ("participants",
                                        VArr [VObj [("count", VNum 2)]])]])]
                      noChats)))
  = None.
Proof.
  destruct (createDirectChat_always_creates
              scripted
              [ok (VArr [VObj [("id", VStr "c9");
                               ("name", VStr "Direct Chat");
                               ("chat_type", VStr "direct");
                               ("participants",
                                VArr [VObj [("count", VNum 2)]])]])]
              ada noon noChats "p2" unit tt) as (_ & H & _).
  - constructor.
  - exact H.
Defined.

Lemma find_first {A : Type} (f : A -> bool) (l : list A) (x : A) :
  In x l -> f x = true -> exists y, find f l = Some y /\ f y = true.
Proof.
  induction l as [|a l IH]; intros Hin Hx; [contradiction|]. cbn.
  destruct (f a) eqn:E; [eauto|].
  destruct Hin as [->|Hin]; [congruence|]. now apply IH.
Qed.

(** X14. A team chat that a fetch has brought in is reused. When the
    fetch of the chats is answered with rows none of which is [null], the
    hook holds the chats built from them, and [createTeamChat] for a team
    that has a row of type team among them returns such a chat without
    sending anything. *)
Theorem createTeamChat_reuses_fetched (B : backend) (d : db B)
        (now teamName teamId : string) (u : User)
        (rows : list value) (row : value) (memberIds : list string)
        (s : chatsState) (S : Type) (s' : S) :
  let q := select_from "chats" "*, participants:chat_participants(count)"
           |> order "created_at" false in
  hasError (snd (serve B d q)) = false ->
  data (snd (serve B d q)) = VArr rows ->
  forallb Services.readable rows = true ->
  In row rows ->
  field "chat_type" row = VStr "team" ->
  field "team_id" row = VStr teamId ->
  let fetched := run B (fetchChats (Some u) now) d s in
  let out := run B (createTeamChat (Some u) now (chats (final_state fetched))
                                   teamName teamId memberIds)
                 (final_db fetched) s' in
  chats (final_state fetched) = map (chatOfRow now) rows
  /\ trace out = []
  /\ final_db out = final_db fetched
  /\ exists c, result out = Returned (Some c)
               /\ type c = "team" /\ team_id c = Some teamId
               /\ In c (chats (final_state fetched)).
Proof.
  cbv zeta. intros Hok Hdata Htyped Hin Htype Hteam.
  assert (Hchats : chats (final_state (run B (fetchChats (Some u) now) d s))
                   = map (chatOfRow now) rows).
  { unfold fetchChats, hasError in *. cbn -[transformAll].
    destruct (serve B d _) as [d1 r1]. cbn [snd] in Hok, Hdata.
    rewrite Hok, Hdata. cbn -[transformAll].
    rewrite (transformAll_typed now rows Htyped). reflexivity. }
  split; [exact Hchats|]. rewrite Hchats. unfold createTeamChat.
  set (wanted := fun c : Chat =>
                   String.eqb (type c) "team"
                   && match team_id c with
                      | Some t => String.eqb t teamId
                      | None => false
                      end).
  assert (Hrow : wanted (chatOfRow now row) = true).
  { unfold wanted, chatOfRow. cbn [type team_id]. rewrite Htype, Hteam. cbn.
    now rewrite String.eqb_refl. }
  destruct (find_first wanted (map (chatOfRow now) rows) (chatOfRow now row)
                       (in_map _ _ _ Hin) Hrow) as (c & Hfind & Hc).
  rewrite Hfind. cbn. repeat split. exists c. split; [reflexivity|].
  unfold wanted in Hc. apply andb_prop in Hc. destruct Hc as [Ht Hid].
  apply String.eqb_eq in Ht. split; [exact Ht|]. split.
  - destruct (team_id c) as [t|]; [|discriminate].
    apply String.eqb_eq in Hid. now subst.
  - apply find_some in Hfind. tauto.
Qed.

Lemma createTeamChat_reuses_fetched_witness :
  trace (run scripted
             (createTeamChat (Some ada) noon
                (chats (final_state
                   (run scripted (fetchChats (Some ada) noon)
                        [ok (VArr [VObj [("id", VStr "c7");
                                         ("name", VStr "Alpha Team Chat");
                                         ("chat_type", VStr "team");
                                         ("team_id", VStr "t1")]])]
                        noChats)))
                "Alpha" "t1" ["p1"; "p2"])
             (final_db
                (run scripted (fetchChats (Some ada) noon)
                     [ok (VArr [VObj [("id", VStr "c7");
                                      ("name", VStr "Alpha Team Chat");
                                      ("chat_type", VStr "team");
                                      ("team_id", VStr "t1")]])]
                     noChats))
             tt) = [].
Proof.
  destruct (createTeamChat_reuses_fetched
              scripted
              [ok (VArr [VObj [("id", VStr "c7");
                               ("name", VStr "Alpha Team Chat");
                               ("chat_type", VStr "team");
                               ("team_id", VStr "t1")]])]
              noon "Alpha" "t1" ada
              [VObj [("id", VStr "c7"); ("name", VStr "Alpha Team Chat");
                     ("chat_type", VStr "team"); ("team_id", VStr "t1")]]
              (VObj [("id", VStr "c7"); ("name", VStr "Alpha Team Chat");
                     ("chat_type", VStr "team"); ("team_id", VStr "t1")])
              ["p1"; "p2"] noChats unit tt) as (_ & H & _).
  - reflexivity.
  - reflexivity.
  - reflexivity.
  - now left.
  - reflexivity.
  - reflexivity.
  - exact H.
Defined.

(** With a [null] row beside the team's row the fetch stores no chats, so
    the team chat is not found and a new one is asked for. *)
Example createTeamChat_after_failed_fetch :
  let answers :=
    [ok (VArr [VObj [("id", VStr "c7"); ("chat_type", VStr "team");
                     ("team_id", VStr "t1")]; VNull])] in
  let fetched := run scripted (fetchChats (Some ada) noon) answers noChats in
  chats (final_state fetched) = []
  /\ chatsError (final_state fetched) <> None
  /\ List.length
       (requests (trace (run scripted
                             (createTeamChat (Some ada) noon
                                             (chats (final_state fetched))
                                             "Alpha" "t1" ["p1"; "p2"])
                             (final_db fetched) tt))) = 1%nat.
Proof. cbv zeta. repeat split. cbn. discriminate. Qed.

(** X15. [createChat] does not undo what it has done: when the chat row was
    created and the insert of its creator as participant is refused, the
    caller gets [null] and a failure notice, and the only requests sent
    are the two inserts; the chat row stays behind without participants. *)
Theorem createChat_leaves_row_behind (B : backend) (d : db B) (u : User)
        (now chatName chatType : string) (isPrivate : bool)
        (teamId : option string) (participantIds : option (list string))
        (S : Type) (s : S) :
  let q1 := insert_into "chats"
              (VObj [("name", VStr chatName);
                     ("created_by", VStr (user_id u));
                     ("is_private", VBool isPrivate);
                     ("chat_type", VStr chatType);
                     ("team_id", orNull teamId)])
            |> returning |> single in
  let r1 := snd (serve B d q1) in
  let q2 := insert_into "chat_participants"
              (VObj [("chat_id", field "id" (data r1));
                     ("user_id", VStr (user_id u))]) in
  let r2 := snd (serve B (fst (serve B d q1)) q2) in
  let out := run B (createChat (Some u) now chatName chatType isPrivate
                               teamId participantIds) d s in
  hasError r1 = false ->
  truthy (data r1) = true ->
  hasError r2 = true ->
  result out = Returned None
  /\ requests (trace out) = [q1; q2]
  /\ final_db out = fst (serve B (fst (serve B d q1)) q2)
  /\ events (trace out)
     = [ConsoleError "Error creating chat:" [Remote.error r2];
        ToastError "Failed to create chat: ${err.message}"
                   [field "message" (Remote.error r2)]].
Proof.
  cbv zeta. unfold createChat, hasError. cbn.
  destruct (serve B d _) as [d1 r1]. cbn. intros Herr1 Hdata.
  rewrite Herr1, Hdata. cbn.
  destruct (serve B d1 _) as [d2 r2]. cbn. intros Herr2. rewrite Herr2. cbn.
  repeat split.
Qed.

Lemma createChat_leaves_row_behind_witness :
  result (run scripted
              (createChat (Some ada) noon "Scrim" "global" false None None)
              [ok (VObj [("id", VStr "c5"); ("name", VStr "Scrim")]);
               failed "permission denied"] tt) = Returned None.
Proof.
  destruct (createChat_leaves_row_behind
              scripted
              [ok (VObj [("id", VStr "c5"); ("name", VStr "Scrim")]);
               failed "permission denied"]
              ada noon "Scrim" "global" false None None unit tt)
    as (H & _).
  - reflexivity.
  - reflexivity.
  - reflexivity.
  - exact H.
Defined.

End UseChatsExtra.

(** * Running code under [finally] *)

Module RemoteMore.
Import Js Remote RemoteFacts.

Lemma run_tryFinally_set {S A : Type} (B : backend) (p : prog S A)
      (g : S -> S) d s :
  run B (tryFinally p (setState g)) d s =
  {| final_db := final_db (run B p d s);
     final_state := g (final_state (run B p d s));
     trace := trace (run B p d s);
     result := result (run B p d s) |}.
Proof.
  revert d s. induction p as [a|e|q k IH|f k IH|ev k IH]; intros d s; cbn.
  - reflexivity.
  - reflexivity.
  - destruct (serve B d q) as [d' r]. cbn. rewrite IH. reflexivity.
  - apply IH.
  - rewrite IH. reflexivity.
Qed.

End RemoteMore.

(** * More on the chat drawer *)

Module ChatDrawerExtra.
Import Js Remote Backends Services Scenarios Auth ChatTypes RemoteFacts.
Import RemoteMore ChatDrawer ChatDrawerMore.

Lemma run_withProfile (B : backend) (message : value) (d : db B) (s : state) :
  let o := run B (withProfile message) d s in
  final_state o = s
  /\ (exists p, result o = Returned (asMessage message p))
  /\ List.length (requests (trace o))
     = (if readable message then 1 else 0)%nat
  /\ forallb (fun q => String.eqb (req_table q) "profiles"
                       && ServicesTerms.reads q) (requests (trace o)) = true
  /\ events (trace o) = [].
Proof.
  unfold withProfile.
  destruct message; cbn;
    try (destruct (serve B d _) as [d1 r1]; cbn);
    repeat split; eauto.
Qed.

Lemma run_withProfiles (B : backend) (rows : list value) :
  forall (d : db B) (s : state),
    let o := run B (withProfiles rows) d s in
    final_state o = s
    /\ (exists l, result o = Returned l
                  /\ Forall2 (fun row m => exists p, m = asMessage row p)
                             rows l)
    /\ List.length (requests (trace o))
       = List.length (List.filter readable rows)
    /\ forallb (fun q => String.eqb (req_table q) "profiles"
                         && ServicesTerms.reads q) (requests (trace o)) = true
    /\ events (trace o) = [].
Proof.
  induction rows as [|row rows IH]; intros d s.
  - cbn. repeat split. exists []. split; [reflexivity|constructor].
  - cbn [withProfiles]. rewrite run_bind.
    pose proof (run_withProfile B row d s) as H1. cbv zeta in H1.
    destruct H1 as (Hs1 & (p & Hr1) & Hn1 & Hq1 & He1).
    set (o1 := run B (withProfile row) d s) in *.
    rewrite Hr1. unfold andThen. rewrite run_bind.
    specialize (IH (final_db o1) (final_state o1)). cbv zeta in IH.
    destruct IH as (Hs2 & (l & Hr2 & Hl) & Hn2 & Hq2 & He2).
    set (o2 := run B (withProfiles rows) (final_db o1) (final_state o1)) in *.
    rewrite Hr2. unfold andThen. cbn.
    rewrite !requests_app, !events_app, !app_nil_r, !length_app, forallb_app.
    rewrite Hs2, Hs1, Hn1, Hn2, Hq1, Hq2, He1, He2.
    repeat split.
    + exists (asMessage row p :: l). split; [reflexivity|].
      constructor; [eauto|exact Hl].
    + destruct (readable row); reflexivity.
Qed.

(** X16. Opening the drawer on a chat loads its transcript with one query for
    the messages and one profile query per message: the transcript is
    replaced by the rows received, in their order, every one with a
    profile to show (that of 'Unknown User' where none was found), and the
    loading flag is off. The draft in the input box is not touched. *)
Theorem fetchMessages_loads_transcript (B : backend) (d : db B)
        (chatId oneDayAgo : string) (rows : list value) (s : state) :
  chatId <> "" ->
  let q := select_from "messages" "*"
           |> eq "chat_id" (VStr chatId)
           |> gte "created_at" (VStr oneDayAgo)
           |> order "created_at" true in
  hasError (snd (serve B d q)) = false ->
  data (snd (serve B d q)) = VArr rows ->
  let out := run B (fetchMessages true chatId oneDayAgo) d s in
  Forall2 (fun row m => exists p, m = asMessage row p)
          rows (messages (final_state out))
  /\ List.length (messages (final_state out)) = List.length rows
  /\ forallb (fun m => match profile m with Some _ => true | None => false end)
             (messages (final_state out)) = true
  /\ List.length (requests (trace out))
     = Datatypes.S (List.length (List.filter readable rows))
  /\ isLoading (final_state out) = false
  /\ newMessage (final_state out) = newMessage s
  /\ events (trace out) = [].
Proof.
  intros Hchat. cbv zeta. intros Hok Hdata.
  apply String.eqb_neq in Hchat. unfold fetchMessages, hasError in *.
  rewrite Hchat. cbn [negb orb]. cbn [bind setState run].
  rewrite run_tryFinally_set, run_tryCatch. cbn [run bind await].
  destruct (serve B d _) as [d1 r1]. cbn [snd] in Hok, Hdata.
  rewrite Hok, Hdata. cbn [truthy lift iterate bind].
  rewrite run_bind.
  pose proof (run_withProfiles B rows d1 (setIsLoading true s)) as H.
  cbv zeta in H. destruct H as (Hs & (l & Hl & Hrows) & Hn & _ & He).
  rewrite Hl. unfold andThen. cbn. rewrite ?Hl. cbn.
  rewrite !app_nil_r, Hs, Hn, He.
  cbn. repeat split; try lia.
  - exact Hrows.
  - symmetry. eapply Forall2_length. exact Hrows.
  - clear - Hrows. induction Hrows as [|row m rows l [p ->] _ IH];
      [reflexivity|exact IH].
Qed.

Lemma fetchMessages_loads_transcript_witness :
  map id (messages (final_state
            (run scripted (fetchMessages true "c1" noon)
                 [ok (VArr [VObj [("id", VStr "m1"); ("content", VStr "gg wp");
                                  ("user_id", VStr "p1")]]);
                  ok adaProfileRow] drawerOpen))) = ["m1"]
  /\ List.length (requests (trace
            (run scripted (fetchMessages true "c1" noon)
                 [ok (VArr [VObj [("id", VStr "m1"); ("content", VStr "gg wp");
                                  ("user_id", VStr "p1")]]);
                  ok adaProfileRow] drawerOpen))) = 2%nat.
Proof.
  destruct (fetchMessages_loads_transcript scripted
              [ok (VArr [VObj [("id", VStr "m1"); ("content", VStr "gg wp");
                               ("user_id", VStr "p1")]]);
               ok adaProfileRow]
              "c1" noon
              [VObj [("id", VStr "m1"); ("content", VStr "gg wp");
                     ("user_id", VStr "p1")]]
              drawerOpen) as (_ & _ & _ & Hn & _).
  - discriminate.
  - reflexivity.
  - reflexivity.
  - split; [reflexivity|exact Hn].
Defined.

(** X17. When the query for the messages is answered with an error, the
    transcript and the draft stay as they were: the only request is that
    query, the error is logged, one failure notice is shown and the
    loading flag is off again. *)
Theorem fetchMessages_failure_keeps_transcript (B : backend) (d : db B)
        (chatId oneDayAgo : string) (s : state) :
  chatId <> "" ->
  let q := select_from "messages" "*"
           |> eq "chat_id" (VStr chatId)
           |> gte "created_at" (VStr oneDayAgo)
           |> order "created_at" true in
  hasError (snd (serve B d q)) = true ->
  let out := run B (fetchMessages true chatId oneDayAgo) d s in
  messages (final_state out) = messages s
  /\ newMessage (final_state out) = newMessage s
  /\ isLoading (final_state out) = false
  /\ requests (trace out) = [q]
  /\ events (trace out)
     = [ConsoleError "Error fetching messages:" [error (snd (serve B d q))];
        ToastError "Failed to load messages" []]
  /\ result out = Returned tt.
Proof.
  intros Hchat. cbv zeta. intros Herr.
  apply String.eqb_neq in Hchat. unfold fetchMessages, hasError in *.
  rewrite Hchat. cbn [negb orb]. cbn [bind setState run].
  rewrite run_tryFinally_set, run_tryCatch. cbn [run bind await].
  destruct (serve B d _) as [d1 r1]. cbn [snd] in Herr |- *.
  rewrite Herr. cbn. repeat split.
Qed.

Lemma fetchMessages_failure_keeps_transcript_witness :
  messages (final_state (run scripted (fetchMessages true "c1" noon)
                             [failed "permission denied"] drawerOpen)) = []
  /\ isLoading (final_state (run scripted (fetchMessages true "c1" noon)
                                 [failed "permission denied"] drawerOpen))
     = false.
Proof.
  destruct (fetchMessages_failure_keeps_transcript scripted
              [failed "permission denied"] "c1" noon drawerOpen)
    as (Hm & _ & Hl & _).
  - discriminate.
  - reflexivity.
  - split; [exact Hm|exact Hl].
Defined.

Lemma withoutId_appended (i : string) (l : list Message) (m : Message) :
  id m = i -> withoutId i (l ++ [m]) = withoutId i l.
Proof.
  intros <-. unfold withoutId. rewrite filter_app. cbn.
  rewrite String.eqb_refl. cbn. apply app_nil_r.
Qed.

Lemma withoutId_fresh (i : string) (l : list Message) :
  hasId l i = false -> withoutId i l = l.
Proof.
  unfold withoutId, hasId. induction l as [|m l IH]; cbn; intros H.
  - reflexivity.
  - apply orb_false_iff in H. destruct H as [Hm Hl].
    rewrite Hm. cbn. f_equal. exact (IH Hl).
Qed.

(** X18. A message the backend refuses is taken out of the transcript again:
    after the send the transcript holds the messages it held before,
    except those whose id is the temporary id of this send (ids are
    ['temp-' + Date.now()], so a message sent in the same millisecond and
    still under its temporary id goes with it). The draft is cleared all
    the same, one insert was sent and one failure notice is shown. *)
Theorem sendMessage_refused_rolls_back (B : backend) (d : db B)
        (trim : string -> string) (u : User) (p : option MessageProfile)
        (chatId typed : string) (nowMs : Z) (nowIso : string) (s : state) :
  trim typed <> "" ->
  chatId <> "" ->
  let q := insert_into "messages" (messageRow typed chatId (user_id u)) in
  hasError (snd (serve B d q)) = true ->
  let out := run B (sendMessage trim (Some u) p chatId typed nowMs nowIso)
                 d s in
  messages (final_state out) = withoutId (tempId nowMs) (messages s)
  /\ (hasId (messages s) (tempId nowMs) = false ->
      messages (final_state out) = messages s)
  /\ newMessage (final_state out) = ""
  /\ requests (trace out) = [q]
  /\ events (trace out)
     = [ConsoleError "Failed to send message:" [error (snd (serve B d q))];
        ToastError "Failed to send message" []]
  /\ result out = Returned tt.
Proof.
  intros Htyped Hchat. cbv zeta. intros Herr.
  apply String.eqb_neq in Htyped, Hchat. unfold sendMessage, hasError in *.
  rewrite Htyped, Hchat. cbn [orb]. cbn -[withoutId tempId].
  destruct (serve B d _) as [d1 r1]. cbn [snd] in Herr |- *.
  rewrite Herr. cbn -[withoutId tempId].
  rewrite withoutId_appended by reflexivity.
  repeat split. apply withoutId_fresh.
Qed.

Lemma sendMessage_refused_rolls_back_witness :
  messages (final_state
              (run scripted
                   (sendMessage asciiTrim (Some ada) (Some adaProfile) "c1"
                                "gg wp" sentAt noon)
                   [failed "permission denied"] drawerOpen)) = []
  /\ newMessage (final_state
              (run scripted
                   (sendMessage asciiTrim (Some ada) (Some adaProfile) "c1"
                                "gg wp" sentAt noon)
                   [failed "permission denied"] drawerOpen)) = "".
Proof.
  destruct (sendMessage_refused_rolls_back scripted
              [failed "permission denied"] asciiTrim ada (Some adaProfile)
              "c1" "gg wp" sentAt noon drawerOpen) as (Hm & _ & Hn & _).
  - vm_compute. discriminate.
  - discriminate.
  - reflexivity.
  - split; [exact Hm|exact Hn].
Defined.

(** ** Grouping of the rendered transcript *)

Lemma showAvatar_after (ms : list Message) (i : nat) :
  (Datatypes.S i < List.length ms)%nat ->
  showAvatar ms (Datatypes.S i) = showTime ms i.
Proof.
  intros Hi. unfold showAvatar, showTime.
  destruct (nth_error ms (Datatypes.S i)) as [next|] eqn:Hnext;
    [|apply nth_error_None in Hnext; lia].
  destruct (nth_error ms i) as [m|] eqn:Hm;
    [|apply nth_error_None in Hm; lia].
  replace (Datatypes.S i - 1)%nat with i by lia.
  replace (i + 1)%nat with (Datatypes.S i) by lia.
  rewrite Hm, Hnext.
  replace (0 <? Datatypes.S i)%nat with true
    by (symmetry; apply Nat.ltb_lt; lia).
  replace (i <? List.length ms - 1)%nat with true
    by (symmetry; apply Nat.ltb_lt; lia).
  now rewrite String.eqb_sym.
Qed.

Lemma showAvatar_first (m : Message) (ms : list Message) :
  showAvatar (m :: ms) 0 = true.
Proof. reflexivity. Qed.

Lemma showTime_last (ms : list Message) (n : nat) :
  List.length ms = Datatypes.S n -> showTime ms n = true.
Proof.
  intros Hn. unfold showTime.
  destruct (nth_error ms n) as [m|] eqn:Hm;
    [|apply nth_error_None in Hm; lia].
  replace (n <? List.length ms - 1)%nat with false
    by (symmetry; apply Nat.ltb_ge; lia).
  reflexivity.
Qed.

Lemma filter_shift (f : nat -> bool) (l : list nat) :
  List.filter f (map Datatypes.S l)
  = map Datatypes.S (List.filter (fun i => f (Datatypes.S i)) l).
Proof.
  induction l as [|i l IH]; cbn; [reflexivity|].
  destruct (f (Datatypes.S i)); cbn; now rewrite IH.
Qed.

(** X19. The transcript shows as many avatars as time stamps: an avatar heads
    every run of consecutive messages by one sender and a time stamp ends
    it. In particular the first message carries an avatar and the last a
    time stamp. *)
Theorem avatars_match_time_stamps (ms : list Message) :
  count (showAvatar ms) (List.length ms) = count (showTime ms) (List.length ms)
  /\ (ms <> [] ->
      showAvatar ms 0 = true
      /\ showTime ms (List.length ms - 1) = true
      /\ (1 <= count (showAvatar ms) (List.length ms))%nat)
  /\ (forall i, (Datatypes.S i < List.length ms)%nat ->
        showTime ms i = showAvatar ms (Datatypes.S i)).
Proof.
  assert (Heq : count (showAvatar ms) (List.length ms)
                = count (showTime ms) (List.length ms)).
  { unfold count. destruct (List.length ms) as [|n] eqn:Hn; [reflexivity|].
    destruct ms as [|m ms']; [discriminate|].
    set (l := m :: ms') in *.
    rewrite seq_S at 2. rewrite filter_app, length_app.
    cbn [seq List.filter]. unfold l at 1. rewrite showAvatar_first.
    cbn [plus]. rewrite (showTime_last l n Hn). cbn [List.length].
    rewrite <- seq_shift, filter_shift, length_map.
    rewrite (filter_ext_in (fun i => showAvatar l (Datatypes.S i))
                           (showTime l)); [lia|].
    intros i Hi. apply in_seq in Hi. apply showAvatar_after. lia. }
  split; [exact Heq|]. split.
  - intros Hne. destruct ms as [|m ms']; [congruence|].
    split; [reflexivity|]. split; [apply showTime_last; cbn; lia|].
    unfold count. cbn [List.length seq List.filter].
    rewrite showAvatar_first. cbn [List.length]. lia.
  - intros i Hi. symmetry. now apply showAvatar_after.
Qed.

End ChatDrawerExtra.

(** * More on the useChatMessages hook *)

Module UseChatMessagesExtra.
Import Js Remote Backends Services Scenarios Auth ChatTypes RemoteFacts.
Import RemoteMore UseChats UseChatsMore.

(** A row with a sender. *)
Lemma run_hook_withProfile (B : backend) (message : value) (d : db B)
      (s : state) :
  readable message = true ->
  let o := run B (withProfile message) d s in
  final_state o = s
  /\ (exists p, result o = Returned (asMessage message p))
  /\ List.length (requests (trace o))
     = (if truthy (field "user_id" message) then 1 else 0)%nat
  /\ events (trace o) = [].
Proof.
  intros Hread. cbv zeta. unfold withProfile.
  destruct message; try discriminate; cbn [prop lift bind].
  all: destruct (truthy (field "user_id" _)) eqn:Huid; cbn [negb].
  all: try (cbn; repeat split; eauto; fail).
  all: rewrite run_tryCatch; cbn [run bind await];
    destruct (serve B d _) as [d1 r1]; cbn; repeat split; eauto.
Qed.

Lemma run_hook_withProfiles (B : backend) (rows : list value) :
  forallb readable rows = true ->
  forall (d : db B) (s : state),
    let o := run B (withProfiles rows) d s in
    final_state o = s
    /\ (exists l, result o = Returned l
                  /\ Forall2 (fun row m => exists p, m = asMessage row p)
                             rows l)
    /\ List.length (requests (trace o))
       = List.length (List.filter (fun row => truthy (field "user_id" row))
                                  rows)
    /\ events (trace o) = [].
Proof.
  induction rows as [|row rows IH]; intros Hread d s.
  - cbn. repeat split. exists []. split; [reflexivity|constructor].
  - cbn [forallb] in Hread. apply andb_true_iff in Hread.
    destruct Hread as [Hrow Hrows].
    cbn [withProfiles]. rewrite run_bind.
    pose proof (run_hook_withProfile B row d s Hrow) as H1. cbv zeta in H1.
    destruct H1 as (Hs1 & (p & Hr1) & Hn1 & He1).
    set (o1 := run B (withProfile row) d s) in *.
    rewrite Hr1. unfold andThen. rewrite run_bind.
    specialize (IH Hrows (final_db o1) (final_state o1)). cbv zeta in IH.
    destruct IH as (Hs2 & (l & Hr2 & Hl) & Hn2 & He2).
    set (o2 := run B (withProfiles rows) (final_db o1) (final_state o1)) in *.
    rewrite Hr2. unfold andThen. cbn.
    rewrite !requests_app, !events_app, !app_nil_r, !length_app.
    rewrite Hs2, Hs1, Hn1, Hn2, He1, He2.
    repeat split.
    + exists (asMessage row p :: l). split; [reflexivity|].
      constructor; [eauto|exact Hl].
    + destruct (truthy (field "user_id" row)); reflexivity.
Qed.

(** X20. The hook loads a chat's transcript with one query for the messages and
    one profile query for every message that names a sender; a message
    without sender is shown without asking. The transcript is replaced by
    the rows received, in their order, the error is cleared and the loading
    flag is off. *)
Theorem hook_fetch_asks_for_senders_only (B : backend) (d : db B)
        (u : User) (chatId : string) (rows : list value) (s : state) :
  chatId <> "" ->
  forallb readable rows = true ->
  let q := select_from "messages" "*"
           |> eq "chat_id" (VStr chatId)
           |> order "created_at" true in
  hasError (snd (serve B d q)) = false ->
  data (snd (serve B d q)) = VArr rows ->
  let out := run B (fetchMessages (Some u) (Some chatId)) d s in
  Forall2 (fun row m => exists p, m = asMessage row p)
          rows (messages (final_state out))
  /\ List.length (requests (trace out))
     = Datatypes.S (List.length
                      (List.filter (fun row => truthy (field "user_id" row))
                                   rows))
  /\ isLoading (final_state out) = false
  /\ error (final_state out) = None
  /\ events (trace out) = [].
Proof.
  intros Hchat Hread. cbv zeta. intros Hok Hdata.
  apply String.eqb_neq in Hchat. unfold fetchMessages, present, hasError in *.
  rewrite Hchat. cbn [bind setState run].
  rewrite run_tryFinally_set, run_tryCatch. cbn [run bind await].
  destruct (serve B d _) as [d1 r1]. cbn [snd] in Hok, Hdata.
  rewrite Hok, Hdata. cbn [truthy lift ChatDrawerMore.iterate bind].
  rewrite run_bind.
  pose proof (run_hook_withProfiles B rows Hread d1
                (setError None (setIsLoading true s))) as H.
  cbv zeta in H. destruct H as (Hs & (l & Hl & Hrows) & Hn & He).
  rewrite Hl. unfold andThen. cbn. rewrite ?Hl. cbn.
  rewrite !app_nil_r, Hs, Hn, He.
  cbn. repeat split; try lia. exact Hrows.
Qed.

Lemma hook_fetch_asks_for_senders_only_witness :
  List.length (requests (trace
     (run scripted (fetchMessages (Some ada) (Some "c1"))
          [ok (VArr [VObj [("id", VStr "m1"); ("user_id", VStr "p1")];
                     VObj [("id", VStr "m2"); ("user_id", VNull)]]);
           ok adaProfileRow] hookIdle))) = 2%nat
  /\ error (final_state
     (run scripted (fetchMessages (Some ada) (Some "c1"))
          [ok (VArr [VObj [("id", VStr "m1"); ("user_id", VStr "p1")];
                     VObj [("id", VStr "m2"); ("user_id", VNull)]]);
           ok adaProfileRow] hookIdle)) = None.
Proof.
  destruct (hook_fetch_asks_for_senders_only scripted
              [ok (VArr [VObj [("id", VStr "m1"); ("user_id", VStr "p1")];
                         VObj [("id", VStr "m2"); ("user_id", VNull)]]);
               ok adaProfileRow]
              ada "c1"
              [VObj [("id", VStr "m1"); ("user_id", VStr "p1")];
               VObj [("id", VStr "m2"); ("user_id", VNull)]]
              hookIdle) as (_ & Hn & _ & He & _).
  - discriminate.
  - reflexivity.
  - reflexivity.
  - reflexivity.
  - split; [exact Hn|exact He].
Defined.

(** X21. A failed query for the messages leaves the transcript as it was and
    puts the error's message into the hook's [error]; nothing is thrown
    and the loading flag is off. *)
Theorem hook_fetch_failure_sets_error (B : backend) (d : db B)
        (u : User) (chatId : string) (s : state) :
  chatId <> "" ->
  let q := select_from "messages" "*"
           |> eq "chat_id" (VStr chatId)
           |> order "created_at" true in
  hasError (snd (serve B d q)) = true ->
  let out := run B (fetchMessages (Some u) (Some chatId)) d s in
  messages (final_state out) = messages s
  /\ error (final_state out)
     = optString (field "message" (Remote.error (snd (serve B d q))))
  /\ isLoading (final_state out) = false
  /\ requests (trace out) = [q]
  /\ result out = Returned tt.
Proof.
  intros Hchat. cbv zeta. intros Herr.
  apply String.eqb_neq in Hchat. unfold fetchMessages, present, hasError in *.
  rewrite Hchat. cbn [bind setState run].
  rewrite run_tryFinally_set, run_tryCatch. cbn [run bind await].
  destruct (serve B d _) as [d1 r1]. cbn [snd] in Herr |- *.
  rewrite Herr. cbn. repeat split.
Qed.

Lemma hook_fetch_failure_sets_error_witness :
  error (final_state (run scripted (fetchMessages (Some ada) (Some "c1"))
                          [failed "permission denied"] hookIdle))
  = Some "permission denied".
Proof.
  destruct (hook_fetch_failure_sets_error scripted
              [failed "permission denied"] ada "c1" hookIdle)
    as (_ & He & _).
  - discriminate.
  - reflexivity.
  - exact He.
Defined.

(** X22. The hook's [sendMessage] sends the text as given, blank or not. When
    the backend refuses it the caller gets [null], one failure notice
    with the error's message is shown, and the transcript holds what it
    held before except the messages under the temporary id of this send:
    it is as before whenever no earlier message had that id. *)
Theorem hook_send_refused_rolls_back (B : backend) (d : db B) (u : User)
        (chatId text : string) (nowMs : Z) (nowIso : string) (s : state) :
  chatId <> "" ->
  let q := insert_into "messages" (messageRow text chatId (user_id u))
           |> returning |> single in
  hasError (snd (serve B d q)) = true ->
  let out := run B (sendMessage (Some u) (Some chatId) text nowMs nowIso)
                 d s in
  result out = Returned VNull
  /\ messages (final_state out) = withoutId (tempId nowMs) (messages s)
  /\ (hasId (messages s) (tempId nowMs) = false ->
      messages (final_state out) = messages s)
  /\ requests (trace out) = [q]
  /\ events (trace out)
     = [ConsoleError "Failed to send message:"
                     [Remote.error (snd (serve B d q))];
        ToastError "Failed to send message: ${error.message}"
                   [field "message" (Remote.error (snd (serve B d q)))]].
Proof.
  intros Hchat. cbv zeta. intros Herr.
  apply String.eqb_neq in Hchat. unfold sendMessage, present, hasError in *.
  rewrite Hchat. cbn -[withoutId tempId].
  destruct (serve B d _) as [d1 r1]. cbn [snd] in Herr |- *.
  rewrite Herr. cbn -[withoutId tempId].
  rewrite ChatDrawerExtra.withoutId_appended by reflexivity.
  repeat split. apply ChatDrawerExtra.withoutId_fresh.
Qed.

Lemma hook_send_refused_rolls_back_witness :
  result (run scripted
              (sendMessage (Some ada) (Some "c1") "gg wp" sentAt noon)
              [failed "permission denied"] hookIdle) = Returned VNull
  /\ messages (final_state
       (run scripted
            (sendMessage (Some ada) (Some "c1") "gg wp" sentAt noon)
            [failed "permission denied"] hookIdle)) = [].
Proof.
  destruct (hook_send_refused_rolls_back scripted
              [failed "permission denied"] ada "c1" "gg wp" sentAt noon
              hookIdle) as (Hr & Hm & _).
  - discriminate.
  - reflexivity.
  - split; [exact Hr|exact Hm].
Defined.

End UseChatMessagesExtra.

(** * More on the Teams page *)

Module TeamsExtra.
Import Js Remote Backends Services Scenarios Teams RemoteFacts RemoteMore.

(** X23. Whatever the backend answers and whatever the callbacks do, the
    submit handler of the team-creation form returns normally and leaves
    the form unlocked: no rejection escapes it and [isSubmitting] is false
    at the end. *)
Theorem handleSubmit_ends_unlocked (B : backend) (d : db B)
        (parseInt : value -> value) (now : string) (profile : value)
        (onClose : prog state unit)
        (onTeamCreated : option (value -> prog state unit))
        (formData : string -> value) (s : state) :
  let out := run B (handleSubmit parseInt now profile onClose onTeamCreated
                                 formData) d s in
  result out = Returned tt /\ isSubmitting (final_state out) = false.
Proof.
  cbv zeta. unfold handleSubmit. cbn [bind setState run].
  rewrite run_tryFinally_set. cbn [result final_state setIsSubmitting
                                   isSubmitting].
  split; [|reflexivity].
  rewrite run_tryCatch.
  destruct (result (run B _ d (setIsSubmitting true s))) as [[]|e] eqn:Hres.
  - exact Hres.
  - reflexivity.
Qed.

(** X24. The dialog closes exactly when the team was created: when the insert
    on teams is answered with an error or without a row it stays as it
    was, and only that one request has been sent. *)
Theorem dialog_closes_on_success_only (B : backend) (d : db B)
        (parseInt : value -> value) (now : string)
        (profile : value) (pid : string)
        (formData : string -> value) (s : state) :
  profileId profile = VStr pid ->
  let q1 := insert_into "teams" (teamDataOf parseInt profile formData)
            |> returning |> single in
  let r1 := snd (serve B d q1) in
  let out := run B (handleSubmit parseInt now profile closeDialog
                                 (Some handleTeamCreated) formData) d s in
  createTeamDialogOpen (final_state out)
  = (if negb (hasError r1) && truthy (data r1) then false
     else createTeamDialogOpen s)
  /\ (negb (hasError r1) && truthy (data r1) = false ->
      requests (trace out) = [q1])
  /\ isLoading (final_state out) = isLoading s.
Proof.
  intros Hpid. cbv zeta.
  unfold handleSubmit, Api.createTeam, hasError; cbn.
  destruct (serve B d _) as [d1 r1]; cbn.
  unfold Api.throwIfError.
  destruct (truthy (error r1)) eqn:Herr; cbn.
  - repeat split.
  - destruct (truthy (data r1)) eqn:Hdata; cbn.
    + rewrite ?Hpid; cbn.
      destruct (String.eqb pid ""); cbn.
      * repeat split; try discriminate.
      * destruct (serve B d1 _) as [d2 r2]; cbn.
        destruct (truthy (error r2)); cbn; repeat split; discriminate.
    + repeat split.
Qed.

Lemma dialog_closes_on_success_only_witness :
  createTeamDialogOpen
    (final_state (run scripted submitAlpha [ok alphaRow; ok VNull]
                      showingBravo)) = false.
Proof.
  destruct (dialog_closes_on_success_only scripted [ok alphaRow; ok VNull]
              noParse noon profileP1 "p1" alphaForm showingBravo)
    as (H & _).
  - reflexivity.
  - exact H.
Defined.

(** X25. A form submitted without a signed-in profile still creates the team:
    the row is sent with no creator, no membership row is asked for, and
    on success the team is listed among the caller's own teams. *)
Theorem submit_without_profile (B : backend) (d : db B)
        (parseInt : value -> value) (now : string) (profile : value)
        (formData : string -> value) (s : state) :
  profileId profile = VUndefined ->
  let q1 := insert_into "teams" (teamDataOf parseInt profile formData)
            |> returning |> single in
  let r1 := snd (serve B d q1) in
  let out := run B (handleSubmit parseInt now profile closeDialog
                                 (Some handleTeamCreated) formData) d s in
  requests (trace out) = [q1]
  /\ field "created_by" (req_body q1) = VUndefined
  /\ (negb (hasError r1) && truthy (data r1) = true ->
      myTeams (final_state out)
      = withMembers (data r1) (VArr []) :: myTeams s).
Proof.
  intros Hpid. cbv zeta.
  unfold handleSubmit, Api.createTeam, hasError; cbn.
  destruct (serve B d _) as [d1 r1]; cbn.
  unfold Api.throwIfError.
  destruct (truthy (error r1)) eqn:Herr; cbn.
  - rewrite Hpid. repeat split; try discriminate.
  - destruct (truthy (data r1)) eqn:Hdata; cbn; rewrite ?Hpid; cbn.
    + repeat split.
    + repeat split; try discriminate.
Qed.

Lemma submit_without_profile_witness :
  List.length (requests (trace
     (run scripted
          (handleSubmit noParse noon VNull closeDialog
                        (Some handleTeamCreated) alphaForm)
          [ok alphaRow] showingBravo))) = 1%nat.
Proof.
  destruct (submit_without_profile scripted [ok alphaRow] noParse noon VNull
              alphaForm showingBravo) as (H & _).
  - reflexivity.
  - rewrite H. reflexivity.
Defined.

(** ** fetchTeams *)

Import TeamsMore.

Lemma fetchMembers_state {S : Type} (B : backend) (team : value)
      (d : db B) (s : S) :
  final_state (run B (Api.fetchMembers team) d s) = s.
Proof.
  unfold Api.fetchMembers.
  destruct team; cbn; try reflexivity.
  all: destruct (serve B d _) as [d1 r1]; cbn;
    destruct (truthy (error r1)); reflexivity.
Qed.

Lemma members_state {S : Type} (B : backend) (teams : list value) :
  forall (d : db B) (s : S),
    final_state (run B (promiseAll (map Api.fetchMembers teams)) d s) = s.
Proof.
  induction teams as [|team teams IH]; intros d s; [reflexivity|].
  cbn [map]. rewrite run_promiseAll_cons. cbv zeta. cbn [final_state].
  rewrite IH. apply fetchMembers_state.
Qed.

Lemma getTeams_state {S : Type} (B : backend) (d : db B) (s : S) :
  let o := run B Api.getTeams d s in
  final_state o = s
  /\ (forall v, result o = Returned v -> exists rows, v = VArr rows).
Proof.
  cbv zeta. unfold Api.getTeams. rewrite run_tryCatch. cbn [run bind await].
  destruct (serve B d _) as [d1 r1]. unfold Api.throwIfError.
  destruct (truthy (error r1)) eqn:Herr; cbn.
  - split; [reflexivity|discriminate].
  - unfold Api.attachMembers.
    destruct (negb (truthy (data r1))
              || match field "length" (data r1) with
                 | VNum 0 => true
                 | _ => false
                 end) eqn:Hempty.
    + cbn. split; [reflexivity|]. intros v [= <-]. now exists [].
    + destruct (data r1) as [| |b|n|str|teams|fields]; try (cbn; split;
        [reflexivity|discriminate]).
      rewrite run_bind.
      pose proof (members_state B teams d1 s) as Hs.
      destruct (result (run B (promiseAll (map Api.fetchMembers teams)) d1 s))
        as [l|e] eqn:Hres.
      * unfold andThen. cbn. rewrite ?Hres, ?Hs. cbn. rewrite ?Hres.
        split; [reflexivity|]. intros v [= <-]. now exists l.
      * unfold stopped. cbn. rewrite ?Hres, ?Hs. cbn. rewrite ?Hres. cbn.
        split; [reflexivity|discriminate].
Qed.

Lemma filterThrowing_split (profile : value) (l : list value) :
  forall mine,
    filterThrowing (hasMember profile) l = Returned mine ->
    mine = List.filter (listedAsMine profile) l
    /\ filterThrowing (hasNoMember profile) l
       = Returned (List.filter (fun team => negb (listedAsMine profile team))
                               l).
Proof.
  induction l as [|x l IH]; cbn; intros mine Hmine.
  - inversion Hmine. split; reflexivity.
  - unfold hasNoMember, listedAsMine in *.
    destruct (hasMember profile x) as [b|e]; [|discriminate].
    destruct (filterThrowing (hasMember profile) l) as [ys|e]; [|discriminate].
    destruct (IH ys eq_refl) as [-> ->]. inversion Hmine.
    destruct b; split; reflexivity.
Qed.

Lemma filter_partition_perm {A : Type} (f : A -> bool) (l : list A) :
  Permutation (List.filter f l ++ List.filter (fun x => negb (f x)) l) l.
Proof.
  induction l as [|x l IH]; cbn; [constructor|].
  destruct (f x); cbn.
  - now constructor.
  - symmetry. apply Permutation_cons_app. now symmetry.
Qed.

(** X26. Loading the teams never throws and always ends with the loading flag
    off. Either it failed: a failure notice is shown and both lists are as
    they were. Or [getTeams] returned rows and every one of them, with
    its computed properties, is in exactly one list: with a signed-in
    profile the teams having a member whose profile id is the caller's go
    to [myTeams] and all others to [teams], in the order received; without
    one all go to [teams] and [myTeams] is left as it was. *)
Theorem fetchTeams_splits_teams (B : backend) (d : db B) (profile : value)
        (s : state) :
  let out := run B (fetchTeams profile) d s in
  result out = Returned tt
  /\ isLoading (final_state out) = false
  /\ ((In (Event (ToastError "Failed to load teams data" [])) (trace out)
       /\ teams (final_state out) = teams s
       /\ myTeams (final_state out) = myTeams s)
      \/ (exists rows processed,
            result (run B Api.getTeams d (setIsLoading true s))
            = Returned (VArr rows)
            /\ mapThrowing processTeam rows = Returned processed
            /\ events (trace out)
               = events (trace (run B Api.getTeams d (setIsLoading true s)))
            /\ if truthy (profileId profile)
               then myTeams (final_state out)
                    = List.filter (listedAsMine profile) processed
                    /\ teams (final_state out)
                       = List.filter
                           (fun team => negb (listedAsMine profile team))
                           processed
                    /\ Permutation (myTeams (final_state out)
                                    ++ teams (final_state out)) processed
               else teams (final_state out) = processed
                    /\ myTeams (final_state out) = myTeams s)).
Proof.
  cbv zeta. unfold fetchTeams.
  rewrite run_tryFinally_set, run_tryCatch. cbn [bind setState run].
  rewrite run_bind.
  pose proof (getTeams_state B d (setIsLoading true s)) as Hget.
  cbv zeta in Hget. destruct Hget as [Hstate Hshape].
  set (got := run B Api.getTeams d (setIsLoading true s)) in *.
  clearbody got.
  destruct (result got) as [v|e] eqn:Hgot.
  - destruct (Hshape v eq_refl) as [rows ->].
    unfold andThen. cbn [processTeams].
    destruct (mapThrowing processTeam rows) as [processed|e] eqn:Hmap.
    + cbn [lift bind].
      destruct (truthy (profileId profile)) eqn:Hid.
      * destruct (filterThrowing (hasMember profile) processed)
          as [mine|e] eqn:Hmine.
        -- destruct (filterThrowing_split profile processed mine Hmine)
             as [-> Hothers].
           cbn [lift bind setState run]. rewrite Hothers.
           cbn. rewrite ?Hgot. cbn. rewrite ?Hstate. cbn.
           split; [reflexivity|]. split; [reflexivity|]. right.
           exists rows, processed. rewrite ?app_nil_r.
           repeat split; try exact Hmap. apply filter_partition_perm.
        -- cbn. rewrite ?Hgot. cbn. rewrite ?Hstate. cbn.
           split; [reflexivity|]. split; [reflexivity|]. left.
           split; [|split; reflexivity].
           apply in_or_app. right. cbn. auto.
      * cbn. rewrite ?Hgot. cbn. rewrite ?Hstate. cbn.
        split; [reflexivity|]. split; [reflexivity|]. right.
        exists rows, processed. rewrite ?app_nil_r.
        repeat split; exact Hmap.
    + cbn. rewrite ?Hgot. cbn. rewrite ?Hstate. cbn.
      split; [reflexivity|]. split; [reflexivity|]. left.
      split; [|split; reflexivity].
      apply in_or_app. right. cbn. auto.
  - unfold stopped. cbn. rewrite ?Hgot. cbn. rewrite ?Hstate. cbn.
    split; [reflexivity|]. split; [reflexivity|]. left.
    split; [|split; reflexivity].
    apply in_or_app. right. cbn. auto.
Qed.

(** Two teams, the first with the caller among its members. *)
Example fetchTeams_two_teams :
  let answers :=
    [ok (VArr [alphaRow; bravoRow]);
     ok (VArr [VObj [("role", VStr "Captain");
                     ("profile", VObj [("id", VStr "p1")])]]);
     ok (VArr [VObj [("role", VStr "Captain");
                     ("profile", VObj [("id", VStr "p2")])]])] in
  let out := run scripted (fetchTeams profileP1) answers showingBravo in
  map (field "id") (myTeams (final_state out)) = [VStr "t1"]
  /\ map (field "id") (teams (final_state out)) = [VStr "t2"]
  /\ map (field "members") (myTeams (final_state out)) = [VNum 1]
  /\ events (trace out) = [].
Proof. cbv zeta. repeat split. Qed.

End TeamsExtra.
